(** * PyPII: pattern loading, text extraction, detection and report aggregation

    A shallow embedding of the detection and aggregation pipeline of PyPII
    ([pypii/detector/patterns.py], [scan/pattern.py],
    [pypii/detector/pii_detector.py], [utils/file_handler.py],
    [pypii/report/generator.py], [pypii/cli.py]) together with the
    properties the design document states about it.

    Conventions of the embedding:
    - a Python call that may raise returns an [outcome]: [Return v] or
      [Raise e]; [try ... except Exception] is a match on the outcome;
    - Python [int] is [Z];
    - scanned text is a list of Unicode code points ([pystr]), so that
      offsets count characters as Python's [str] does; pattern names, JSON
      keys, MIME types and paths are only compared or searched and are
      Stdlib strings;
    - a Python [dict] is an association list in insertion order;
    - loops that append to a list thread the list as an accumulator;
    - the regular-expression library, [magic], [pdfplumber], [docx] and the
      file system are outside the repository: the regex engine is a record
      of operations ([ReEngine]), and a file is the record of what those
      libraries answer for it ([File]). *)

From Stdlib Require Import List String Ascii ZArith NArith Lia Bool.
From Stdlib Require Import Sorted Permutation.
Import ListNotations.

(** ** The Python runtime the code relies on *)

Module Py.

(** Exceptions raised by the code or by the libraries it calls; all of
    them are instances of [Exception], which [except Exception] catches. *)
Inductive exn : Type :=
| FileNotFoundError
| JSONDecodeError
| KeyError (key : string)
| ReError (pattern : string)
| ValueError (msg : string)
| UnicodeDecodeError
| ImportError (module_name : string)
| OtherException (msg : string).

Inductive outcome (A : Type) : Type :=
| Return (a : A)
| Raise (e : exn).
Arguments Return {A} a.
Arguments Raise {A} e.

Definition bind {A B : Type} (m : outcome A) (k : A -> outcome B) : outcome B :=
  match m with
  | Return a => k a
  | Raise e => Raise e
  end.

(** [for x in l: acc = body acc x], stopping at the first exception. *)
Fixpoint for_loop {S A : Type} (body : S -> A -> outcome S) (l : list A) (acc : S)
  : outcome S :=
  match l with
  | [] => Return acc
  | x :: l' => bind (body acc x) (for_loop body l')
  end.

(** A loop body that only appends to the accumulator what [g] yields for
    the element (or raises what [g] raises). *)
Definition appends {A B : Type} (body : list B -> A -> outcome (list B))
    (g : A -> outcome (list B)) : Prop :=
  forall acc x,
    body acc x = bind (g x) (fun ys => Return (acc ++ ys)).

(** *** str *)

Definition codepoint : Type := N.
Definition pystr : Type := list codepoint.

Definition str_of (s : string) : pystr := map N_of_ascii (list_ascii_of_string s).

Definition len {A : Type} (l : list A) : Z := Z.of_nat (List.length l).

(** Normalisation of one bound of [s[lo:hi]] for a sequence of length [n]:
    a negative bound counts from the end, and both are clamped to [0, n]. *)
Definition slice_index (n i : Z) : Z :=
  if (i <? 0)%Z then Z.max 0 (i + n) else Z.min i n.

Definition py_slice (s : pystr) (lo hi : Z) : pystr :=
  let a := slice_index (len s) lo in
  let b := slice_index (len s) hi in
  firstn (Z.to_nat (b - a)) (skipn (Z.to_nat a) s).

(** The line boundaries of [str.splitlines]: LF, VT, FF, CR, FS, GS, RS,
    NEL, LINE SEPARATOR and PARAGRAPH SEPARATOR; CR LF counts once. *)
Definition LF : codepoint := 10%N.
Definition CR : codepoint := 13%N.

Definition is_linebreak (c : codepoint) : bool :=
  existsb (N.eqb c) [10; 11; 12; 13; 28; 29; 30; 133; 8232; 8233]%N.

(** [s.splitlines()]: the lines without their terminators; a terminator at
    the very end does not open a further (empty) line. *)
Fixpoint splitlines (s : pystr) : list pystr :=
  match s with
  | [] => []
  | c :: s' =>
      if is_linebreak c then
        [] :: splitlines
                (match s' with
                 | c' :: s'' => if (N.eqb c CR && N.eqb c' LF)%bool then s'' else s'
                 | [] => s'
                 end)
      else
        match splitlines s' with
        | [] => [[c]]
        | l :: ls => (c :: l) :: ls
        end
  end.

(** [enumerate(l, start)]. *)
Fixpoint enumerate {A : Type} (l : list A) (start : Z) : list (Z * A) :=
  match l with
  | [] => []
  | x :: l' => (start, x) :: enumerate l' (start + 1)
  end.

(** [sep.join(l)]. *)
Fixpoint join (sep : pystr) (l : list pystr) : pystr :=
  match l with
  | [] => []
  | [x] => x
  | x :: l' => x ++ sep ++ join sep l'
  end.

(** [s.lower()] and [sub in s] on the ASCII strings they are applied to. *)
Definition lower_ascii (a : ascii) : ascii :=
  let n := nat_of_ascii a in
  if ((65 <=? n) && (n <=? 90))%nat%bool then ascii_of_nat (n + 32) else a.

Fixpoint lower (s : string) : string :=
  match s with
  | EmptyString => EmptyString
  | String a s' => String (lower_ascii a) (lower s')
  end.

Fixpoint contains (sub s : string) : bool :=
  if String.prefix sub s then true
  else match s with
       | EmptyString => false
       | String _ s' => contains sub s'
       end.

(** *** dict, with [str] keys *)

Definition dict (V : Type) : Type := list (string * V).

Fixpoint dict_get {V : Type} (k : string) (d : dict V) : option V :=
  match d with
  | [] => None
  | (k', v) :: d' => if String.eqb k k' then Some v else dict_get k d'
  end.

(** [d[k] = v]: an existing key keeps its place, a new one goes last. *)
Fixpoint dict_set {V : Type} (k : string) (v : V) (d : dict V) : dict V :=
  match d with
  | [] => [(k, v)]
  | (k', v') :: d' =>
      if String.eqb k k' then (k', v) :: d' else (k', v') :: dict_set k v d'
  end.

(** [d[k]], raising [KeyError]. *)
Definition getitem {V : Type} (d : dict V) (k : string) : outcome V :=
  match dict_get k d with
  | Some v => Return v
  | None => Raise (KeyError k)
  end.

(** [d.get(k, default)]. *)
Definition get_default {V : Type} (d : dict V) (k : string) (default : V) : V :=
  match dict_get k d with
  | Some v => v
  | None => default
  end.

Definition keys {V : Type} (d : dict V) : list string := map fst d.

End Py.

Import Py.

Declare Scope py_scope.
Delimit Scope py_scope with py.
Notation "x <- m ;; k" := (bind m (fun x => k))
  (at level 61, m at next level, right associativity) : py_scope.
Local Open Scope py_scope.
Local Open Scope string_scope.
Local Open Scope list_scope.

(** ** pypii/detector/patterns.py and scan/pattern.py *)

Module Patterns.

Inductive RiskLevel : Type := HIGH | MEDIUM | LOW.

(** [RiskLevel.X.value]. *)
Definition value (r : RiskLevel) : string :=
  match r with
  | HIGH => "HIGH"
  | MEDIUM => "MEDIUM"
  | LOW => "LOW"
  end.

(** [RiskLevel[key]]: lookup of a member by name. *)
Definition RiskLevel_getitem (key : string) : outcome RiskLevel :=
  if key =? "HIGH" then Return HIGH
  else if key =? "MEDIUM" then Return MEDIUM
  else if key =? "LOW" then Return LOW
  else Raise (KeyError key).

Record PIIPattern : Type := {
  name : string;
  pattern : string;
  risk_level : RiskLevel;
  description : string
}.

(** [scan/pattern.py] declares the same dataclass under another name. *)
Definition DataPattern : Type := PIIPattern.

(** One pattern record of the JSON document: an object with string
    values. *)
Definition record : Type := dict string.

(** The JSON document after [json.load], at the shape the loader's
    annotations assume: an object whose entries (among them, possibly,
    ["patterns"]) map risk-level keys to lists of records. *)
Definition document : Type := dict (dict (list record)).

(** What the loader finds at [pattern_file]: no file, a file that is not
    JSON, or a JSON document. *)
Inductive pattern_file : Type :=
| NoSuchFile
| NotJson
| Json (data : document).

Definition load_patterns (pattern_file : pattern_file) : outcome (list PIIPattern) :=
  match pattern_file with
  | NoSuchFile => Raise FileNotFoundError
  | NotJson => Raise JSONDecodeError
  | Json data =>
      groups <- getitem data "patterns" ;;
      for_loop
        (fun patterns '(risk_level, pattern_list) =>
           for_loop
             (fun patterns p =>
                p_name <- getitem p "name" ;;
                p_pattern <- getitem p "pattern" ;;
                level <- RiskLevel_getitem risk_level ;;
                let pattern :=
                  {| name := p_name;
                     pattern := p_pattern;
                     risk_level := level;
                     description := get_default p "description" "" |} in
                Return (patterns ++ [pattern]))
             pattern_list patterns)
        groups []
  end.

End Patterns.

(** [scan/pattern.py]: [PatternLoader.load_patterns] there is the same
    function, building [DataPattern]s. *)
Module ScanPattern.
Definition load_patterns (pattern_file : Patterns.pattern_file)
  : outcome (list Patterns.DataPattern) :=
  match pattern_file with
  | Patterns.NoSuchFile => Raise FileNotFoundError
  | Patterns.NotJson => Raise JSONDecodeError
  | Patterns.Json data =>
      groups <- getitem data "patterns" ;;
      for_loop
        (fun patterns '(risk_level, pattern_list) =>
           for_loop
             (fun patterns p =>
                p_name <- getitem p "name" ;;
                p_pattern <- getitem p "pattern" ;;
                level <- Patterns.RiskLevel_getitem risk_level ;;
                let pattern :=
                  {| Patterns.name := p_name;
                     Patterns.pattern := p_pattern;
                     Patterns.risk_level := level;
                     Patterns.description := get_default p "description" "" |} in
                Return (patterns ++ [pattern]))
             pattern_list patterns)
        groups []
  end.
End ScanPattern.

(** ** What the outside world answers for one file *)

Module Fs.

(** A [pathlib.Path], compared by its (normalised) string. *)
Definition Path : Type := string.

(** [docx.Document(path)]: the text of each paragraph, and for each table
    its rows of cell texts. *)
Record DocxDocument : Type := {
  paragraphs : list pystr;
  tables : list (list (list pystr))
}.

Record File : Type := {
  path : Path;
  (** [path.suffix] *)
  suffix : string;
  (** [magic.from_file(str(path), mime=True)] *)
  magic_from_file : outcome string;
  (** reading the whole file as UTF-8 text *)
  read_text : outcome pystr;
  (** [pdfplumber.open(path)] (with its import), then for each page of
      [pdf.pages] the answer of [page.extract_text()], [None] included *)
  pdf_pages : outcome (list (outcome (option pystr)));
  (** [docx.Document(path)] (with its import) *)
  docx_Document : outcome DocxDocument
}.

(** Log records of level WARNING and above (DEBUG and INFO records are
    not modelled): the level, the file the message is about and the
    exception it reports, if any. *)
Inductive level : Type := WARNING | ERROR.
Definition log_record : Type := (level * Path * option exn)%type.

(** [x or ""] for [x] a string or [None]. *)
Definition or_empty (x : option pystr) : pystr :=
  match x with
  | Some s => s
  | None => []
  end.

End Fs.

(** ** pypii/detector/pii_detector.py *)

Module Detector.
Import Fs.

(** A match object: [match.span()] is [(m_start, m_end)], [match.group()]
    is [m_group]. *)
Record Match : Type := {
  m_start : Z;
  m_end : Z;
  m_group : pystr
}.

(** The part of Python's [re] the detector uses: [re.compile], which
    raises [re.error] ([None] here) on a pattern that does not parse, and
    [finditer] of a compiled pattern. *)
Record ReEngine : Type := {
  regex : Type;
  re_compile : string -> option regex;
  finditer : regex -> pystr -> list Match
}.

Record DetectionResult : Type := {
  pattern_name : string;
  matched_text : pystr;
  start_pos : Z;
  end_pos : Z;
  risk_level : string;
  line_number : Z;
  context : pystr;
  file_path : option Path
}.

Definition set_file_path (p : Path) (r : DetectionResult) : DetectionResult :=
  {| pattern_name := pattern_name r;
     matched_text := matched_text r;
     start_pos := start_pos r;
     end_pos := end_pos r;
     risk_level := risk_level r;
     line_number := line_number r;
     context := context r;
     file_path := Some p |}.

(** The default of [context_chars]. *)
Definition default_context_chars : Z := 50.

(** The text [detect_file] obtains in its [try] block. *)
Definition detect_file_text (f : File) (mime_type : string) : outcome pystr :=
  if contains "pdf" (lower mime_type) then
    pages <- pdf_pages f ;;
    for_loop
      (fun text page => extracted <- page ;; Return (text ++ or_empty extracted))
      pages []
  else if (contains "officedocument.wordprocessingml.document" (lower mime_type)
           || String.eqb (lower (suffix f)) ".docx")%bool then
    doc <- docx_Document f ;;
    let paragraphs_text := paragraphs doc in
    let tables_text :=
      fold_left
        (fun tables_text table =>
           fold_left
             (fun tables_text row => tables_text ++ [join (str_of " ") row])
             table tables_text)
        (tables doc) [] in
    Return (join [LF] (paragraphs_text ++ tables_text))
  else
    read_text f.

Section WithEngine.
Context (E : ReEngine).

Record PIIDetector : Type := {
  patterns : list Patterns.PIIPattern;
  compiled_patterns : dict (regex E)
}.

(** [PIIDetector(pattern_file)]. *)
Definition __init__ (pattern_file : Patterns.pattern_file) : outcome PIIDetector :=
  patterns <- Patterns.load_patterns pattern_file ;;
  compiled <- for_loop
                (fun compiled pattern =>
                   match re_compile E (Patterns.pattern pattern) with
                   | Some re => Return (dict_set (Patterns.name pattern) re compiled)
                   | None => Raise (ReError (Patterns.pattern pattern))
                   end)
                patterns [] ;;
  Return {| patterns := patterns; compiled_patterns := compiled |}.

Definition detect (self : PIIDetector) (text : pystr) (context_chars : Z)
  : outcome (list DetectionResult) :=
  let lines := splitlines text in
  for_loop
    (fun results '(line_num, line) =>
       for_loop
         (fun results pattern =>
            re <- getitem (compiled_patterns self) (Patterns.name pattern) ;;
            Return
              (fold_left
                 (fun results m =>
                    let start := m_start m in
                    let end_ := m_end m in
                    let context_start := Z.max 0 (start - context_chars) in
                    let context_end := Z.min (len line) (end_ + context_chars) in
                    let context := py_slice line context_start context_end in
                    let result :=
                      {| pattern_name := Patterns.name pattern;
                         matched_text := m_group m;
                         start_pos := start;
                         end_pos := end_;
                         risk_level := Patterns.value (Patterns.risk_level pattern);
                         line_number := line_num;
                         context := context;
                         file_path := None |} in
                    results ++ [result])
                 (finditer E re line) results))
         (patterns self) results)
    (enumerate lines 1) [].

Definition detect_file (self : PIIDetector) (f : File)
  : outcome (list DetectionResult) * list log_record :=
  match magic_from_file f with
  | Raise e => (Raise e, [])
  | Return mime_type =>
      let attempt :=
        text <- detect_file_text f mime_type ;;
        results <- detect self text default_context_chars ;;
        Return (map (set_file_path (path f)) results) in
      match attempt with
      | Return results => (Return results, [])
      | Raise e => (Return [], [(ERROR, path f, Some e)])
      end
  end.

End WithEngine.

Arguments patterns {E} _.
Arguments compiled_patterns {E} _.
Arguments detect {E} self text context_chars.
Arguments detect_file {E} self f.

End Detector.

(** ** utils/file_handler.py *)

Module FileHandler.
Import Fs.

Inductive FileType : Type := TEXT | PDF | DOCX | UNKNOWN.

Definition get_file_type (f : File) : outcome FileType * list log_record :=
  match magic_from_file f with
  | Raise e => (Raise e, [])
  | Return mime =>
      let mime_type := lower mime in
      if contains "text/plain" mime_type then (Return TEXT, [])
      else if contains "pdf" mime_type then (Return PDF, [])
      else if (contains "officedocument.wordprocessingml.document" mime_type
               || String.eqb (lower (suffix f)) ".docx")%bool then (Return DOCX, [])
      else (Return UNKNOWN, [(WARNING, path f, None)])
  end.

Definition _extract_from_text (f : File) : outcome pystr := read_text f.

(** [except ImportError: logger.error(...); raise]. *)
Definition log_import_error (f : File) {A : Type} (r : outcome A) : list log_record :=
  match r with
  | Raise (ImportError m) => [(ERROR, path f, Some (ImportError m))]
  | _ => []
  end.

Definition _extract_from_pdf (f : File) : outcome pystr * list log_record :=
  let attempt :=
    pages <- pdf_pages f ;;
    texts <- for_loop
               (fun texts page =>
                  extracted <- page ;; Return (texts ++ [or_empty extracted]))
               pages [] ;;
    Return (join [LF] texts) in
  (attempt, log_import_error f attempt).

Definition _extract_from_docx (f : File) : outcome pystr * list log_record :=
  let attempt :=
    doc <- docx_Document f ;;
    let paragraphs := paragraphs doc in
    let tables :=
      fold_left
        (fun tables table =>
           fold_left (fun tables row => tables ++ [join (str_of " ") row]) table tables)
        (tables doc) [] in
    Return (join [LF] (paragraphs ++ tables)) in
  (attempt, log_import_error f attempt).

(** [f"Unsupported file type: {path.suffix}"]. *)
Definition unsupported_message (f : File) : string :=
  String.append "Unsupported file type: " (suffix f).

(** The [try] block of [extract_text]. *)
Definition extract_text_try (f : File) (file_type : FileType)
  : outcome pystr * list log_record :=
  match file_type with
  | TEXT => (_extract_from_text f, [])
  | PDF => _extract_from_pdf f
  | DOCX => _extract_from_docx f
  | UNKNOWN => (Raise (ValueError (unsupported_message f)), [(ERROR, path f, None)])
  end.

Definition extract_text (f : File) : outcome (option pystr) * list log_record :=
  match get_file_type f with
  | (Raise e, log) => (Raise e, log)
  | (Return file_type, log) =>
      match extract_text_try f file_type with
      | (Return text, log') => (Return (Some text), log ++ log')
      | (Raise e, log') => (Return None, log ++ log' ++ [(ERROR, path f, Some e)])
      end
  end.

End FileHandler.

(** ** pypii/report/generator.py *)

Module Report.
Import Fs Detector.

Record ScanSummary : Type := {
  total_files : Z;
  total_detections : Z;
  risk_level_counts : dict Z;
  pattern_counts : dict Z;
  scan_time : string
}.

Record ReportGenerator : Type := {
  results : list DetectionResult;
  scanned_files : list Path
}.

(** [ReportGenerator()]. *)
Definition __init__ : ReportGenerator := {| results := []; scanned_files := [] |}.

(** [add_results(results, file_path)]; [file_path] is a [Path] or [None],
    and a [Path] object is always true in [if file_path:]. *)
Definition add_results (self : ReportGenerator) (new_results : list DetectionResult)
    (file_path : option Path) : ReportGenerator :=
  {| results := results self ++ new_results;
     scanned_files :=
       match file_path with
       | Some p => scanned_files self ++ [p]
       | None => scanned_files self
       end |}.

(** [generate_summary()]; [now] is [datetime.now().isoformat()]. *)
Definition generate_summary (self : ReportGenerator) (now : string) : ScanSummary :=
  let '(risk_counts, pattern_counts) :=
    fold_left
      (fun '(risk_counts, pattern_counts) result =>
         (dict_set (risk_level result)
                   (get_default risk_counts (risk_level result) 0 + 1)%Z risk_counts,
          dict_set (pattern_name result)
                   (get_default pattern_counts (pattern_name result) 0 + 1)%Z
                   pattern_counts))
      (results self) ([], []) in
  {| total_files := len (scanned_files self);
     total_detections := len (results self);
     risk_level_counts := risk_counts;
     pattern_counts := pattern_counts;
     scan_time := now |}.

(** [Path('unknown')]. *)
Definition unknown : Path := "unknown".

(** [result.file_path or Path('unknown')]. *)
Definition group_key (result : DetectionResult) : Path :=
  match file_path result with
  | Some p => p
  | None => unknown
  end.

(** The body of the loop of [_group_by_file]: [grouped[file_path]] is read
    after the key was added if it was missing, so it cannot raise. *)
Definition group_step (grouped : dict (list DetectionResult)) (result : DetectionResult)
  : dict (list DetectionResult) :=
  let file_path := group_key result in
  let grouped :=
    match dict_get file_path grouped with
    | None => dict_set file_path [] grouped
    | Some _ => grouped
    end in
  dict_set file_path (get_default grouped file_path [] ++ [result]) grouped.

Definition _group_by_file (self : ReportGenerator) : dict (list DetectionResult) :=
  fold_left group_step (results self) [].

End Report.

(** ** pypii/cli.py *)

Module Cli.
Import Fs Detector Report.

(** [scan_files], from the construction of the detector on; [files] is
    the list the function iterates over (the one path given, or what the
    directory scanner yields). *)
Definition scan_files (E : ReEngine) (files : list File)
    (pattern_file : Patterns.pattern_file)
  : outcome ReportGenerator * list log_record :=
  match Detector.__init__ E pattern_file with
  | Raise e => (Raise e, [])
  | Return detector =>
      let '(report_gen, log) :=
        fold_left
          (fun '(report_gen, log) file =>
             match detect_file detector file with
             | (Return results, log') =>
                 (match results with
                  | [] => report_gen
                  | _ :: _ => add_results report_gen results (Some (path file))
                  end,
                  log ++ log')
             | (Raise e, log') =>
                 (report_gen, log ++ log' ++ [(ERROR, path file, Some e)])
             end)
          files (Report.__init__, []) in
      (Return report_gen, log)
  end.

End Cli.

(** ** A regular-expression engine for literal patterns

    An instance of [ReEngine] on which the development can be run: a pattern
    made of letters, digits, spaces, [-] and [_] only has no metacharacter
    and is matched literally, leftmost first and without overlap, as
    Python's [re] matches it; every other pattern is refused (Python's [re]
    refuses some of them, ["("] among them, and compiles the rest). *)

Module LiteralRe.
Import Detector.

Definition is_plain (a : ascii) : bool :=
  let n := nat_of_ascii a in
  ((48 <=? n) && (n <=? 57) || (65 <=? n) && (n <=? 90) || (97 <=? n) && (n <=? 122)
   || (n =? 32) || (n =? 45) || (n =? 95))%nat%bool.

Definition compile (p : string) : option pystr :=
  if forallb is_plain (list_ascii_of_string p) then Some (str_of p) else None.

Fixpoint is_prefix (needle s : pystr) : bool :=
  match needle, s with
  | [], _ => true
  | _ :: _, [] => false
  | a :: needle', b :: s' => (N.eqb a b && is_prefix needle' s')%bool
  end.

Definition found (needle : pystr) (pos : Z) : Match :=
  {| m_start := pos; m_end := (pos + len needle)%Z; m_group := needle |}.

(** Scan of the rest [s] of the line, which starts at offset [pos];
    [skip] characters belong to the previous match. *)
Fixpoint scan (needle s : pystr) (pos : Z) (skip : nat) : list Match :=
  match s with
  | [] =>
      match skip with
      | O => if is_prefix needle [] then [found needle pos] else []
      | S _ => []
      end
  | _ :: s' =>
      match skip with
      | S skip' => scan needle s' (pos + 1)%Z skip'
      | O =>
          if is_prefix needle s
          then found needle pos :: scan needle s' (pos + 1)%Z (pred (List.length needle))
          else scan needle s' (pos + 1)%Z 0
      end
  end.

Definition engine : ReEngine :=
  {| regex := pystr;
     re_compile := compile;
     finditer := fun needle line => scan needle line 0 0 |}.

End LiteralRe.

(** ** Vocabulary of the specification *)

Module Spec.
Import Fs Detector.

(** The contract of [re]'s match objects and of [finditer]: a span lies
    inside the searched string, [group()] is the slice at the span, and
    successive matches do not overlap. *)
Definition match_ok (line : pystr) (m : Match) : Prop :=
  (0 <= m_start m <= m_end m)%Z /\ (m_end m <= len line)%Z
  /\ m_group m = py_slice line (m_start m) (m_end m).

Definition before (m m' : Match) : Prop := (m_end m <= m_start m')%Z.

Definition re_contract (E : ReEngine) : Prop :=
  forall (re : regex E) (line : pystr),
    Forall (match_ok line) (finditer E re line)
    /\ Sorted before (finditer E re line).

(** A segment without any line boundary, and the segments of a text
    that count as lines: all of them, except an empty last one. *)
Definition no_linebreak (seg : pystr) : Prop :=
  Forall (fun c => is_linebreak c = false) seg.

Fixpoint drop_empty_last (segs : list pystr) : list pystr :=
  match segs with
  | [] => []
  | [x] => match x with [] => [] | _ :: _ => [x] end
  | x :: segs' => x :: drop_empty_last segs'
  end.

(** The substring of [s] from offset [a] up to offset [b]. *)
Definition substring (s : pystr) (a b : Z) : pystr :=
  firstn (Z.to_nat b - Z.to_nat a) (skipn (Z.to_nat a) s).

(** [sub] occurs in [s] as a contiguous run of characters. *)
Definition contiguous_in (sub s : pystr) : Prop :=
  exists pre post, s = pre ++ sub ++ post.

(** The sort key of a finding: its line, the position of its pattern in
    the declared order and the start of the match, compared
    lexicographically. *)
Definition sort_key : Type := (Z * nat * Z)%type.

Definition key_le (a b : sort_key) : Prop :=
  let '(l1, i1, s1) := a in
  let '(l2, i2, s2) := b in
  (l1 < l2)%Z \/ (l1 = l2 /\ ((i1 < i2)%nat \/ (i1 = i2 /\ (s1 <= s2)%Z))).

(** The finding [r] comes from the pattern declared at position [i]. *)
Definition declared_at (ps : list Patterns.PIIPattern) (i : nat) (r : DetectionResult)
  : Prop :=
  exists p, nth_error ps i = Some p
            /\ Patterns.name p = pattern_name r
            /\ Patterns.value (Patterns.risk_level p) = risk_level r.

Definition attributed_key (ir : nat * DetectionResult) : sort_key :=
  (line_number (snd ir), fst ir, start_pos (snd ir)).

(** The first position of [x] in [l] ([length l] when absent). *)
Fixpoint index_of (x : string) (l : list string) : nat :=
  match l with
  | [] => 0
  | y :: l' => if String.eqb x y then 0 else S (index_of x l')
  end.

Definition key_of (ps : list Patterns.PIIPattern) (r : DetectionResult) : sort_key :=
  (line_number r, index_of (pattern_name r) (map Patterns.name ps), start_pos r).

(** The findings the detector reports for one pattern on one line. *)
Definition make_result (p : Patterns.PIIPattern) (line_num : Z) (line : pystr)
    (context_chars : Z) (m : Match) : DetectionResult :=
  {| pattern_name := Patterns.name p;
     matched_text := m_group m;
     start_pos := m_start m;
     end_pos := m_end m;
     risk_level := Patterns.value (Patterns.risk_level p);
     line_number := line_num;
     context := py_slice line (Z.max 0 (m_start m - context_chars))
                         (Z.min (len line) (m_end m + context_chars));
     file_path := None |}.

(** What the detector reports for one pattern on one line, for one line,
    and for a text, when every pattern has its compiled expression. *)
Definition findings {E : ReEngine} (d : PIIDetector E) (context_chars : Z)
    (nl : Z * pystr) (p : Patterns.PIIPattern) : list DetectionResult :=
  match dict_get (Patterns.name p) (compiled_patterns d) with
  | Some re => map (make_result p (fst nl) (snd nl) context_chars)
                   (finditer E re (snd nl))
  | None => []
  end.

Definition findings_in_line {E : ReEngine} (d : PIIDetector E) (context_chars : Z)
    (nl : Z * pystr) : list DetectionResult :=
  flat_map (findings d context_chars nl) (patterns d).

Definition findings_in_text {E : ReEngine} (d : PIIDetector E) (text : pystr)
    (context_chars : Z) : list DetectionResult :=
  flat_map (findings_in_line d context_chars) (enumerate (splitlines text) 1).

(** The same findings, each with the position of the pattern it comes
    from. *)
Definition numbered {A : Type} (l : list A) : list (nat * A) :=
  combine (seq 0 (List.length l)) l.

Definition attributed {E : ReEngine} (d : PIIDetector E) (text : pystr)
    (context_chars : Z) : list (nat * DetectionResult) :=
  flat_map
    (fun nl =>
       flat_map (fun ip => map (pair (fst ip)) (findings d context_chars nl (snd ip)))
                (numbered (patterns d)))
    (enumerate (splitlines text) 1).

(** What the two inner loops of [detect] add to [results] for one pattern
    on one line, and the body of the loop over the patterns. *)
Definition lookup_findings {E : ReEngine} (d : PIIDetector E) (context_chars : Z)
    (nl : Z * pystr) (p : Patterns.PIIPattern) : outcome (list DetectionResult) :=
  re <- getitem (compiled_patterns d) (Patterns.name p) ;;
  Return (map (make_result p (fst nl) (snd nl) context_chars) (finditer E re (snd nl))).

Definition pattern_loop {E : ReEngine} (d : PIIDetector E) (context_chars : Z)
    (nl : Z * pystr)
  : list DetectionResult -> Patterns.PIIPattern -> outcome (list DetectionResult) :=
  fun results p =>
    ys <- lookup_findings d context_chars nl p ;; Return (results ++ ys).

(** Every declared pattern has a compiled expression. *)
Definition all_compiled {E : ReEngine} (d : PIIDetector E) : Prop :=
  forall p, In p (patterns d) ->
            dict_get (Patterns.name p) (compiled_patterns d) <> None.

(** The compilation loop of [PIIDetector.__init__]. *)
Definition compile_all (E : ReEngine) (ps : list Patterns.PIIPattern)
    (compiled : dict (regex E)) : outcome (dict (regex E)) :=
  for_loop
    (fun compiled pattern =>
       match re_compile E (Patterns.pattern pattern) with
       | Some re => Return (dict_set (Patterns.name pattern) re compiled)
       | None => Raise (ReError (Patterns.pattern pattern))
       end)
    ps compiled.

(** The records of a pattern document in declared order, each with the
    key of its group. *)
Definition declared_records (groups : dict (list Patterns.record))
  : list (string * Patterns.record) :=
  flat_map (fun '(risk_level, pattern_list) => map (pair risk_level) pattern_list) groups.

Definition total_records (groups : dict (list Patterns.record)) : nat :=
  list_sum (map (fun g => List.length (snd g)) groups).

(** The pattern [pat] is the one the record [p] of group [key] declares. *)
Definition represents (pat : Patterns.PIIPattern) (kp : string * Patterns.record) : Prop :=
  dict_get "name" (snd kp) = Some (Patterns.name pat)
  /\ dict_get "pattern" (snd kp) = Some (Patterns.pattern pat)
  /\ Patterns.value (Patterns.risk_level pat) = fst kp
  /\ Patterns.description pat
     = match dict_get "description" (snd kp) with
       | Some d => d
       | None => ""
       end.

Definition valid_risk_key (k : string) : Prop := k = "HIGH" \/ k = "MEDIUM" \/ k = "LOW".

Definition has_fields (p : Patterns.record) : Prop :=
  dict_get "name" p <> None /\ dict_get "pattern" p <> None.


(** What one record of the group [risk_level] adds to the loaded list,
    and what one group adds. *)
Definition declare (risk_level : string) (p : Patterns.record)
  : outcome (list Patterns.PIIPattern) :=
  p_name <- getitem p "name" ;;
  p_pattern <- getitem p "pattern" ;;
  level <- Patterns.RiskLevel_getitem risk_level ;;
  Return [ {| Patterns.name := p_name;
              Patterns.pattern := p_pattern;
              Patterns.risk_level := level;
              Patterns.description := get_default p "description" "" |} ].

Definition declare_group (g : string * list Patterns.record)
  : outcome (list Patterns.PIIPattern) :=
  for_loop
    (fun patterns p =>
       p_name <- getitem p "name" ;;
       p_pattern <- getitem p "pattern" ;;
       level <- Patterns.RiskLevel_getitem (fst g) ;;
       Return (patterns
                 ++ [ {| Patterns.name := p_name;
                         Patterns.pattern := p_pattern;
                         Patterns.risk_level := level;
                         Patterns.description := get_default p "description" "" |} ]))
    (snd g) [].

(** The findings [detect_file] returns for a file, none when it raises. *)
Definition found_in {E : ReEngine} (d : PIIDetector E) (f : File)
  : list DetectionResult :=
  match fst (detect_file d f) with
  | Return rs => rs
  | Raise _ => []
  end.

(** The paths passed to a sequence of [add_results] calls. *)
Definition passed_paths (calls : list (list DetectionResult * option Path)) : list Path :=
  flat_map (fun call => match snd call with Some p => [p] | None => [] end) calls.

Definition ingest (calls : list (list DetectionResult * option Path))
  : Report.ReportGenerator :=
  fold_left (fun gen call => Report.add_results gen (fst call) (snd call))
            calls Report.__init__.

Definition distinct (l : list Path) : Z := len (nodup string_dec l).

(** The findings of [l] whose grouping key is [k], in order. *)
Definition with_key (k : Path) (l : list DetectionResult) : list DetectionResult :=
  filter (fun r => String.eqb (Report.group_key r) k) l.

(** The group of the key [k] among the findings [l]: none when no
    finding has this key. *)
Definition group_of (k : Path) (l : list DetectionResult)
  : option (list DetectionResult) :=
  match with_key k l with
  | [] => None
  | g => Some g
  end.

(** All the findings of a grouping, group after group. *)
Definition flatten (grouped : dict (list DetectionResult)) : list DetectionResult :=
  List.concat (map snd grouped).

End Spec.

(** ** Sample inputs *)

Module Sample.
Import Fs Detector.

(** Two groups, three records; the last one has a description. *)
Definition two_groups : Patterns.document :=
  [("patterns",
    [("HIGH", [[("name", "rrn"); ("pattern", "950101-1234567")];
               [("name", "passport"); ("pattern", "M12345678")]]);
     ("LOW", [[("name", "bee"); ("pattern", "b"); ("description", "letter b")]])])].

(** A record whose expression does not parse, then a group whose key is
    not a risk level. *)
Definition bad_expression_and_bad_key : Patterns.document :=
  [("patterns",
    [("HIGH", [[("name", "open"); ("pattern", "(")]]);
     ("CRITICAL", [[("name", "x"); ("pattern", "x")]])])].


(** The detector [PIIDetector(two_groups)] over the literal engine. *)
Definition detector : PIIDetector LiteralRe.engine :=
  Build_PIIDetector LiteralRe.engine
    [ {| Patterns.name := "rrn"; Patterns.pattern := "950101-1234567";
         Patterns.risk_level := Patterns.HIGH; Patterns.description := "" |};
      {| Patterns.name := "passport"; Patterns.pattern := "M12345678";
         Patterns.risk_level := Patterns.HIGH; Patterns.description := "" |};
      {| Patterns.name := "bee"; Patterns.pattern := "b";
         Patterns.risk_level := Patterns.LOW;
         Patterns.description := "letter b" |} ]
    [("rrn", str_of "950101-1234567"); ("passport", str_of "M12345678");
     ("bee", str_of "b")].

Definition no_answer {A : Type} : outcome A := Raise (OtherException "not this format").

(** An HTML page holding a registration number: [magic] reports
    [text/html], and the bytes are valid UTF-8. *)
Definition html_file : File :=
  {| path := "page.html";
     suffix := ".html";
     magic_from_file := Return "text/html";
     read_text := Return (str_of "<html>950101-1234567</html>");
     pdf_pages := no_answer;
     docx_Document := no_answer |}.

(** A PDF of three pages; the second has no extractable text. *)
Definition three_pages : File :=
  {| path := "scan.pdf";
     suffix := ".pdf";
     magic_from_file := Return "application/pdf";
     read_text := Raise UnicodeDecodeError;
     pdf_pages := Return [Return (Some (str_of "id 950101-"));
                          Return None;
                          Return (Some (str_of "1234567 b"))];
     docx_Document := no_answer |}.

(** A plain-text file that is not valid UTF-8. *)
Definition undecodable : File :=
  {| path := "latin1.txt";
     suffix := ".txt";
     magic_from_file := Return "text/plain";
     read_text := Raise UnicodeDecodeError;
     pdf_pages := no_answer;
     docx_Document := no_answer |}.

(** A readable plain-text file. *)
Definition notes : File :=
  {| path := "notes.txt";
     suffix := ".txt";
     magic_from_file := Return "text/plain";
     read_text := Return (str_of "abc");
     pdf_pages := no_answer;
     docx_Document := no_answer |}.

(** A text of two lines and the two findings of [detector] in it with a
    context of two characters. *)
Definition two_lines : pystr :=
  str_of "hello" ++ [LF] ++ str_of "id 950101-1234567 b".

Definition rrn_finding : DetectionResult :=
  {| pattern_name := "rrn";
     matched_text := str_of "950101-1234567";
     start_pos := 3;
     end_pos := 17;
     risk_level := "HIGH";
     line_number := 2;
     context := str_of "d 950101-1234567 b";
     file_path := None |}.

Definition bee_finding : DetectionResult :=
  {| pattern_name := "bee";
     matched_text := str_of "b";
     start_pos := 18;
     end_pos := 19;
     risk_level := "LOW";
     line_number := 2;
     context := str_of "7 b";
     file_path := None |}.

(** The line of the detector's own test, in code points: five Hangul
    syllables, a space, the registration number, a space and three
    syllables. *)
Definition hangul_line : pystr :=
  [51452; 48124; 48264; 54840; 45716; 32]%N ++ str_of "950101-1234567"
    ++ [32; 51077; 45768; 45796]%N.

Definition finding (name : string) (file : option Path) : DetectionResult :=
  {| pattern_name := name;
     matched_text := str_of "b";
     start_pos := 1;
     end_pos := 2;
     risk_level := "LOW";
     line_number := 1;
     context := str_of "abc";
     file_path := file |}.

End Sample.

(** * The rest of the code *)

(** ** pypii/scanner/file_scanner.py *)

Module FileScanner.
Import Fs.

(** The default of [supported_types]. *)
Definition default_supported_types : list string :=
  ["text/plain";
   "application/pdf";
   "application/vnd.openxmlformats-officedocument.wordprocessingml.document";
   "application/vnd.openxmlformats-officedocument.spreadsheetml.sheet";
   "application/msword"].

(** A scanner holds its set of supported MIME types, here a list that is
    only tested for membership. *)
Definition FileScanner : Type := list string.

(** [FileScanner(supported_types)]: [supported_types or {...}], where both
    [None] and the empty set are false. *)
Definition __init__ (supported_types : option (list string)) : FileScanner :=
  match supported_types with
  | Some (t :: ts) => t :: ts
  | Some [] => default_supported_types
  | None => default_supported_types
  end.

(** [x in s]. *)
Definition mem (x : string) (s : list string) : bool := existsb (String.eqb x) s.

(** [_is_supported_file]: the whole body is in a [try] whose handler logs
    the exception and returns [False]. *)
Definition _is_supported_file (self : FileScanner) (f : File) : bool * list log_record :=
  if String.eqb (lower (suffix f)) ".docx" then (true, [])
  else
    match magic_from_file f with
    | Return mime => (mem mime self, [])
    | Raise e => (false, [(ERROR, path f, Some e)])
    end.

(** One path of [root_path.rglob("*")]: whether it [is_file()], and what
    the world answers for it. *)
Record Entry : Type := {
  is_file : bool;
  entry : File
}.

(** [list(scan_directory(path))]; [root] is [None] when the path does not
    exist and otherwise what [rglob] yields, in its order.
    [_is_supported_file] returns a boolean whatever happens, so the handler
    around its call has nothing to catch. *)
Definition scan_directory (self : FileScanner) (root : option (list Entry))
  : outcome (list File) * list log_record :=
  match root with
  | None => (Raise FileNotFoundError, [])
  | Some entries =>
      let '(found, log) :=
        fold_left
          (fun '(found, log) file_path =>
             if is_file file_path then
               let '(supported, log') := _is_supported_file self (entry file_path) in
               (if supported then found ++ [entry file_path] else found, log ++ log')
             else (found, log))
          entries ([], []) in
      (Return found, log)
  end.

End FileScanner.

(** ** pypii/cli.py, from the path on *)

Module CliMain.
Import Fs.

(** What [scan_files] finds at [path]: a file ([target_path.is_file()]),
    or else whatever [scan_directory] makes of it. *)
Inductive Target : Type :=
| IsFile (f : File)
| NotAFile (root : option (list FileScanner.Entry)).

(** [scan_files(path, pattern_file)]: the scanner, then the detector, then
    the list of files, then the loop over them. *)
Definition scan_files (E : Detector.ReEngine) (path : Target)
    (pattern_file : Patterns.pattern_file)
  : outcome Report.ReportGenerator * list log_record :=
  let scanner := FileScanner.__init__ None in
  match Detector.__init__ E pattern_file with
  | Raise e => (Raise e, [])
  | Return _ =>
      let files :=
        match path with
        | IsFile f => (Return [f], [])
        | NotAFile root => FileScanner.scan_directory scanner root
        end in
      match files with
      | (Raise e, log) => (Raise e, log)
      | (Return files, log) =>
          let '(report_gen, log') := Cli.scan_files E files pattern_file in
          (report_gen, log ++ log')
      end
  end.

(** A line [main] prints: the two headings, the number of files, the
    number of findings, and one line per risk level. *)
Inductive summary_line : Type :=
| Heading
| FilesLine (total_files : Z)
| DetectionsLine (total_detections : Z)
| LevelsHeading
| LevelLine (level : string) (count : Z).

(** [main()] after the arguments are parsed, that is its [try] block:
    the scan, the saving of the report in the chosen format ([write] is
    what opening the output file and writing to it answers), and the
    printing of the summary ([print] is what [print] answers for a line).
    Any exception makes it return 1. The value is the exit code. *)
Definition main (E : Detector.ReEngine) (path : Target)
    (pattern_file : Patterns.pattern_file) (write : outcome unit) (now : string)
    (print : summary_line -> outcome unit) : Z :=
  let attempt :=
    match scan_files E path pattern_file with
    | (Raise e, _) => Raise e
    | (Return report_gen, _) =>
        _ <- write ;;
        let summary := Report.generate_summary report_gen now in
        _ <- print Heading ;;
        _ <- print (FilesLine (Report.total_files summary)) ;;
        _ <- print (DetectionsLine (Report.total_detections summary)) ;;
        _ <- print LevelsHeading ;;
        for_loop (fun _ '(level, count) => print (LevelLine level count))
                 (Report.risk_level_counts summary) tt
    end in
  match attempt with
  | Return _ => 0%Z
  | Raise _ => 1%Z
  end.

End CliMain.

(** ** pypii/report/generator.py: the saved reports *)

Module ReportOutput.
Import Fs Detector Report.

(** A value handed to [csv.writer]. *)
Inductive cell : Type :=
| Str (s : string)
| Text (t : pystr)
| Int (n : Z).

Definition header : list cell :=
  [Str "File"; Str "Pattern"; Str "Matched Text"; Str "Risk Level";
   Str "Line Number"; Str "Start Position"; Str "End Position"; Str "Context"].

(** The rows [save_csv] hands to [writer.writerow], in order. *)
Definition save_csv (self : ReportGenerator) : list (list cell) :=
  header
    :: fold_left
         (fun rows '(file, results) =>
            fold_left
              (fun rows r =>
                 rows ++ [[Str file; Str (pattern_name r); Text (matched_text r);
                           Str (risk_level r); Int (line_number r);
                           Int (start_pos r); Int (end_pos r); Text (context r)]])
              results rows)
         (_group_by_file self) [].

(** One entry of ['detections']: [str(file)] and the records of its
    findings; a record is [asdict(r)] with [file_path] as a string or
    [None], which is the finding itself here. *)
Definition detection : Type := (string * list DetectionResult)%type.

(** The document [save_json] hands to [json.dump]: ['summary'] and
    ['detections']. *)
Definition save_json (self : ReportGenerator) (now : string)
  : ScanSummary * list detection :=
  (generate_summary self now,
   fold_left
     (fun detections '(file, results) =>
        detections ++ [(file, fold_left (fun rs r => rs ++ [r]) results [])])
     (_group_by_file self) []).

End ReportOutput.

(** ** Values decoded from JSON *)

Module PyValue.

(** What [json.load] returns, and what a Lambda event holds: [None], a
    [bool], a number (kept as its literal), a [str], a [list] or a [dict]
    whose keys are strings (and distinct). *)
#[warnings="-register-all"] Inductive pyvalue : Type :=
| PyNone
| PyBool (b : bool)
| PyNumber (literal : string)
| PyStr (s : string)
| PyList (l : list pyvalue)
| PyDict (d : list (string * pyvalue)).

(** Exceptions without a constructor of their own; [KeyError_0] is the
    [KeyError] of the integer key 0. *)
Definition TypeError : exn := OtherException "TypeError".
Definition AttributeError : exn := OtherException "AttributeError".
Definition IndexError : exn := OtherException "IndexError".
Definition KeyError_0 : exn := OtherException "KeyError: 0".

(** [v[k]] for a string [k]: only a [dict] can be subscripted by a
    string. *)
Definition subscript (v : pyvalue) (k : string) : outcome pyvalue :=
  match v with
  | PyDict d => getitem d k
  | _ => Raise TypeError
  end.

(** [v[0]]: the first element of a [list] or the first character of a
    [str]; a [dict] with string keys has no key 0. *)
Definition subscript_0 (v : pyvalue) : outcome pyvalue :=
  match v with
  | PyList (x :: _) => Return x
  | PyList [] => Raise IndexError
  | PyStr (String a _) => Return (PyStr (String a EmptyString))
  | PyStr EmptyString => Raise IndexError
  | PyDict _ => Raise KeyError_0
  | _ => Raise TypeError
  end.

(** [v.items()]. *)
Definition items (v : pyvalue) : outcome (list (string * pyvalue)) :=
  match v with
  | PyDict d => Return d
  | _ => Raise AttributeError
  end.

(** What [for x in v] iterates over: the elements of a [list], the
    characters of a [str], the keys of a [dict]. *)
Definition iterate (v : pyvalue) : outcome (list pyvalue) :=
  match v with
  | PyList l => Return l
  | PyStr s =>
      Return (map (fun a => PyStr (String a EmptyString)) (list_ascii_of_string s))
  | PyDict d => Return (map (fun entry => PyStr (fst entry)) d)
  | _ => Raise TypeError
  end.

(** [v.get(k, default)]. *)
Definition get (v : pyvalue) (k : string) (default : pyvalue) : outcome pyvalue :=
  match v with
  | PyDict d => Return (get_default d k default)
  | _ => Raise AttributeError
  end.

End PyValue.

(** ** pypii/detector/patterns.py, on any file *)

Module PatternLoader.
Import PyValue.

(** The dataclass as the loader fills it: the fields of a record are
    stored as they are, whatever their type. *)
Record PIIPattern : Type := {
  name : pyvalue;
  pattern : pyvalue;
  risk_level : Patterns.RiskLevel;
  description : pyvalue
}.

(** What the loader finds at [pattern_file]: no file; a path on which
    testing, opening, reading, decoding or closing the file raises the
    exception [e]; or a file that holds the JSON value [data]. *)
Inductive pattern_file : Type :=
| NoSuchFile
| Unreadable (e : exn)
| Json (data : pyvalue).

(** [PatternLoader.load_patterns(pattern_file)]. Nothing in it catches an
    exception. [Patterns.load_patterns] is this function on the documents
    of the shape the annotations assume. *)
Definition load_patterns (pattern_file : pattern_file) : outcome (list PIIPattern) :=
  match pattern_file with
  | NoSuchFile => Raise FileNotFoundError
  | Unreadable e => Raise e
  | Json data =>
      groups <- subscript data "patterns" ;;
      entries <- items groups ;;
      for_loop
        (fun patterns '(risk_level, pattern_list) =>
           records <- iterate pattern_list ;;
           for_loop
             (fun patterns p =>
                p_name <- subscript p "name" ;;
                p_pattern <- subscript p "pattern" ;;
                level <- Patterns.RiskLevel_getitem risk_level ;;
                p_description <- get p "description" (PyStr "") ;;
                let pattern :=
                  {| name := p_name;
                     pattern := p_pattern;
                     risk_level := level;
                     description := p_description |} in
                Return (patterns ++ [pattern]))
             records patterns)
        entries []
  end.

End PatternLoader.

(** ** scan/parsers/s3/lambda_handlers/base.py and text.py *)

Module Lambda.
Import Fs PyValue.

(** A Lambda S3 event: the annotation is [Dict[str, Any]], the value is
    the decoded JSON document of the invocation, whatever its shape. *)
Definition S3Event : Type := pyvalue.

Definition ClientError : exn := OtherException "ClientError".
Definition UnboundLocalError (name : string) : exn :=
  OtherException (String.append "UnboundLocalError: " name).

(** Log records of the handlers: the level and the exception reported. *)
Definition log_record : Type := (level * exn)%type.

Definition invalid_event : exn := ValueError "Invalid S3 event structure".

(** [except (KeyError, IndexError)]. *)
Definition is_KeyError_or_IndexError (e : exn) : bool :=
  match e with
  | KeyError _ => true
  | OtherException m => (String.eqb m "IndexError" || String.eqb m "KeyError: 0")%bool
  | _ => false
  end.

(** The [try] block of [get_s3_info]:
    [event['Records'][0]['s3']], then [['bucket']['name']] and
    [['object']['key']] of it. *)
Definition lookups (event : S3Event) : outcome (pyvalue * pyvalue) :=
  records <- subscript event "Records" ;;
  record <- subscript_0 records ;;
  recode <- subscript record "s3" ;;
  bucket_entry <- subscript recode "bucket" ;;
  bucket <- subscript bucket_entry "name" ;;
  object_entry <- subscript recode "object" ;;
  key <- subscript object_entry "key" ;;
  Return (bucket, key).

(** [LambdaBaseParser.get_s3_info]: a [KeyError] or [IndexError] of the
    lookups is logged and replaced by the [ValueError]; any other
    exception of the lookups leaves the function as it is. *)
Definition get_s3_info (event : S3Event) : outcome (pyvalue * pyvalue) * list log_record :=
  match lookups event with
  | Return info => (Return info, [])
  | Raise e =>
      if is_KeyError_or_IndexError e then (Raise invalid_event, [(ERROR, e)])
      else (Raise e, [])
  end.

(** What S3 answers for an object: [get_object] may fail, and decoding the
    body it returns may fail. *)
Record S3Object : Type := {
  get_object : outcome unit;
  decode : outcome pystr
}.
Definition S3 : Type := pyvalue -> pyvalue -> S3Object.

Record TextParser : Type := {
  patterns : list Patterns.DataPattern;
  text_extensions : list string
}.

Definition DEFAULT_TEXT_EXTENSIONS : list string := [].

(** [TextParser(patterns, text_extensions=...)]; the sets of extensions are
    lists that are only enumerated by [any]. *)
Definition __init__ (patterns : list Patterns.DataPattern)
    (text_extensions : option (list string)) : outcome TextParser :=
  let extensions :=
    DEFAULT_TEXT_EXTENSIONS
      ++ match text_extensions with
         | Some l => l
         | None => []
         end in
  match extensions with
  | [] => Raise (ValueError
                   "Text extensions set cannot be empty. Please provide valid extensions.")
  | _ :: _ => Return {| patterns := patterns; text_extensions := extensions |}
  end.

(** [s.endswith(suffix)]. *)
Fixpoint endswith (s suffix : string) : bool :=
  if String.eqb s suffix then true
  else match s with
       | EmptyString => false
       | String _ s' => endswith s' suffix
       end.

(** [can_handle]: its handler catches [ClientError] only, which nothing in
    its [try] block raises. [key.lower()] is evaluated once per extension,
    and only a [str] has it. *)
Definition can_handle (self : TextParser) (event : S3Event)
  : outcome bool * list log_record :=
  match get_s3_info event with
  | (Return (_, key), log) =>
      (match text_extensions self with
       | [] => Return false
       | _ :: _ =>
           match key with
           | PyStr key =>
               Return (existsb (fun ext => endswith (lower key) (lower ext))
                               (text_extensions self))
           | _ => Raise AttributeError
           end
       end, log)
  | (Raise e, log) => (Raise e, log)
  end.

(** [extract_text]. The handler of the inner [try] formats its message
    with [e], a local variable that is only bound by the outer handler, so
    it raises instead of logging; the outer handler, which catches every
    [Exception], formats its message with [bucket] and [key], which are
    not bound when [get_s3_info] raised. *)
Definition extract_text (self : TextParser) (s3 : S3) (event : S3Event)
  : outcome (option pystr) * list log_record :=
  match get_s3_info event with
  | (Raise _, log) => (Raise (UnboundLocalError "bucket"), log)
  | (Return (bucket, key), log) =>
      let attempt :=
        _ <- get_object (s3 bucket key) ;;
        match decode (s3 bucket key) with
        | Raise UnicodeDecodeError => Raise (UnboundLocalError "e")
        | answer => answer
        end in
      match attempt with
      | Return text => (Return (Some text), log)
      | Raise e => (Return None, log ++ [(ERROR, e)])
      end
  end.

(** [re.search(pattern, line)]: the pattern is compiled, and a match is
    found exactly when [finditer] has one. *)
Definition re_search (E : Detector.ReEngine) (pattern : string) (line : pystr)
  : outcome bool :=
  match Detector.re_compile E pattern with
  | None => Raise (ReError pattern)
  | Some re =>
      Return match Detector.finditer E re line with
             | [] => false
             | _ :: _ => true
             end
  end.

(** A [set] of integers, and [sorted] of it. *)
Definition set_add (x : Z) (s : list Z) : list Z :=
  if existsb (Z.eqb x) s then s else x :: s.

Fixpoint insert_sorted (x : Z) (l : list Z) : list Z :=
  match l with
  | [] => [x]
  | y :: l' => if (x <=? y)%Z then x :: l else y :: insert_sorted x l'
  end.

Definition sorted (s : list Z) : list Z := fold_right insert_sorted [] s.

(** A value of the dictionary [scan] returns. *)
Inductive result : Type :=
| Label (s : string)
| Located (pii_total : Z) (location : list Z)
| Absent.

(** [TextParser.scan]. *)
Definition scan (E : Detector.ReEngine) (self : TextParser) (s3 : S3) (event : S3Event)
  : outcome (dict result) * list log_record :=
  match extract_text self s3 event with
  | (Raise e, log) => (Raise e, log)
  | (Return None, log) => (Return [], log)
  | (Return (Some text), log) =>
      let file_results := [("Type", Label "Text")] in
      let lines := splitlines text in
      (for_loop
         (fun file_results pattern =>
            line_numbers <-
              for_loop
                (fun line_numbers '(line_number, line) =>
                   found <- re_search E (Patterns.pattern pattern) line ;;
                   Return (if found then set_add line_number line_numbers
                           else line_numbers))
                (enumerate lines 1) [] ;;
            Return
              (match line_numbers with
               | _ :: _ =>
                   dict_set (Patterns.name pattern)
                            (Located (len line_numbers) (sorted line_numbers))
                            file_results
               | [] => dict_set (Patterns.name pattern) Absent file_results
               end))
         (patterns self) file_results,
       log)
  end.

End Lambda.

(** ** Vocabulary of the further properties *)

Module Props.
Import Fs Detector.

(** The number of findings of [l] whose [key] is [k]. *)
Definition count_by (key : DetectionResult -> string) (k : string)
    (l : list DetectionResult) : Z :=
  len (filter (fun r => String.eqb (key r) k) l).

(** A counter holds [n] for a key: no entry when [n] is zero. *)
Definition counted (n : Z) : option Z :=
  if (n =? 0)%Z then None else Some n.

Definition sum_values (d : dict Z) : Z := fold_right Z.add 0%Z (map snd d).

(** The body of the counting loops of [generate_summary]. *)
Definition count_step (key : DetectionResult -> string) (counts : dict Z)
    (result : DetectionResult) : dict Z :=
  dict_set (key result) (get_default counts (key result) 0 + 1)%Z counts.

(** A grouping as [_group_by_file] builds them: distinct keys, no empty
    group, and in the group of a key only findings with this key. *)
Definition well_keyed (blocks : dict (list DetectionResult)) : Prop :=
  NoDup (keys blocks)
  /\ Forall (fun kb => snd kb <> []
                       /\ Forall (fun r => Report.group_key r = fst kb) (snd kb))
            blocks.

(** The row of the CSV report for the finding [r] of the group [file]. *)
Definition csv_row (file : Path) (r : DetectionResult) : list ReportOutput.cell :=
  [ReportOutput.Str file; ReportOutput.Str (pattern_name r);
   ReportOutput.Text (matched_text r); ReportOutput.Str (risk_level r);
   ReportOutput.Int (line_number r); ReportOutput.Int (start_pos r);
   ReportOutput.Int (end_pos r); ReportOutput.Text (context r)].

(** The file has at least one finding. *)
Definition has_findings {E : ReEngine} (d : PIIDetector E) (f : File) : bool :=
  match Spec.found_in d f with
  | [] => false
  | _ :: _ => true
  end.

(** The last pattern of [ps] named [n]. *)
Fixpoint last_named (n : string) (ps : list Patterns.PIIPattern)
  : option Patterns.PIIPattern :=
  match ps with
  | [] => None
  | p :: ps' =>
      match last_named n ps' with
      | Some q => Some q
      | None => if String.eqb (Patterns.name p) n then Some p else None
      end
  end.

(** The number of matches of the compiled expression of [p] on [line]. *)
Definition match_count {E : ReEngine} (d : PIIDetector E) (line : pystr)
    (p : Patterns.PIIPattern) : nat :=
  match dict_get (Patterns.name p) (compiled_patterns d) with
  | Some re => List.length (finditer E re line)
  | None => 0
  end.

(** What one record of the group [risk_level] adds to the list that
    [PatternLoader.load_patterns] builds, what a sequence of records adds,
    and what one entry of ['patterns'] adds. *)
Definition declare_value (risk_level : string) (p : PyValue.pyvalue)
  : outcome (list PatternLoader.PIIPattern) :=
  p_name <- PyValue.subscript p "name" ;;
  p_pattern <- PyValue.subscript p "pattern" ;;
  level <- Patterns.RiskLevel_getitem risk_level ;;
  p_description <- PyValue.get p "description" (PyValue.PyStr "") ;;
  Return [ {| PatternLoader.name := p_name;
              PatternLoader.pattern := p_pattern;
              PatternLoader.risk_level := level;
              PatternLoader.description := p_description |} ].

Definition declare_records (risk_level : string) (records : list PyValue.pyvalue)
  : outcome (list PatternLoader.PIIPattern) :=
  for_loop
    (fun patterns p =>
       p_name <- PyValue.subscript p "name" ;;
       p_pattern <- PyValue.subscript p "pattern" ;;
       level <- Patterns.RiskLevel_getitem risk_level ;;
       p_description <- PyValue.get p "description" (PyValue.PyStr "") ;;
       Return (patterns
                 ++ [ {| PatternLoader.name := p_name;
                         PatternLoader.pattern := p_pattern;
                         PatternLoader.risk_level := level;
                         PatternLoader.description := p_description |} ]))
    records [].

Definition declare_entry (g : string * PyValue.pyvalue)
  : outcome (list PatternLoader.PIIPattern) :=
  records <- PyValue.iterate (snd g) ;; declare_records (fst g) records.

(** A record the loader accepts: an object with a [name] and a
    [pattern], of whatever type. *)
Definition has_fields_value (p : PyValue.pyvalue) : Prop :=
  match p with
  | PyValue.PyDict o => dict_get "name" o <> None /\ dict_get "pattern" o <> None
  | _ => False
  end.

(** An entry of ['patterns'] the loader accepts: a list of such records
    under a risk level, or under any key when the list is empty; an empty
    string or an empty object in the place of the list. *)
Definition loadable_group (g : string * PyValue.pyvalue) : Prop :=
  match snd g with
  | PyValue.PyList l =>
      Forall has_fields_value l /\ (l = [] \/ Spec.valid_risk_key (fst g))
  | PyValue.PyStr s => s = EmptyString
  | PyValue.PyDict o => o = []
  | _ => False
  end.

(** A JSON value the loader accepts: an object whose entry ['patterns'] is
    an object of such groups. *)
Definition loadable_document (data : PyValue.pyvalue) : Prop :=
  match data with
  | PyValue.PyDict d =>
      match dict_get "patterns" d with
      | Some (PyValue.PyDict groups) => Forall loadable_group groups
      | _ => False
      end
  | _ => False
  end.

(** The exception [e] is one that the record [p] of the group [risk], the
    entry [g] of ['patterns'], the JSON value [data] gives rise to. *)
Definition record_fault (risk : string) (p : PyValue.pyvalue) (e : exn) : Prop :=
  match p with
  | PyValue.PyDict o =>
      (e = KeyError "name" /\ dict_get "name" o = None)
      \/ (e = KeyError "pattern" /\ dict_get "pattern" o = None)
      \/ (e = KeyError risk /\ ~ Spec.valid_risk_key risk)
  | _ => e = PyValue.TypeError
  end.

Definition group_fault (g : string * PyValue.pyvalue) (e : exn) : Prop :=
  match snd g with
  | PyValue.PyList l => exists p, In p l /\ record_fault (fst g) p e
  | PyValue.PyStr s => s <> EmptyString /\ e = PyValue.TypeError
  | PyValue.PyDict o => o <> [] /\ e = PyValue.TypeError
  | _ => e = PyValue.TypeError
  end.

Definition document_fault (data : PyValue.pyvalue) (e : exn) : Prop :=
  match data with
  | PyValue.PyDict d =>
      match dict_get "patterns" d with
      | None => e = KeyError "patterns"
      | Some (PyValue.PyDict groups) => exists g, In g groups /\ group_fault g e
      | Some _ => e = PyValue.AttributeError
      end
  | _ => e = PyValue.TypeError
  end.

(** A pattern source of the shape the annotations assume, as the loader
    finds it, and a pattern with string fields as the loader builds it. *)
Definition as_record (p : Patterns.record) : PyValue.pyvalue :=
  PyValue.PyDict (map (fun entry => (fst entry, PyValue.PyStr (snd entry))) p).

Definition as_group (g : string * list Patterns.record) : string * PyValue.pyvalue :=
  (fst g, PyValue.PyList (map as_record (snd g))).

Definition as_document (data : Patterns.document) : PyValue.pyvalue :=
  PyValue.PyDict
    (map (fun entry => (fst entry, PyValue.PyDict (map as_group (snd entry)))) data).

Definition as_source (src : Patterns.pattern_file) : PatternLoader.pattern_file :=
  match src with
  | Patterns.NoSuchFile => PatternLoader.NoSuchFile
  | Patterns.NotJson => PatternLoader.Unreadable JSONDecodeError
  | Patterns.Json data => PatternLoader.Json (as_document data)
  end.

Definition as_pattern (p : Patterns.PIIPattern) : PatternLoader.PIIPattern :=
  {| PatternLoader.name := PyValue.PyStr (Patterns.name p);
     PatternLoader.pattern := PyValue.PyStr (Patterns.pattern p);
     PatternLoader.risk_level := Patterns.risk_level p;
     PatternLoader.description := PyValue.PyStr (Patterns.description p) |}.



(** The text of a DOCX document: its paragraphs, then the rows of its
    tables with their cells joined by a space, one per line. *)
Definition docx_text (doc : DocxDocument) : pystr :=
  join [LF] (paragraphs doc
             ++ map (join (str_of " ")) (List.concat (tables doc))).

(** The line numbers, from [start] on, of the lines of [lines] on which
    the expression has a match. *)
Definition matching_lines {E : ReEngine} (re : regex E) (lines : list pystr) (start : Z)
  : list Z :=
  map fst (filter (fun nl => match finditer E re (snd nl) with
                             | [] => false
                             | _ :: _ => true
                             end)
                  (enumerate lines start)).

(** The entry [TextParser.scan] stores for a pattern whose matches are on
    the lines [line_numbers]. *)
Definition located (line_numbers : list Z) : Lambda.result :=
  match line_numbers with
  | [] => Lambda.Absent
  | _ :: _ => Lambda.Located (len line_numbers) line_numbers
  end.

(** The body of the loop of [TextParser.scan] over the patterns, and what
    it stores for a pattern. *)
Definition pattern_body (E : ReEngine) (lines : list pystr)
  : dict Lambda.result -> Patterns.DataPattern -> outcome (dict Lambda.result) :=
  fun file_results pattern =>
    line_numbers <-
      for_loop
        (fun line_numbers '(line_number, line) =>
           found <- Lambda.re_search E (Patterns.pattern pattern) line ;;
           Return (if found then Lambda.set_add line_number line_numbers
                   else line_numbers))
        (enumerate lines 1) [] ;;
    Return
      (match line_numbers with
       | _ :: _ =>
           dict_set (Patterns.name pattern)
                    (Lambda.Located (len line_numbers) (Lambda.sorted line_numbers))
                    file_results
       | [] => dict_set (Patterns.name pattern) Lambda.Absent file_results
       end).

Definition stored (E : ReEngine) (lines : list pystr) (p : Patterns.DataPattern)
  : Lambda.result :=
  match re_compile E (Patterns.pattern p) with
  | Some re => located (matching_lines re lines 1)
  | None => Lambda.Absent
  end.

(** The segments of a text between newlines, empty ones included: what
    the text is cut into when only the newline ends a line. *)
Fixpoint newline_segments (s : pystr) : list pystr :=
  match s with
  | [] => [[]]
  | c :: s' =>
      if N.eqb c LF then [] :: newline_segments s'
      else match newline_segments s' with
           | [] => [[c]]
           | l :: ls => (c :: l) :: ls
           end
  end.

(** What is left of a text after the line boundary [b] that [rest]
    follows: a line feed right after a carriage return belongs to the
    boundary. *)
Definition after_boundary (b : codepoint) (rest : pystr) : pystr :=
  match rest with
  | c' :: rest' => if (N.eqb b CR && N.eqb c' LF)%bool then rest' else rest
  | [] => rest
  end.

(** Moving a finding [k] lines down. *)
Definition shift_line (k : Z) (r : DetectionResult) : DetectionResult :=
  {| pattern_name := pattern_name r;
     matched_text := matched_text r;
     start_pos := start_pos r;
     end_pos := end_pos r;
     risk_level := risk_level r;
     line_number := (line_number r + k)%Z;
     context := context r;
     file_path := file_path r |}.

End Props.

(** ** Further sample inputs *)

Module Sample2.
Import Fs Detector.

(** A spreadsheet, as [magic] reports it. *)
Definition spreadsheet : File :=
  {| path := "table.xlsx";
     suffix := ".xlsx";
     magic_from_file :=
       Return "application/vnd.openxmlformats-officedocument.spreadsheetml.sheet";
     read_text := Raise UnicodeDecodeError;
     pdf_pages := Sample.no_answer;
     docx_Document := Sample.no_answer |}.

(** A Word document with two paragraphs and a table of two rows, which
    [magic] takes for a ZIP archive. *)
Definition letter : File :=
  {| path := "letter.DOCX";
     suffix := ".DOCX";
     magic_from_file := Return "application/zip";
     read_text := Raise UnicodeDecodeError;
     pdf_pages := Sample.no_answer;
     docx_Document :=
       Return {| paragraphs := [str_of "Dear M12345678"; str_of "id 950101-1234567"];
                 tables := [[[str_of "a"; str_of "b"]; [str_of "c"; str_of "d"]]] |} |}.

(** A plain text file whose name ends in [.docx]. *)
Definition text_named_docx : File :=
  {| path := "readme.docx";
     suffix := ".docx";
     magic_from_file := Return "text/plain";
     read_text := Return (str_of "id 950101-1234567");
     pdf_pages := Sample.no_answer;
     docx_Document := Sample.no_answer |}.

(** A directory: a sub-directory, the notes, the spreadsheet, the HTML
    page and the letter. *)
Definition tree : list FileScanner.Entry :=
  [ {| FileScanner.is_file := false; FileScanner.entry := Sample.notes |};
    {| FileScanner.is_file := true; FileScanner.entry := Sample.notes |};
    {| FileScanner.is_file := true; FileScanner.entry := spreadsheet |};
    {| FileScanner.is_file := true; FileScanner.entry := Sample.html_file |};
    {| FileScanner.is_file := true; FileScanner.entry := letter |} ].

(** A pattern document that declares the name [id] twice, and the
    detector built from it: both patterns are matched with the expression
    of the second. *)
Definition same_name_twice : Patterns.document :=
  [("patterns",
    [("HIGH", [[("name", "id"); ("pattern", "950101")]]);
     ("LOW", [[("name", "id"); ("pattern", "b")]])])].

Definition same_name_detector : PIIDetector LiteralRe.engine :=
  Build_PIIDetector LiteralRe.engine
    [ {| Patterns.name := "id"; Patterns.pattern := "950101";
         Patterns.risk_level := Patterns.HIGH; Patterns.description := "" |};
      {| Patterns.name := "id"; Patterns.pattern := "b";
         Patterns.risk_level := Patterns.LOW; Patterns.description := "" |} ]
    [("id", str_of "b")].

(** The document of [Sample.two_groups] with one more group, which is
    empty and whose key is not a risk level. *)
Definition empty_unknown_level : Patterns.document :=
  [("patterns",
    [("HIGH", [[("name", "rrn"); ("pattern", "950101-1234567")];
               [("name", "passport"); ("pattern", "M12345678")]]);
     ("URGENT", []);
     ("LOW", [[("name", "bee"); ("pattern", "b"); ("description", "letter b")]])])].

(** JSON documents of other shapes: ['patterns'] a list; a group that is
    [null]; a group that is the empty string, and a record whose name is a
    number. *)
Definition patterns_list : PyValue.pyvalue :=
  PyValue.PyDict [("patterns", PyValue.PyList [])].

Definition high_null : PyValue.pyvalue :=
  PyValue.PyDict [("patterns", PyValue.PyDict [("HIGH", PyValue.PyNone)])].

Definition numbered_name : PyValue.pyvalue :=
  PyValue.PyDict
    [("patterns",
      PyValue.PyDict
        [("URGENT", PyValue.PyStr "");
         ("LOW", PyValue.PyList
                   [PyValue.PyDict [("name", PyValue.PyNumber "7");
                                    ("pattern", PyValue.PyStr "b")]])])].

(** An S3 event for the object [inbox/notes.TXT] of the bucket [mail]. *)
Definition event : Lambda.S3Event :=
  PyValue.PyDict
    [("Records",
      PyValue.PyList
        [PyValue.PyDict
           [("s3",
             PyValue.PyDict
               [("bucket", PyValue.PyDict [("name", PyValue.PyStr "mail")]);
                ("object",
                 PyValue.PyDict [("key", PyValue.PyStr "inbox/notes.TXT")])])]])].

(** An event without records, and an event whose records are [None]. *)
Definition no_records : Lambda.S3Event :=
  PyValue.PyDict [("Records", PyValue.PyList [])].

Definition records_none : Lambda.S3Event :=
  PyValue.PyDict [("Records", PyValue.PyNone)].

(** A store in which every object holds the text of two lines. *)
Definition store : Lambda.S3 :=
  fun _ _ => {| Lambda.get_object := Return tt; Lambda.decode := Return Sample.two_lines |}.

(** A store whose objects are not valid UTF-8. *)
Definition undecodable_store : Lambda.S3 :=
  fun _ _ => {| Lambda.get_object := Return tt; Lambda.decode := Raise UnicodeDecodeError |}.

(** The parser for [.txt] objects with the patterns of [Sample.detector]. *)
Definition parser : Lambda.TextParser :=
  {| Lambda.patterns := patterns Sample.detector;
     Lambda.text_extensions := [".txt"] |}.



End Sample2.

(** * Facts about the runtime model *)

Lemma for_loop_ext {S A : Type} (body body' : S -> A -> outcome S) (l : list A) (acc : S) :
  (forall acc x, body acc x = body' acc x) ->
  for_loop body l acc = for_loop body' l acc.
Proof.
  intros He. revert acc. induction l as [|x l IH]; intros acc; simpl; [reflexivity|].
  rewrite He. destruct (body' acc x); simpl; auto.
Qed.

Section ForLoopFacts.
Context {A B : Type}.
Implicit Types (body : list B -> A -> outcome (list B)) (g : A -> outcome (list B)).

Lemma for_loop_shift body g (l : list A) (acc : list B) :
  appends body g ->
  for_loop body l acc = (ys <- for_loop body l [] ;; Return (acc ++ ys)).
Proof.
  intros Hb. revert acc.
  induction l as [|x l IH]; intros acc; simpl.
  - now rewrite app_nil_r.
  - rewrite !Hb. destruct (g x) as [ys|e]; simpl; [|reflexivity].
    rewrite (IH (acc ++ ys)), (IH ys).
    destruct (for_loop body l []) as [zs|e]; simpl; [|reflexivity].
    now rewrite app_assoc.
Qed.

Lemma for_loop_cons body g (x : A) (l : list A) :
  appends body g ->
  for_loop body (x :: l) []
  = (ys <- g x ;; zs <- for_loop body l [] ;; Return (ys ++ zs)).
Proof.
  intros Hb. simpl. rewrite Hb.
  destruct (g x) as [ys|e]; simpl; [|reflexivity].
  now rewrite (for_loop_shift body g l ys Hb).
Qed.

Lemma for_loop_Return_iff body g (l : list A) (r : list B) :
  appends body g ->
  for_loop body l [] = Return r
  <-> exists yss, Forall2 (fun x ys => g x = Return ys) l yss /\ r = List.concat yss.
Proof.
  intros Hb. revert r.
  induction l as [|x l IH]; intros r.
  - simpl. split.
    + intros [= <-]. exists []. split; [constructor | reflexivity].
    + intros (yss & HF & ->). inversion HF. reflexivity.
  - rewrite (for_loop_cons body g x l Hb). split.
    + destruct (g x) as [ys|e] eqn:Hg; simpl; [|discriminate].
      destruct (for_loop body l []) as [zs|e] eqn:Hl; simpl; [|discriminate].
      intros [= <-].
      destruct (proj1 (IH zs) eq_refl) as (yss & HF & ->).
      exists (ys :: yss). split; [constructor; assumption | reflexivity].
    + intros (yss & HF & ->).
      inversion HF as [|x' ys l' yss' Hg HF' E1 E2]; subst.
      rewrite Hg. simpl.
      rewrite (proj2 (IH (List.concat yss')) (ex_intro _ yss' (conj HF' eq_refl))).
      reflexivity.
Qed.

End ForLoopFacts.

Lemma fold_left_append {A B : Type} (h : A -> B) (l : list A) (acc : list B) :
  fold_left (fun acc x => acc ++ [h x]) l acc = acc ++ map h l.
Proof.
  revert acc. induction l as [|x l IH]; intros acc; simpl.
  - now rewrite app_nil_r.
  - rewrite IH, <- app_assoc. reflexivity.
Qed.

(** ** dict *)

Lemma dict_get_set_eq {V : Type} (k : string) (v : V) (d : dict V) :
  dict_get k (dict_set k v d) = Some v.
Proof.
  induction d as [|[k' v'] d IH]; simpl.
  - now rewrite String.eqb_refl.
  - destruct (String.eqb k k') eqn:E; simpl; rewrite E; auto.
Qed.

Lemma dict_get_set_neq {V : Type} (k k' : string) (v : V) (d : dict V) :
  k <> k' -> dict_get k' (dict_set k v d) = dict_get k' d.
Proof.
  intros Hne. induction d as [|[k0 v0] d IH]; simpl.
  - destruct (String.eqb k' k) eqn:E; [|reflexivity].
    apply String.eqb_eq in E. congruence.
  - destruct (String.eqb k k0) eqn:E; simpl.
    + apply String.eqb_eq in E. subst k0.
      destruct (String.eqb k' k) eqn:E'; [|reflexivity].
      apply String.eqb_eq in E'. congruence.
    + now rewrite IH.
Qed.

Lemma keys_dict_set {V : Type} (k : string) (v : V) (d : dict V) :
  keys (dict_set k v d) = if in_dec string_dec k (keys d) then keys d else keys d ++ [k].
Proof.
  induction d as [|[k' v'] d IH]; simpl; [reflexivity|].
  destruct (String.eqb k k') eqn:E; simpl.
  - apply String.eqb_eq in E. subst.
    destruct (string_dec k' k'); [reflexivity | congruence].
  - apply String.eqb_neq in E.
    destruct (string_dec k' k); [congruence|].
    rewrite IH. unfold keys. destruct (in_dec string_dec k (map fst d)); reflexivity.
Qed.

Lemma NoDup_keys_dict_set {V : Type} (k : string) (v : V) (d : dict V) :
  NoDup (keys d) -> NoDup (keys (dict_set k v d)).
Proof.
  intros Hd. rewrite keys_dict_set.
  destruct (in_dec string_dec k (keys d)) as [Hin|Hout]; [assumption|].
  apply NoDup_app; [assumption | repeat constructor; auto | ].
  intros x Hx [<-|[]]. contradiction.
Qed.

(** * The pattern loader *)

Section LoaderFacts.
Import Patterns Spec.

Lemma ScanPattern_load_patterns src :
  ScanPattern.load_patterns src = Patterns.load_patterns src.
Proof. reflexivity. Qed.

Lemma record_loop_appends (risk : string) :
  appends
    (fun patterns p =>
       p_name <- getitem p "name" ;;
       p_pattern <- getitem p "pattern" ;;
       level <- RiskLevel_getitem risk ;;
       Return (patterns
                 ++ [ {| name := p_name;
                         pattern := p_pattern;
                         risk_level := level;
                         description := get_default p "description" "" |} ]))
    (declare risk).
Proof.
  intros acc p. unfold declare.
  destruct (getitem p "name"); simpl; [|reflexivity].
  destruct (getitem p "pattern"); simpl; [|reflexivity].
  destruct (RiskLevel_getitem risk); reflexivity.
Qed.

Lemma group_loop_appends :
  appends
    (fun patterns '(risk_level, pattern_list) =>
       for_loop
         (fun patterns p =>
            p_name <- getitem p "name" ;;
            p_pattern <- getitem p "pattern" ;;
            level <- RiskLevel_getitem risk_level ;;
            Return (patterns
                      ++ [ {| name := p_name;
                              pattern := p_pattern;
                              risk_level := level;
                              description := get_default p "description" "" |} ]))
         pattern_list patterns)
    declare_group.
Proof.
  intros acc [risk l]. unfold declare_group. simpl.
  apply (for_loop_shift _ _ l acc (record_loop_appends risk)).
Qed.

Lemma load_patterns_Json data :
  load_patterns (Json data)
  = (groups <- getitem data "patterns" ;;
     for_loop (fun patterns g => ys <- declare_group g ;; Return (patterns ++ ys))
              groups []).
Proof.
  unfold load_patterns. destruct (getitem data "patterns") as [groups|e]; simpl;
    [|reflexivity].
  apply for_loop_ext. intros acc g. apply (group_loop_appends acc g).
Qed.

Lemma group_step_appends :
  appends (fun patterns g => ys <- declare_group g ;; Return (patterns ++ ys))
          declare_group.
Proof. intros acc g. reflexivity. Qed.

Lemma RiskLevel_getitem_valid (k : string) :
  valid_risk_key k -> exists level, RiskLevel_getitem k = Return level /\ value level = k.
Proof.
  intros [-> | [-> | ->]]; [exists HIGH | exists MEDIUM | exists LOW]; split; reflexivity.
Qed.

Lemma RiskLevel_getitem_Return (k : string) (level : RiskLevel) :
  RiskLevel_getitem k = Return level -> value level = k.
Proof.
  unfold RiskLevel_getitem.
  destruct (String.eqb k "HIGH") eqn:E1;
    [apply String.eqb_eq in E1; now intros [= <-]|].
  destruct (String.eqb k "MEDIUM") eqn:E2;
    [apply String.eqb_eq in E2; now intros [= <-]|].
  destruct (String.eqb k "LOW") eqn:E3;
    [apply String.eqb_eq in E3; now intros [= <-]|].
  discriminate.
Qed.

Lemma declare_Return (risk : string) (p : record) (ys : list PIIPattern) :
  declare risk p = Return ys -> exists pat, ys = [pat] /\ represents pat (risk, p).
Proof.
  unfold declare, getitem, get_default, represents. simpl.
  destruct (dict_get "name" p) as [n|]; simpl; [|discriminate].
  destruct (dict_get "pattern" p) as [e|]; simpl; [|discriminate].
  destruct (RiskLevel_getitem risk) as [level|] eqn:Hl; simpl; [|discriminate].
  intros [= <-]. eexists. split; [reflexivity|]. simpl.
  repeat split. now apply RiskLevel_getitem_Return.
Qed.

Lemma declare_valid (risk : string) (p : record) :
  valid_risk_key risk -> has_fields p -> exists pat, declare risk p = Return [pat].
Proof.
  intros Hk [Hn He]. unfold declare, getitem.
  destruct (dict_get "name" p) as [n|]; [|congruence].
  destruct (dict_get "pattern" p) as [e|]; [|congruence].
  destruct (RiskLevel_getitem_valid risk Hk) as (level & -> & _).
  simpl. eexists. reflexivity.
Qed.

Lemma declare_group_cons (risk : string) (p : record) (l : list record) :
  declare_group (risk, p :: l)
  = (ys <- declare risk p ;; zs <- declare_group (risk, l) ;; Return (ys ++ zs)).
Proof. exact (for_loop_cons _ _ p l (record_loop_appends risk)). Qed.

Lemma declare_group_valid (risk : string) (l : list record) :
  valid_risk_key risk -> Forall has_fields l ->
  exists ps, declare_group (risk, l) = Return ps
             /\ Forall2 represents ps (map (pair risk) l).
Proof.
  intros Hk Hl.
  induction Hl as [|p l Hp Hl IH].
  - exists []. split; [reflexivity | constructor].
  - rewrite declare_group_cons.
    destruct (declare_valid risk p Hk Hp) as (pat & Hpat). rewrite Hpat.
    destruct IH as (ps & -> & HF).
    exists (pat :: ps). split; [reflexivity|].
    constructor; [|assumption].
    destruct (declare_Return risk p _ Hpat) as (pat' & [= <-] & Hr). exact Hr.
Qed.

Lemma declared_records_length (groups : dict (list record)) :
  List.length (declared_records groups) = total_records groups.
Proof.
  unfold declared_records, total_records.
  induction groups as [|[k l] groups IH]; simpl; [reflexivity|].
  now rewrite length_app, length_map, IH.
Qed.

Lemma Forall2_In_l {X Y : Type} (R : X -> Y -> Prop) (l : list X) (l' : list Y) (x : X) :
  Forall2 R l l' -> In x l -> exists y, In y l' /\ R x y.
Proof.
  induction 1 as [|a b l l' Hab HF IH]; [contradiction|].
  intros [->|Hin].
  - exists b. split; [now left | assumption].
  - destruct (IH Hin) as (y & Hy & HR). exists y. split; [now right | assumption].
Qed.


End LoaderFacts.

(** C6: a pattern document whose groups all have a risk level as key and
    whose records all have a [name] and a [pattern] loads (with either
    loader) into exactly as many patterns as it has records, one per record
    in declared order (groups in document order, records in list order),
    each with the record's name and expression, the risk level of its group
    and the record's description, or the empty string when it has none. *)
Theorem load_patterns_declared_order
    (data : Patterns.document) (groups : dict (list Patterns.record)) :
  dict_get "patterns" data = Some groups ->
  Forall (fun g => Spec.valid_risk_key (fst g) /\ Forall Spec.has_fields (snd g)) groups ->
  exists ps,
    Patterns.load_patterns (Patterns.Json data) = Return ps
    /\ ScanPattern.load_patterns (Patterns.Json data) = Return ps
    /\ List.length ps = Spec.total_records groups
    /\ Forall2 Spec.represents ps (Spec.declared_records groups).
Proof.
  intros Hdata Hgroups.
  assert (exists ps,
             for_loop (fun patterns g =>
                         ys <- Spec.declare_group g ;; Return (patterns ++ ys))
                      groups [] = Return ps
             /\ Forall2 Spec.represents ps (Spec.declared_records groups))
    as (ps & Hps & HF).
  { clear Hdata. induction Hgroups as [|[risk l] groups [Hk Hl] _ IH].
    - exists []. split; [reflexivity | constructor].
    - rewrite (for_loop_cons _ _ _ groups group_step_appends).
      destruct (declare_group_valid risk l Hk Hl) as (ys & -> & Hys).
      destruct IH as (zs & -> & Hzs).
      exists (ys ++ zs). split; [reflexivity|].
      unfold Spec.declared_records. simpl. now apply Forall2_app. }
  exists ps.
  assert (Patterns.load_patterns (Patterns.Json data) = Return ps) as Hload.
  { rewrite load_patterns_Json. unfold getitem. rewrite Hdata. exact Hps. }
  repeat split; try assumption.
  rewrite (Forall2_length HF). apply declared_records_length.
Qed.

Lemma load_patterns_declared_order_witness :
  exists ps,
    Patterns.load_patterns (Patterns.Json Sample.two_groups) = Return ps
    /\ ScanPattern.load_patterns (Patterns.Json Sample.two_groups) = Return ps
    /\ List.length ps = 3%nat
    /\ Forall2 Spec.represents ps
         (Spec.declared_records
            [("HIGH", [[("name", "rrn"); ("pattern", "950101-1234567")];
                       [("name", "passport"); ("pattern", "M12345678")]]);
             ("LOW", [[("name", "bee"); ("pattern", "b");
                       ("description", "letter b")]])]).
Proof.
  apply (load_patterns_declared_order Sample.two_groups
           [("HIGH", [[("name", "rrn"); ("pattern", "950101-1234567")];
                      [("name", "passport"); ("pattern", "M12345678")]]);
            ("LOW", [[("name", "bee"); ("pattern", "b");
                      ("description", "letter b")]])]).
  - reflexivity.
  - repeat first [ apply Forall_cons | apply Forall_nil | split ];
      simpl; try discriminate.
    + left. reflexivity.
    + right. right. reflexivity.
Defined.

(** * The detector *)

Lemma for_loop_total_in {A B : Type} (body : list B -> A -> outcome (list B))
    (g : A -> outcome (list B)) (h : A -> list B) (l : list A) :
  appends body g ->
  (forall x, In x l -> g x = Return (h x)) ->
  for_loop body l [] = Return (flat_map h l).
Proof.
  intros Hb Hg. apply (for_loop_Return_iff body g l _ Hb).
  exists (map h l). split.
  - induction l as [|x l IH]; simpl; constructor.
    + apply Hg. now left.
    + apply IH. intros y Hy. apply Hg. now right.
  - now rewrite flat_map_concat_map.
Qed.

Lemma Forall2_In_r {X Y : Type} (R : X -> Y -> Prop) (l : list X) (l' : list Y) (y : Y) :
  Forall2 R l l' -> In y l' -> exists x, In x l /\ R x y.
Proof.
  induction 1 as [|a b l l' Hab HF IH]; [contradiction|].
  intros [->|Hin].
  - exists a. split; [now left | assumption].
  - destruct (IH Hin) as (x & Hx & HR). exists x. split; [now right | assumption].
Qed.

Lemma enumerate_In {A : Type} (l : list A) (start n : Z) (x : A) :
  In (n, x) (enumerate l start)
  <-> (start <= n)%Z /\ nth_error l (Z.to_nat (n - start)) = Some x.
Proof.
  revert start. induction l as [|y l IH]; intros start; simpl.
  - split; [contradiction|]. intros [_ H]. destruct (Z.to_nat (n - start)); discriminate.
  - rewrite IH. split.
    + intros [[= <- <-]|[Hle Hnth]].
      * split; [lia|]. now rewrite Z.sub_diag.
      * split; [lia|].
        replace (Z.to_nat (n - start)) with (S (Z.to_nat (n - (start + 1)))) by lia.
        exact Hnth.
    + intros [Hle Hnth].
      destruct (Z.eq_dec n start) as [->|Hne].
      * left. rewrite Z.sub_diag in Hnth. simpl in Hnth. congruence.
      * right. split; [lia|].
        replace (Z.to_nat (n - start)) with (S (Z.to_nat (n - (start + 1)))) in Hnth
          by lia.
        exact Hnth.
Qed.

Lemma enumerate_In_range {A : Type} (l : list A) (start n : Z) (x : A) :
  In (n, x) (enumerate l start) -> (start <= n < start + len l)%Z.
Proof.
  intros H. apply enumerate_In in H. destruct H as [Hle Hnth].
  split; [assumption|].
  assert (Z.to_nat (n - start) < List.length l)%nat
    by (apply nth_error_Some; congruence).
  unfold len. lia.
Qed.

Section DetectorFacts.
Import Detector Spec.
Context (E : ReEngine).
Implicit Types (d : PIIDetector E) (p : Patterns.PIIPattern).

(** ** Construction *)

Lemma init_unfold src :
  __init__ E src
  = (ps <- Patterns.load_patterns src ;;
     compiled <- compile_all E ps [] ;;
     Return {| patterns := ps; compiled_patterns := compiled |}).
Proof. reflexivity. Qed.


Lemma compile_all_keys ps (compiled compiled' : dict (regex E)) :
  compile_all E ps compiled = Return compiled' ->
  (forall k, dict_get k compiled <> None -> dict_get k compiled' <> None)
  /\ (forall p, In p ps -> dict_get (Patterns.name p) compiled' <> None).
Proof.
  revert compiled. induction ps as [|q ps IH]; intros compiled; unfold compile_all; simpl.
  - intros [= <-]. split; [auto | contradiction].
  - destruct (re_compile E (Patterns.pattern q)) as [re|]; simpl; [|discriminate].
    intros Hrest. destruct (IH _ Hrest) as [Hkeep Hnew]. split.
    + intros k Hk. apply Hkeep.
      destruct (string_dec (Patterns.name q) k) as [<-|Hne].
      * rewrite dict_get_set_eq. discriminate.
      * now rewrite dict_get_set_neq.
    + intros p [<-|Hin]; [|now apply Hnew].
      apply Hkeep. rewrite dict_get_set_eq. discriminate.
Qed.

Lemma init_all_compiled src d : __init__ E src = Return d -> all_compiled d.
Proof.
  rewrite init_unfold.
  destruct (Patterns.load_patterns src) as [ps|]; simpl; [|discriminate].
  destruct (compile_all E ps []) as [compiled|] eqn:Hc; simpl; [|discriminate].
  intros [= <-]. intros p Hp. simpl in *.
  now apply (proj2 (compile_all_keys ps [] compiled Hc)).
Qed.

(** ** Detection *)

Lemma detect_unfold d text context_chars :
  detect d text context_chars
  = for_loop
      (fun results nl =>
         ys <- for_loop (pattern_loop d context_chars nl) (patterns d) [] ;;
         Return (results ++ ys))
      (enumerate (splitlines text) 1) [].
Proof.
  unfold detect. apply for_loop_ext. intros acc [n line].
  rewrite <- (for_loop_shift (pattern_loop d context_chars (n, line))
                (lookup_findings d context_chars (n, line)) (patterns d) acc)
    by (intros ? ?; reflexivity).
  apply for_loop_ext. intros results p.
  unfold pattern_loop, lookup_findings. simpl.
  destruct (getitem (compiled_patterns d) (Patterns.name p)) as [re|]; simpl;
    [|reflexivity].
  f_equal. apply (fold_left_append (make_result p n line context_chars)).
Qed.

Lemma detect_all_compiled d text context_chars :
  all_compiled d ->
  detect d text context_chars = Return (findings_in_text d text context_chars).
Proof.
  intros Hd. rewrite detect_unfold.
  apply (for_loop_total_in _
           (fun nl => for_loop (pattern_loop d context_chars nl) (patterns d) []));
    [intros ? ?; reflexivity|].
  intros nl _.
  apply (for_loop_total_in _ (lookup_findings d context_chars nl));
    [intros ? ?; reflexivity|].
  intros p Hp. unfold lookup_findings, findings, getitem.
  destruct (dict_get (Patterns.name p) (compiled_patterns d)) eqn:Hg; [reflexivity|].
  now apply Hd in Hp.
Qed.

(** Every finding [detect] returns was made from a match of the compiled
    expression of a declared pattern on a line of the text. *)
Lemma detect_Return_In d text context_chars rs r :
  detect d text context_chars = Return rs -> In r rs ->
  exists n line p re m,
    In (n, line) (enumerate (splitlines text) 1)
    /\ In p (patterns d)
    /\ dict_get (Patterns.name p) (compiled_patterns d) = Some re
    /\ In m (finditer E re line)
    /\ r = make_result p n line context_chars m.
Proof.
  rewrite detect_unfold. intros Hrs Hr.
  apply (for_loop_Return_iff _
           (fun nl => for_loop (pattern_loop d context_chars nl) (patterns d) []))
    in Hrs; [|intros ? ?; reflexivity].
  destruct Hrs as (yss & HF & ->).
  apply in_concat in Hr. destruct Hr as (ys & Hys & Hr).
  destruct (Forall2_In_r _ _ _ _ HF Hys) as ([n line] & Hnl & Hline).
  apply (for_loop_Return_iff _ (lookup_findings d context_chars (n, line))) in Hline;
    [|intros ? ?; reflexivity].
  destruct Hline as (zss & HF' & ->).
  apply in_concat in Hr. destruct Hr as (zs & Hzs & Hr).
  destruct (Forall2_In_r _ _ _ _ HF' Hzs) as (p & Hp & Hfind).
  unfold lookup_findings, getitem in Hfind.
  destruct (dict_get (Patterns.name p) (compiled_patterns d)) as [re|] eqn:Hg;
    simpl in Hfind; [|discriminate].
  injection Hfind as <-.
  apply in_map_iff in Hr. destruct Hr as (m & <- & Hm).
  exists n, line, p, re, m. auto.
Qed.

(** Conversely, every match of the compiled expression of a declared
    pattern on a line of the text is among the findings. *)
Lemma detect_Return_complete d text context_chars rs n line p re m :
  detect d text context_chars = Return rs ->
  In (n, line) (enumerate (splitlines text) 1) ->
  In p (patterns d) ->
  dict_get (Patterns.name p) (compiled_patterns d) = Some re ->
  In m (finditer E re line) ->
  In (make_result p n line context_chars m) rs.
Proof.
  rewrite detect_unfold. intros Hrs Hnl Hp Hg Hm.
  apply (for_loop_Return_iff _
           (fun nl => for_loop (pattern_loop d context_chars nl) (patterns d) []))
    in Hrs; [|intros ? ?; reflexivity].
  destruct Hrs as (yss & HF & ->).
  destruct (Forall2_In_l _ _ _ _ HF Hnl) as (ys & Hys & Hline).
  apply (for_loop_Return_iff _ (lookup_findings d context_chars (n, line))) in Hline;
    [|intros ? ?; reflexivity].
  destruct Hline as (zss & HF' & ->).
  destruct (Forall2_In_l _ _ _ _ HF' Hp) as (zs & Hzs & Hfind).
  unfold lookup_findings, getitem in Hfind. rewrite Hg in Hfind. simpl in Hfind.
  injection Hfind as <-.
  apply in_concat. exists (List.concat zss). split; [assumption|].
  apply in_concat. eexists. split; [exact Hzs|].
  now apply in_map.
Qed.

End DetectorFacts.

(** ** Construction of the detector from a source with a bad expression *)




(** * Slices *)

Lemma skipn_length_app {A : Type} (l1 l2 : list A) :
  skipn (List.length l1) (l1 ++ l2) = l2.
Proof. induction l1; simpl; auto. Qed.

Lemma firstn_length_app {A : Type} (l1 l2 : list A) :
  firstn (List.length l1) (l1 ++ l2) = l1.
Proof. induction l1; simpl; [reflexivity | now f_equal]. Qed.

Lemma firstn_plus {A : Type} (j k : nat) (l : list A) :
  firstn (j + k) l = firstn j l ++ firstn k (skipn j l).
Proof.
  revert l. induction j as [|j IH]; intros l; simpl; [reflexivity|].
  destruct l as [|x l]; simpl.
  - now rewrite firstn_nil.
  - now rewrite IH.
Qed.

Lemma skipn_plus {A : Type} (j k : nat) (l : list A) :
  skipn (j + k) l = skipn k (skipn j l).
Proof.
  revert l. induction j as [|j IH]; intros l; simpl; [reflexivity|].
  destruct l as [|x l]; simpl; [now rewrite skipn_nil | apply IH].
Qed.

Lemma slice_index_inside (n i : Z) : (0 <= i <= n)%Z -> slice_index n i = i.
Proof.
  intros H. unfold slice_index.
  destruct (Z.ltb_spec i 0); lia.
Qed.

Lemma py_slice_substring (s : pystr) (a b : Z) :
  (0 <= a <= len s)%Z -> (0 <= b <= len s)%Z ->
  py_slice s a b = Spec.substring s a b.
Proof.
  intros Ha Hb. unfold py_slice, Spec.substring.
  rewrite !slice_index_inside by assumption.
  now rewrite Z2Nat.inj_sub by lia.
Qed.

Lemma substring_split (s : pystr) (a m b : Z) :
  (0 <= a <= m)%Z -> (m <= b)%Z ->
  Spec.substring s a b = Spec.substring s a m ++ Spec.substring s m b.
Proof.
  intros Ha Hb. unfold Spec.substring.
  replace (Z.to_nat b - Z.to_nat a)%nat
    with ((Z.to_nat m - Z.to_nat a) + (Z.to_nat b - Z.to_nat m))%nat by lia.
  rewrite firstn_plus, <- skipn_plus.
  now replace (Z.to_nat a + (Z.to_nat m - Z.to_nat a))%nat with (Z.to_nat m) by lia.
Qed.

(** A slice that reaches at least from [lo] to [hi] contains the slice from
    [lo] to [hi]. *)
Lemma substring_contiguous (s : pystr) (a lo hi b : Z) :
  (0 <= a <= lo)%Z -> (lo <= hi <= b)%Z ->
  Spec.contiguous_in (Spec.substring s lo hi) (Spec.substring s a b).
Proof.
  intros Ha Hb.
  exists (Spec.substring s a lo), (Spec.substring s hi b).
  rewrite (substring_split s a lo b) by lia.
  now rewrite (substring_split s lo hi b) by lia.
Qed.

(** * The literal engine keeps the contract of [re] *)

Section LiteralFacts.
Import Detector Spec LiteralRe.

Lemma is_prefix_app (needle s : pystr) :
  is_prefix needle s = true -> exists rest, s = needle ++ rest.
Proof.
  revert s. induction needle as [|a needle IH]; intros s; simpl.
  - intros _. now exists s.
  - destruct s as [|b s]; [discriminate|].
    intros H. apply andb_prop in H. destruct H as [Hab Hrest].
    apply N.eqb_eq in Hab. subst b.
    destruct (IH s Hrest) as (rest & ->). now exists rest.
Qed.

Lemma found_ok (needle pre rest : pystr) :
  match_ok (pre ++ needle ++ rest) (found needle (len pre)).
Proof.
  unfold match_ok, found, len. simpl. rewrite !length_app.
  repeat split; try lia.
  unfold py_slice, len. rewrite !length_app.
  rewrite !slice_index_inside by lia.
  replace (Z.to_nat (Z.of_nat (List.length pre) + Z.of_nat (List.length needle)
                     - Z.of_nat (List.length pre))) with (List.length needle) by lia.
  rewrite Nat2Z.id, skipn_length_app, firstn_length_app. reflexivity.
Qed.

Lemma Forall_HdRel_before (a : Match) (bound : Z) (l : list Match) :
  (m_end a <= bound)%Z -> Forall (fun m => (bound <= m_start m)%Z) l -> HdRel before a l.
Proof.
  intros Ha Hl. destruct Hl; constructor. unfold before. lia.
Qed.

Lemma scan_ok (needle s pre : pystr) (skip : nat) :
  Forall (fun m => (len pre + Z.of_nat skip <= m_start m)%Z /\ match_ok (pre ++ s) m)
         (scan needle s (len pre) skip)
  /\ Sorted before (scan needle s (len pre) skip).
Proof.
  revert pre skip. induction s as [|c s IH]; intros pre skip.
  - simpl. destruct skip; [|split; constructor].
    destruct needle as [|a needle]; simpl; [|split; constructor].
    split; [|repeat constructor].
    constructor; [|constructor].
    split; [simpl; lia | apply (found_ok [] pre [])].
  - assert (len (pre ++ [c]) = (len pre + 1)%Z) as Hlen
        by (unfold len; rewrite length_app; simpl; lia).
    specialize (IH (pre ++ [c])). rewrite Hlen, <- app_assoc in IH. simpl in IH.
    destruct skip as [|skip].
    + cbn [scan]. destruct (is_prefix needle (c :: s)) eqn:Hp.
      * destruct (IH (pred (List.length needle))) as [HF HS].
        apply is_prefix_app in Hp. destruct Hp as (rest & Hrest).
        split.
        -- constructor.
           ++ split; [simpl; lia|]. rewrite Hrest. apply found_ok.
           ++ eapply Forall_impl; [|exact HF]. simpl. intros m [Hm Hok].
              split; [lia | assumption].
        -- constructor; [assumption|].
           apply (Forall_HdRel_before _ (len pre + len needle)%Z);
             [simpl; lia|].
           eapply Forall_impl; [|exact HF]. simpl. intros m [Hm _].
           unfold len in *. lia.
      * destruct (IH 0%nat) as [HF HS]. split; [|assumption].
        eapply Forall_impl; [|exact HF]. simpl. intros m [Hm Hok].
        split; [lia | assumption].
    + cbn [scan]. destruct (IH skip) as [HF HS]. split; [|assumption].
      eapply Forall_impl; [|exact HF]. simpl. intros m [Hm Hok].
      split; [lia | assumption].
Qed.

Lemma literal_contract : re_contract LiteralRe.engine.
Proof.
  intros needle line. simpl.
  destruct (scan_ok needle line [] 0) as [HF HS]. simpl in HF, HS.
  split; [|assumption].
  eapply Forall_impl; [|exact HF]. simpl. tauto.
Qed.

End LiteralFacts.

(** * Findings, their offsets and their context *)

Lemma sample_detector_init :
  Detector.__init__ LiteralRe.engine (Patterns.Json Sample.two_groups)
  = Return Sample.detector.
Proof. reflexivity. Qed.

Lemma sample_detect_two_lines :
  Detector.detect Sample.detector Sample.two_lines 2
  = Return [Sample.rrn_finding; Sample.bee_finding].
Proof. vm_compute. reflexivity. Qed.

(** Offsets count characters: on the line of the detector's test the
    number starts after five syllables and a space. *)
Example detect_hangul_line :
  Detector.detect Sample.detector Sample.hangul_line 50
  = Return [ {| Detector.pattern_name := "rrn";
                Detector.matched_text := str_of "950101-1234567";
                Detector.start_pos := 6;
                Detector.end_pos := 20;
                Detector.risk_level := "HIGH";
                Detector.line_number := 1;
                Detector.context := Sample.hangul_line;
                Detector.file_path := None |} ].
Proof. vm_compute. reflexivity. Qed.

Section FindingFacts.
Import Detector Spec.
Context (E : ReEngine) (contract : re_contract E).

(** A finding of [detect], the line it was found on and the match it was
    made from. *)
Lemma detect_finding_line (d : PIIDetector E) text context_chars rs r :
  detect d text context_chars = Return rs -> In r rs ->
  exists n line p m,
    nth_error (splitlines text) (Z.to_nat (n - 1)) = Some line
    /\ (1 <= n <= len (splitlines text))%Z
    /\ match_ok line m
    /\ r = make_result p n line context_chars m.
Proof.
  intros Hrs Hr.
  destruct (detect_Return_In E d text context_chars rs r Hrs Hr)
    as (n & line & p & re & m & Hnl & _ & _ & Hm & ->).
  exists n, line, p, m.
  pose proof (enumerate_In_range _ _ _ _ Hnl) as Hrange.
  apply enumerate_In in Hnl. destruct Hnl as [Hn Hnth].
  split; [exact Hnth|]. split; [lia|]. split; [|reflexivity].
  destruct (contract re line) as [Hok _].
  rewrite Forall_forall in Hok. now apply Hok.
Qed.

End FindingFacts.

(** C8: for a non-negative context window, [detect] returns findings of
    which each has as context the substring of the line it is on, from
    [max(0, start - window)] to [min(length of the line, end + window)],
    where [start, end) is the span of the match; and every match of a
    declared pattern on a line of the text has such a finding. *)
Theorem detect_context_window
    (E : Detector.ReEngine) (src : Patterns.pattern_file) (d : Detector.PIIDetector E)
    (text : pystr) (context_chars : Z) :
  Spec.re_contract E ->
  Detector.__init__ E src = Return d ->
  (0 <= context_chars)%Z ->
  exists rs,
    Detector.detect d text context_chars = Return rs
    /\ (forall r, In r rs ->
          exists line,
            (1 <= Detector.line_number r)%Z
            /\ nth_error (splitlines text) (Z.to_nat (Detector.line_number r - 1))
               = Some line
            /\ Detector.context r
               = Spec.substring line
                   (Z.max 0 (Detector.start_pos r - context_chars))
                   (Z.min (len line) (Detector.end_pos r + context_chars)))
    /\ (forall n line p re m,
          (1 <= n)%Z ->
          nth_error (splitlines text) (Z.to_nat (n - 1)) = Some line ->
          In p (Detector.patterns d) ->
          dict_get (Patterns.name p) (Detector.compiled_patterns d) = Some re ->
          In m (Detector.finditer E re line) ->
          exists r,
            In r rs
            /\ Detector.line_number r = n
            /\ Detector.pattern_name r = Patterns.name p
            /\ Detector.start_pos r = Detector.m_start m
            /\ Detector.end_pos r = Detector.m_end m
            /\ Detector.context r
               = Spec.substring line
                   (Z.max 0 (Detector.m_start m - context_chars))
                   (Z.min (len line) (Detector.m_end m + context_chars))).
Proof.
  intros contract Hinit Hc.
  pose proof (detect_all_compiled E d text context_chars (init_all_compiled E src d Hinit))
    as Hrs.
  exists (Spec.findings_in_text d text context_chars).
  split; [exact Hrs|]. split.
  - intros r Hr.
    destruct (detect_finding_line E contract d text context_chars _ r Hrs Hr)
      as (n & line & p & m & Hline & Hrange & (Hspan & Hend & _) & ->).
    exists line. simpl. split; [lia|]. split; [exact Hline|].
    apply py_slice_substring; lia.
  - intros n line p re m Hn Hline Hp Hg Hm.
    exists (Spec.make_result p n line context_chars m).
    split.
    + apply (detect_Return_complete E d text context_chars _ n line p re m);
        try assumption.
      apply enumerate_In. split; assumption.
    + simpl. repeat split.
      destruct (contract re line) as [Hok _]. rewrite Forall_forall in Hok.
      destruct (Hok m Hm) as (Hspan & Hend & _).
      apply py_slice_substring; lia.
Qed.

Lemma detect_context_window_witness :
  exists rs,
    Detector.detect Sample.detector Sample.two_lines 2 = Return rs
    /\ (forall r, In r rs ->
          exists line,
            (1 <= Detector.line_number r)%Z
            /\ nth_error (splitlines Sample.two_lines)
                         (Z.to_nat (Detector.line_number r - 1)) = Some line
            /\ Detector.context r
               = Spec.substring line
                   (Z.max 0 (Detector.start_pos r - 2))
                   (Z.min (len line) (Detector.end_pos r + 2)))
    /\ (forall n line p re m,
          (1 <= n)%Z ->
          nth_error (splitlines Sample.two_lines) (Z.to_nat (n - 1)) = Some line ->
          In p (Detector.patterns Sample.detector) ->
          dict_get (Patterns.name p) (Detector.compiled_patterns Sample.detector)
          = Some re ->
          In m (Detector.finditer LiteralRe.engine re line) ->
          exists r,
            In r rs
            /\ Detector.line_number r = n
            /\ Detector.pattern_name r = Patterns.name p
            /\ Detector.start_pos r = Detector.m_start m
            /\ Detector.end_pos r = Detector.m_end m
            /\ Detector.context r
               = Spec.substring line
                   (Z.max 0 (Detector.m_start m - 2))
                   (Z.min (len line) (Detector.m_end m + 2))).
Proof.
  apply (detect_context_window LiteralRe.engine (Patterns.Json Sample.two_groups)
           Sample.detector Sample.two_lines 2).
  - exact literal_contract.
  - reflexivity.
  - lia.
Defined.

(** The context of the first finding of the sample text, computed. *)
Example rrn_finding_context :
  Detector.context Sample.rrn_finding
  = Spec.substring (str_of "id 950101-1234567 b") 1 19.
Proof. reflexivity. Qed.

(** C10, as stated, fails for a negative [context_chars]: on the line
    ["abc"] the pattern ["b"] matches at [1, 2), and with
    [context_chars = -1] the context is the slice from 2 to 1, which is
    empty and does not contain the matched text. *)
Lemma negative_context_chars_loses_match :
  Detector.__init__ LiteralRe.engine (Patterns.Json Sample.two_groups)
  = Return Sample.detector
  /\ exists r,
       Detector.detect Sample.detector (str_of "abc") (-1) = Return [r]
       /\ Detector.matched_text r = str_of "b"
       /\ Detector.context r = []
       /\ ~ Spec.contiguous_in (Detector.matched_text r) (Detector.context r).
Proof.
  split; [reflexivity|].
  eexists. split; [vm_compute; reflexivity|]. simpl.
  split; [reflexivity|]. split; [reflexivity|].
  intros (pre & post & H). destruct pre; discriminate.
Qed.

(** C10, amended: [detect] returns findings of which each lies on the line
    its line number names, with [0 <= start_pos <= end_pos <= length of
    the line], has as matched text the slice of that line from [start_pos]
    to [end_pos], and, when [context_chars] is not negative, has its
    matched text as a contiguous part of its context. *)
Theorem detect_offsets_well_formed
    (E : Detector.ReEngine) (src : Patterns.pattern_file) (d : Detector.PIIDetector E)
    (text : pystr) (context_chars : Z) :
  Spec.re_contract E ->
  Detector.__init__ E src = Return d ->
  exists rs,
    Detector.detect d text context_chars = Return rs
    /\ forall r, In r rs ->
         exists line,
           (1 <= Detector.line_number r <= len (splitlines text))%Z
           /\ nth_error (splitlines text) (Z.to_nat (Detector.line_number r - 1))
              = Some line
           /\ (0 <= Detector.start_pos r <= Detector.end_pos r)%Z
           /\ (Detector.end_pos r <= len line)%Z
           /\ Detector.matched_text r
              = Spec.substring line (Detector.start_pos r) (Detector.end_pos r)
           /\ ((0 <= context_chars)%Z ->
               Spec.contiguous_in (Detector.matched_text r) (Detector.context r)).
Proof.
  intros contract Hinit.
  pose proof (detect_all_compiled E d text context_chars (init_all_compiled E src d Hinit))
    as Hrs.
  exists (Spec.findings_in_text d text context_chars).
  split; [exact Hrs|]. intros r Hr.
  destruct (detect_finding_line E contract d text context_chars _ r Hrs Hr)
    as (n & line & p & m & Hline & Hrange & (Hspan & Hend & Hgroup) & ->).
  exists line. simpl. split; [exact Hrange|]. split; [exact Hline|].
  assert (Detector.m_group m
          = Spec.substring line (Detector.m_start m) (Detector.m_end m)) as Hsub
      by (rewrite Hgroup; apply py_slice_substring; lia).
  repeat split; try assumption; try lia.
  intros Hc. rewrite Hsub, py_slice_substring by lia.
  apply substring_contiguous; lia.
Qed.

Lemma detect_offsets_well_formed_witness :
  exists rs,
    Detector.detect Sample.detector Sample.two_lines 2 = Return rs
    /\ forall r, In r rs ->
         exists line,
           (1 <= Detector.line_number r <= len (splitlines Sample.two_lines))%Z
           /\ nth_error (splitlines Sample.two_lines)
                        (Z.to_nat (Detector.line_number r - 1)) = Some line
           /\ (0 <= Detector.start_pos r <= Detector.end_pos r)%Z
           /\ (Detector.end_pos r <= len line)%Z
           /\ Detector.matched_text r
              = Spec.substring line (Detector.start_pos r) (Detector.end_pos r)
           /\ ((0 <= 2)%Z ->
               Spec.contiguous_in (Detector.matched_text r) (Detector.context r)).
Proof.
  apply (detect_offsets_well_formed LiteralRe.engine (Patterns.Json Sample.two_groups)
           Sample.detector Sample.two_lines 2).
  - exact literal_contract.
  - reflexivity.
Defined.

(** * The order of the findings *)

Section SortedFacts.
Context {X Y : Type}.

Lemma StronglySorted_app (R : Y -> Y -> Prop) (l1 l2 : list Y) :
  StronglySorted R l1 -> StronglySorted R l2 ->
  (forall a b, In a l1 -> In b l2 -> R a b) ->
  StronglySorted R (l1 ++ l2).
Proof.
  intros H1 H2 H12. induction H1 as [|a l1 H1 IH Ha]; simpl; [assumption|].
  constructor.
  - apply IH. intros x y Hx Hy. apply H12; [now right | assumption].
  - apply Forall_app. split; [assumption|].
    apply Forall_forall. intros y Hy. apply H12; [now left | assumption].
Qed.

(** Blocks that are sorted, laid out in an order [Q] that puts every
    element of an earlier block before every element of a later one. *)
Lemma StronglySorted_flat_map (R : Y -> Y -> Prop) (Q : X -> X -> Prop)
    (f : X -> list Y) (l : list X) :
  StronglySorted Q l ->
  (forall x, In x l -> StronglySorted R (f x)) ->
  (forall x y a b, Q x y -> In a (f x) -> In b (f y) -> R a b) ->
  StronglySorted R (flat_map f l).
Proof.
  intros Hl Hin Hout. induction Hl as [|x l Hl IH Hx]; simpl; [constructor|].
  apply StronglySorted_app.
  - apply Hin. now left.
  - apply IH. intros y Hy. apply Hin. now right.
  - intros a b Ha Hb. apply in_flat_map in Hb. destruct Hb as (y & Hy & Hb).
    rewrite Forall_forall in Hx. exact (Hout x y a b (Hx y Hy) Ha Hb).
Qed.

Lemma StronglySorted_map (R : Y -> Y -> Prop) (k : X -> Y) (l : list X) :
  StronglySorted (fun a b => R (k a) (k b)) l -> StronglySorted R (map k l).
Proof.
  induction 1 as [|a l Hl IH Ha]; simpl; constructor; [assumption|].
  apply Forall_map. exact Ha.
Qed.

Lemma StronglySorted_weaken (R R' : Y -> Y -> Prop) (l : list Y) :
  (forall a b, R a b -> R' a b) -> StronglySorted R l -> StronglySorted R' l.
Proof.
  intros HR. induction 1 as [|a l Hl IH Ha]; constructor; [assumption|].
  eapply Forall_impl; [|exact Ha]. intros b. apply HR.
Qed.

End SortedFacts.

Lemma enumerate_sorted {A : Type} (l : list A) (start : Z) :
  StronglySorted (fun a b : Z * A => (fst a < fst b)%Z) (enumerate l start).
Proof.
  revert start. induction l as [|x l IH]; intros start; simpl; constructor.
  - apply IH.
  - apply Forall_forall. intros [n y] Hy. apply enumerate_In_range in Hy. simpl. lia.
Qed.

Lemma combine_seq_sorted {A : Type} (l : list A) (start : nat) :
  StronglySorted (fun a b : nat * A => (fst a < fst b)%nat)
                 (combine (seq start (List.length l)) l).
Proof.
  revert start. induction l as [|x l IH]; intros start; simpl; constructor.
  - apply IH.
  - apply Forall_forall. intros [i y] Hy. apply in_combine_l in Hy.
    apply in_seq in Hy. simpl. lia.
Qed.

Lemma combine_seq_nth {A : Type} (l : list A) (start i : nat) (x : A) :
  In (i, x) (combine (seq start (List.length l)) l) ->
  (start <= i)%nat /\ nth_error l (i - start) = Some x.
Proof.
  revert start. induction l as [|y l IH]; intros start; simpl; [contradiction|].
  intros [[= <- <-]|Hin].
  - split; [lia|]. now rewrite Nat.sub_diag.
  - destruct (IH _ Hin) as [Hle Hnth]. split; [lia|].
    replace (i - start)%nat with (S (i - S start)) by lia. exact Hnth.
Qed.

Lemma flat_map_combine_seq {A B : Type} (f : A -> list B) (l : list A) (start : nat) :
  flat_map (fun ip : nat * A => f (snd ip)) (combine (seq start (List.length l)) l)
  = flat_map f l.
Proof.
  revert start. induction l as [|x l IH]; intros start; simpl; [reflexivity|].
  now rewrite IH.
Qed.

Lemma map_flat_map {A B C : Type} (k : B -> C) (f : A -> list B) (l : list A) :
  map k (flat_map f l) = flat_map (fun x => map k (f x)) l.
Proof.
  induction l as [|x l IH]; simpl; [reflexivity|].
  now rewrite map_app, IH.
Qed.

Lemma index_of_nth (l : list string) (i : nat) (x : string) :
  NoDup l -> nth_error l i = Some x -> Spec.index_of x l = i.
Proof.
  intros Hl. revert i. induction Hl as [|y l Hy Hl IH]; intros i.
  - destruct i; discriminate.
  - destruct i as [|i]; simpl.
    + intros [= ->]. now rewrite String.eqb_refl.
    + intros Hnth. destruct (String.eqb x y) eqn:Exy.
      * apply String.eqb_eq in Exy. subst y.
        apply nth_error_In in Hnth. contradiction.
      * f_equal. now apply IH.
Qed.

Section OrderFacts.
Import Detector Spec.
Context (E : ReEngine) (contract : re_contract E).

Lemma finditer_starts_sorted (re : regex E) (line : pystr) :
  StronglySorted (fun m m' => (m_start m <= m_start m')%Z) (finditer E re line).
Proof.
  destruct (contract re line) as [Hok Hsorted].
  apply Sorted_StronglySorted; [intros a b c Hab Hbc; lia|].
  induction Hsorted as [|m l Hsorted IH Hhd]; constructor.
  - apply IH. now inversion Hok.
  - destruct Hhd as [|m' l Hmm']; constructor.
    inversion Hok as [|? ? (Hspan & _) _]; subst.
    unfold before in Hmm'. lia.
Qed.

Lemma attributed_findings (d : PIIDetector E) text context_chars :
  map snd (attributed d text context_chars) = findings_in_text d text context_chars.
Proof.
  unfold attributed, findings_in_text, findings_in_line, numbered.
  rewrite map_flat_map. apply flat_map_ext. intros nl.
  rewrite map_flat_map.
  rewrite <- (flat_map_combine_seq (findings d context_chars nl) (patterns d) 0).
  apply flat_map_ext. intros [i p]. simpl.
  rewrite map_map. simpl. apply map_id.
Qed.

Lemma findings_In (d : PIIDetector E) context_chars (nl : Z * pystr) p r :
  In r (findings d context_chars nl p) ->
  exists re m,
    dict_get (Patterns.name p) (compiled_patterns d) = Some re
    /\ In m (finditer E re (snd nl))
    /\ r = make_result p (fst nl) (snd nl) context_chars m.
Proof.
  unfold findings.
  destruct (dict_get (Patterns.name p) (compiled_patterns d)) as [re|]; [|contradiction].
  intros Hr. apply in_map_iff in Hr. destruct Hr as (m & <- & Hm).
  exists re, m. auto.
Qed.

Lemma attributed_In (d : PIIDetector E) text context_chars i r :
  In (i, r) (attributed d text context_chars) ->
  exists n line p re m,
    In (n, line) (enumerate (splitlines text) 1)
    /\ nth_error (patterns d) i = Some p
    /\ dict_get (Patterns.name p) (compiled_patterns d) = Some re
    /\ In m (finditer E re line)
    /\ r = make_result p n line context_chars m.
Proof.
  unfold attributed, numbered. intros H.
  apply in_flat_map in H. destruct H as ([n line] & Hnl & H).
  apply in_flat_map in H. destruct H as ([j p] & Hp & H).
  apply in_map_iff in H. destruct H as (r' & [= <- <-] & Hr).
  apply combine_seq_nth in Hp. destruct Hp as [_ Hp]. rewrite Nat.sub_0_r in Hp.
  apply findings_In in Hr. destruct Hr as (re & m & Hg & Hm & ->).
  exists n, line, p, re, m. auto.
Qed.

Lemma attributed_declared (d : PIIDetector E) text context_chars :
  Forall (fun ir => declared_at (patterns d) (fst ir) (snd ir))
         (attributed d text context_chars).
Proof.
  apply Forall_forall. intros [i r] Hir.
  destruct (attributed_In d text context_chars i r Hir)
    as (n & line & p & re & m & _ & Hp & _ & _ & ->).
  exists p. simpl. auto.
Qed.

(** The findings of one pattern on one line, with the position [i] of the
    pattern: all of them have the line number of the line and the position
    [i]. *)
Lemma numbered_findings_key (d : PIIDetector E) context_chars (nl : Z * pystr)
    (ip : nat * Patterns.PIIPattern) (a : nat * DetectionResult) :
  In a (map (pair (fst ip)) (findings d context_chars nl (snd ip))) ->
  exists s, attributed_key a = (fst nl, fst ip, s).
Proof.
  intros Ha. apply in_map_iff in Ha. destruct Ha as (r & <- & Hr).
  apply findings_In in Hr. destruct Hr as (re & m & _ & _ & ->).
  eexists. reflexivity.
Qed.

Lemma attributed_sorted (d : PIIDetector E) text context_chars :
  StronglySorted key_le (map attributed_key (attributed d text context_chars)).
Proof.
  apply StronglySorted_map. unfold attributed.
  apply (StronglySorted_flat_map _ (fun a b : Z * pystr => (fst a < fst b)%Z)).
  - apply enumerate_sorted.
  - intros nl _.
    apply (StronglySorted_flat_map _
             (fun a b : nat * Patterns.PIIPattern => (fst a < fst b)%nat)).
    + apply combine_seq_sorted.
    + intros [i p] _. unfold findings. simpl.
      destruct (dict_get (Patterns.name p) (compiled_patterns d)) as [re|];
        [|constructor].
      rewrite map_map. apply StronglySorted_map.
      eapply StronglySorted_weaken; [|apply (finditer_starts_sorted re (snd nl))].
      intros m m' Hmm'. unfold key_le, attributed_key. simpl.
      right. split; [reflexivity|]. right. split; [reflexivity | exact Hmm'].
    + intros ip iq a b Hlt Ha Hb.
      destruct (numbered_findings_key d context_chars nl ip a Ha) as (sa & ->).
      destruct (numbered_findings_key d context_chars nl iq b Hb) as (sb & ->).
      unfold key_le. right. split; [reflexivity|]. now left.
  - intros nl nl' a b Hlt Ha Hb.
    apply in_flat_map in Ha. destruct Ha as (ip & _ & Ha).
    apply in_flat_map in Hb. destruct Hb as (iq & _ & Hb).
    destruct (numbered_findings_key d context_chars nl ip a Ha) as (sa & ->).
    destruct (numbered_findings_key d context_chars nl' iq b Hb) as (sb & ->).
    unfold key_le. now left.
Qed.

Lemma attributed_key_of (d : PIIDetector E) text context_chars :
  NoDup (map Patterns.name (patterns d)) ->
  map (key_of (patterns d)) (findings_in_text d text context_chars)
  = map attributed_key (attributed d text context_chars).
Proof.
  intros Hnames. rewrite <- attributed_findings, map_map.
  apply map_ext_in. intros [i r] Hir.
  destruct (attributed_In d text context_chars i r Hir)
    as (n & line & p & re & m & _ & Hp & _ & _ & ->).
  unfold key_of, attributed_key. simpl. f_equal. f_equal.
  apply index_of_nth; [assumption|].
  now rewrite nth_error_map, Hp.
Qed.

End OrderFacts.

(** ** Lines *)

Lemma splitlines_LF (rest : pystr) : splitlines (LF :: rest) = [] :: splitlines rest.
Proof. destruct rest; reflexivity. Qed.

Lemma splitlines_char (c : codepoint) (s : pystr) :
  is_linebreak c = false ->
  splitlines (c :: s)
  = match splitlines s with
    | [] => [[c]]
    | l :: ls => (c :: l) :: ls
    end.
Proof. intros H. cbn [splitlines]. now rewrite H. Qed.

Lemma splitlines_segment_LF (seg rest : pystr) :
  Spec.no_linebreak seg ->
  splitlines (seg ++ [LF] ++ rest) = seg :: splitlines rest.
Proof.
  induction 1 as [|c seg Hc Hseg IH].
  - apply splitlines_LF.
  - change ((c :: seg) ++ [LF] ++ rest) with (c :: (seg ++ [LF] ++ rest)).
    rewrite (splitlines_char c _ Hc), IH. reflexivity.
Qed.

Lemma splitlines_segment (c : codepoint) (seg : pystr) :
  Spec.no_linebreak (c :: seg) -> splitlines (c :: seg) = [c :: seg].
Proof.
  revert c. induction seg as [|c' seg IH]; intros c Hseg.
  - inversion Hseg as [|? ? Hc _]; subst. now rewrite (splitlines_char c [] Hc).
  - inversion Hseg as [|? ? Hc Hrest]; subst.
    now rewrite (splitlines_char c _ Hc), (IH c' Hrest).
Qed.

(** In a text whose only line boundaries are line feeds, line [N] is the
    [N]th segment between line feeds, empty segments included; only an
    empty segment after a final line feed is not a line. *)
Lemma splitlines_join_LF (segs : list pystr) :
  Forall Spec.no_linebreak segs ->
  splitlines (join [LF] segs) = Spec.drop_empty_last segs.
Proof.
  induction 1 as [|x segs Hx Hsegs IH]; [reflexivity|].
  destruct segs as [|y segs].
  - simpl. destruct x as [|c x]; [reflexivity|]. now apply splitlines_segment.
  - change (join [LF] (x :: y :: segs)) with (x ++ [LF] ++ join [LF] (y :: segs)).
    rewrite (splitlines_segment_LF x _ Hx), IH. reflexivity.
Qed.

Lemma splitlines_no_linebreak_le (n : nat) (s : pystr) :
  (List.length s <= n)%nat -> Forall Spec.no_linebreak (splitlines s).
Proof.
  revert s. induction n as [|n IH]; intros s Hlen.
  - destruct s; [constructor | simpl in Hlen; lia].
  - destruct s as [|c s]; [constructor|].
    simpl in Hlen. cbn [splitlines].
    destruct (is_linebreak c) eqn:Hc.
    + constructor; [constructor|]. apply IH.
      destruct s as [|c' s]; [simpl; lia|].
      destruct (N.eqb c CR && N.eqb c' LF)%bool; simpl in *; lia.
    + assert (Forall Spec.no_linebreak (splitlines s)) as Hs by (apply IH; lia).
      destruct (splitlines s) as [|l ls].
      * constructor; [|constructor]. constructor; [assumption | constructor].
      * inversion Hs as [|? ? Hl Hls]; subst.
        constructor; [|assumption]. constructor; assumption.
Qed.

(** No line of a text holds a line boundary. *)
Lemma splitlines_no_linebreak (s : pystr) : Forall Spec.no_linebreak (splitlines s).
Proof. apply (splitlines_no_linebreak_le (List.length s)). lia. Qed.

(** The first line of a text ends at its first line boundary, whichever
    of the ten it is, and the other lines are those of what follows the
    boundary. *)
Lemma splitlines_boundary (seg : pystr) (b : codepoint) (rest : pystr) :
  Spec.no_linebreak seg -> is_linebreak b = true ->
  splitlines (seg ++ b :: rest) = seg :: splitlines (Props.after_boundary b rest).
Proof.
  intros Hseg Hb. induction Hseg as [|c seg Hc Hseg IH].
  - cbn [app splitlines]. rewrite Hb. unfold Props.after_boundary.
    destruct rest; reflexivity.
  - change ((c :: seg) ++ b :: rest) with (c :: (seg ++ b :: rest)).
    rewrite (splitlines_char c _ Hc), IH. reflexivity.
Qed.

Lemma splitlines_one_line (text : pystr) :
  Spec.no_linebreak text ->
  splitlines text = match text with [] => [] | _ :: _ => [text] end.
Proof.
  destruct text as [|c seg]; [reflexivity|]. apply splitlines_segment.
Qed.

(** C4, as stated, fails: line numbers do not count the segments between
    newlines. In the text [a], form feed, [b], which has no newline and so
    one such segment, the match of [b] is reported on line 2, because
    [splitlines] ends a line at a form feed as well. *)
Lemma form_feed_starts_line_two :
  Detector.__init__ LiteralRe.engine (Patterns.Json Sample.two_groups)
  = Return Sample.detector
  /\ exists r,
       Detector.detect Sample.detector (str_of "a" ++ [12%N] ++ str_of "b") 50
       = Return [r]
       /\ Detector.matched_text r = str_of "b"
       /\ Detector.line_number r = 2%Z
       /\ Props.newline_segments (str_of "a" ++ [12%N] ++ str_of "b")
          = [str_of "a" ++ [12%N] ++ str_of "b"].
Proof.
  split; [reflexivity|].
  eexists. split; [vm_compute; reflexivity|]. repeat split.
Qed.

(** C4, amended: for every text, every context window and every detector
    built from a pattern source, [detect] returns a list of findings that
    is sorted ascending by (line number, declaration position of the
    pattern, start offset): the findings can be given, in order, the
    position of a declared pattern of their name and risk level such that
    the keys never decrease; when the names of the set are distinct this
    position is the one of the finding's name in the declared order. The
    line number of a finding is the 1-based position, among the lines of
    [text.splitlines()], of the line on which its match was found, and
    every match of a pattern on the line of a position has a finding with
    that line number. These lines hold no line boundary: the first one
    ends at the first boundary of the text, which is any of LF, VT, FF, CR
    (with a following LF), FS, GS, RS, NEL, LS and PS, and the others are
    the lines of what follows it; a text without boundary is one line, the
    empty text none. So a text cut by line feeds only has one line per
    segment, empty ones included, an empty segment after a final line feed
    excepted. *)
Theorem detect_sorted
    (E : Detector.ReEngine) (src : Patterns.pattern_file) (d : Detector.PIIDetector E)
    (text : pystr) (context_chars : Z) :
  Spec.re_contract E ->
  Detector.__init__ E src = Return d ->
  exists rs,
    Detector.detect d text context_chars = Return rs
    /\ (exists trace,
          map snd trace = rs
          /\ Forall (fun ir => Spec.declared_at (Detector.patterns d) (fst ir) (snd ir))
                    trace
          /\ StronglySorted Spec.key_le (map Spec.attributed_key trace))
    /\ (NoDup (map Patterns.name (Detector.patterns d)) ->
        StronglySorted Spec.key_le (map (Spec.key_of (Detector.patterns d)) rs))
    /\ (forall r, In r rs ->
          exists line p re m,
            (1 <= Detector.line_number r <= len (splitlines text))%Z
            /\ nth_error (splitlines text) (Z.to_nat (Detector.line_number r - 1))
               = Some line
            /\ In p (Detector.patterns d)
            /\ dict_get (Patterns.name p) (Detector.compiled_patterns d) = Some re
            /\ In m (Detector.finditer E re line)
            /\ Detector.pattern_name r = Patterns.name p
            /\ Detector.start_pos r = Detector.m_start m
            /\ Detector.end_pos r = Detector.m_end m
            /\ Detector.matched_text r
               = py_slice line (Detector.start_pos r) (Detector.end_pos r))
    /\ (forall n line p re m,
          (1 <= n)%Z ->
          nth_error (splitlines text) (Z.to_nat (n - 1)) = Some line ->
          In p (Detector.patterns d) ->
          dict_get (Patterns.name p) (Detector.compiled_patterns d) = Some re ->
          In m (Detector.finditer E re line) ->
          exists r,
            In r rs
            /\ Detector.line_number r = n
            /\ Detector.pattern_name r = Patterns.name p
            /\ Detector.start_pos r = Detector.m_start m
            /\ Detector.end_pos r = Detector.m_end m)
    /\ Forall Spec.no_linebreak (splitlines text)
    /\ (forall seg b rest,
          Spec.no_linebreak seg -> is_linebreak b = true -> text = seg ++ b :: rest ->
          splitlines text = seg :: splitlines (Props.after_boundary b rest))
    /\ (Spec.no_linebreak text ->
        splitlines text = match text with [] => [] | _ :: _ => [text] end)
    /\ (forall segs, Forall Spec.no_linebreak segs -> text = join [LF] segs ->
                     splitlines text = Spec.drop_empty_last segs).
Proof.
  intros contract Hinit.
  pose proof (detect_all_compiled E d text context_chars (init_all_compiled E src d Hinit))
    as Hdetect.
  exists (Spec.findings_in_text d text context_chars).
  split; [exact Hdetect|].
  split; [|split; [|split; [|split; [|split; [|split; [|split]]]]]].
  - exists (Spec.attributed d text context_chars). split; [|split].
    + apply attributed_findings.
    + apply attributed_declared.
    + now apply attributed_sorted.
  - intros Hnames. rewrite (attributed_key_of E d text context_chars Hnames).
    now apply attributed_sorted.
  - intros r Hr.
    destruct (detect_Return_In E d text context_chars _ r Hdetect Hr)
      as (n & line & p & re & m & Hnl & Hp & Hre & Hm & ->).
    pose proof (enumerate_In_range _ _ _ _ Hnl) as Hrange.
    apply enumerate_In in Hnl. destruct Hnl as [Hn Hnth].
    destruct (contract re line) as [Hok _].
    pose proof (proj1 (Forall_forall _ _) Hok m Hm) as (_ & _ & Hgroup).
    exists line, p, re, m. simpl. repeat split; try assumption; lia.
  - intros n line p re m Hn Hnth Hp Hre Hm.
    exists (Spec.make_result p n line context_chars m). split; [|repeat split].
    apply (detect_Return_complete E d text context_chars _ n line p re m Hdetect);
      try assumption.
    apply enumerate_In. split; assumption.
  - apply splitlines_no_linebreak.
  - intros seg b rest Hseg Hb ->. now apply splitlines_boundary.
  - apply splitlines_one_line.
  - intros segs Hsegs ->. now apply splitlines_join_LF.
Qed.

Lemma detect_sorted_witness :
  exists rs,
    Detector.detect Sample.detector Sample.two_lines 2 = Return rs
    /\ (exists trace,
          map snd trace = rs
          /\ Forall (fun ir => Spec.declared_at (Detector.patterns Sample.detector)
                                                (fst ir) (snd ir))
                    trace
          /\ StronglySorted Spec.key_le (map Spec.attributed_key trace))
    /\ (NoDup (map Patterns.name (Detector.patterns Sample.detector)) ->
        StronglySorted Spec.key_le
                       (map (Spec.key_of (Detector.patterns Sample.detector)) rs))
    /\ (forall r, In r rs ->
          exists line p re m,
            (1 <= Detector.line_number r <= len (splitlines Sample.two_lines))%Z
            /\ nth_error (splitlines Sample.two_lines)
                         (Z.to_nat (Detector.line_number r - 1))
               = Some line
            /\ In p (Detector.patterns Sample.detector)
            /\ dict_get (Patterns.name p) (Detector.compiled_patterns Sample.detector)
               = Some re
            /\ In m (Detector.finditer LiteralRe.engine re line)
            /\ Detector.pattern_name r = Patterns.name p
            /\ Detector.start_pos r = Detector.m_start m
            /\ Detector.end_pos r = Detector.m_end m
            /\ Detector.matched_text r
               = py_slice line (Detector.start_pos r) (Detector.end_pos r))
    /\ (forall n line p re m,
          (1 <= n)%Z ->
          nth_error (splitlines Sample.two_lines) (Z.to_nat (n - 1)) = Some line ->
          In p (Detector.patterns Sample.detector) ->
          dict_get (Patterns.name p) (Detector.compiled_patterns Sample.detector)
          = Some re ->
          In m (Detector.finditer LiteralRe.engine re line) ->
          exists r,
            In r rs
            /\ Detector.line_number r = n
            /\ Detector.pattern_name r = Patterns.name p
            /\ Detector.start_pos r = Detector.m_start m
            /\ Detector.end_pos r = Detector.m_end m)
    /\ Forall Spec.no_linebreak (splitlines Sample.two_lines)
    /\ (forall seg b rest,
          Spec.no_linebreak seg -> is_linebreak b = true ->
          Sample.two_lines = seg ++ b :: rest ->
          splitlines Sample.two_lines = seg :: splitlines (Props.after_boundary b rest))
    /\ (Spec.no_linebreak Sample.two_lines ->
        splitlines Sample.two_lines
        = match Sample.two_lines with [] => [] | _ :: _ => [Sample.two_lines] end)
    /\ (forall segs, Forall Spec.no_linebreak segs ->
                     Sample.two_lines = join [LF] segs ->
                     splitlines Sample.two_lines = Spec.drop_empty_last segs).
Proof.
  apply (detect_sorted LiteralRe.engine (Patterns.Json Sample.two_groups)
           Sample.detector Sample.two_lines 2).
  - exact literal_contract.
  - reflexivity.
Defined.

(** * Text extraction *)

Section ExtractionFacts.
Import Fs Detector.

(** ** PDF pages *)

Lemma page_loop_concat (pages : list (option pystr)) (text : pystr) :
  for_loop (fun text page => extracted <- page ;; Return (text ++ or_empty extracted))
           (map Return pages) text
  = Return (text ++ List.concat (map or_empty pages)).
Proof.
  revert text. induction pages as [|pg pages IH]; intros text; simpl.
  - now rewrite app_nil_r.
  - rewrite IH, <- app_assoc. reflexivity.
Qed.

Lemma page_loop_texts (pages : list (option pystr)) (texts : list pystr) :
  for_loop (fun texts page => extracted <- page ;; Return (texts ++ [or_empty extracted]))
           (map Return pages) texts
  = Return (texts ++ map or_empty pages).
Proof.
  revert texts. induction pages as [|pg pages IH]; intros texts; simpl.
  - now rewrite app_nil_r.
  - rewrite IH, <- app_assoc. reflexivity.
Qed.

(** [FileHandler._extract_from_pdf] joins the page texts with line feeds,
    a page without text counting as the empty string. *)
Lemma extract_from_pdf_joins (f : File) (pages : list (option pystr)) :
  pdf_pages f = Return (map Return pages) ->
  FileHandler._extract_from_pdf f = (Return (join [LF] (map or_empty pages)), []).
Proof.
  intros Hpages. unfold FileHandler._extract_from_pdf. rewrite Hpages. simpl.
  rewrite page_loop_texts. reflexivity.
Qed.

(** [detect_file] appends the page texts to one another, with nothing
    between two pages. *)
Lemma detect_file_pdf_concatenates (f : File) (mime_type : string)
    (pages : list (option pystr)) :
  contains "pdf" (lower mime_type) = true ->
  pdf_pages f = Return (map Return pages) ->
  detect_file_text f mime_type = Return (List.concat (map or_empty pages)).
Proof.
  intros Hpdf Hpages. unfold detect_file_text. rewrite Hpdf, Hpages. simpl.
  apply page_loop_concat.
Qed.

(** ** Unsupported types *)

(** [FileHandler.extract_text] extracts nothing from a file whose type it
    does not support: the [ValueError] it raises is logged and [None] is
    returned. *)
Lemma extract_text_unknown (f : File) (log : list log_record) :
  FileHandler.get_file_type f = (Return FileHandler.UNKNOWN, log) ->
  FileHandler.extract_text f
  = (Return None,
     log ++ [(ERROR, path f, None);
             (ERROR, path f, Some (ValueError (FileHandler.unsupported_message f)))]).
Proof.
  intros Htype. unfold FileHandler.extract_text. rewrite Htype. reflexivity.
Qed.

(** [detect_file] reads as plain text every file that is neither a PDF nor
    a DOCX document by its MIME type or suffix. *)
Lemma detect_file_falls_back_to_text (f : File) (mime_type : string) :
  contains "pdf" (lower mime_type) = false ->
  contains "officedocument.wordprocessingml.document" (lower mime_type) = false ->
  String.eqb (lower (suffix f)) ".docx" = false ->
  detect_file_text f mime_type = read_text f.
Proof.
  intros Hpdf Hdocx Hsuffix. unfold detect_file_text.
  now rewrite Hpdf, Hdocx, Hsuffix.
Qed.

(** ** Failures *)

Lemma detect_file_returns (E : ReEngine) (d : PIIDetector E) (f : File)
    (mime_type : string) :
  magic_from_file f = Return mime_type ->
  exists rs log,
    detect_file d f = (Return rs, log)
    /\ forall e, detect_file_text f mime_type = Raise e ->
                 rs = [] /\ log = [(ERROR, path f, Some e)].
Proof.
  intros Hmime. unfold detect_file. rewrite Hmime.
  destruct (detect_file_text f mime_type) as [text|e] eqn:Htext; simpl.
  - destruct (detect d text default_context_chars) as [rs|e]; simpl;
      eexists; eexists; (split; [reflexivity | discriminate]).
  - eexists. eexists. split; [reflexivity|]. intros e' [= <-]. auto.
Qed.

Lemma extract_text_returns (f : File) (file_type : FileHandler.FileType)
    (log : list log_record) :
  FileHandler.get_file_type f = (Return file_type, log) ->
  exists text log',
    FileHandler.extract_text f = (Return text, log')
    /\ forall e log_try,
         FileHandler.extract_text_try f file_type = (Raise e, log_try) ->
         text = None /\ log' = log ++ log_try ++ [(ERROR, path f, Some e)].
Proof.
  intros Htype. unfold FileHandler.extract_text. rewrite Htype.
  destruct (FileHandler.extract_text_try f file_type) as [[text|e] log_try].
  - eexists. eexists. split; [reflexivity | discriminate].
  - eexists. eexists. split; [reflexivity|]. intros e' l' [= <- <-]. auto.
Qed.

Lemma get_file_type_returns (f : File) (mime_type : string) :
  magic_from_file f = Return mime_type ->
  exists file_type log, FileHandler.get_file_type f = (Return file_type, log).
Proof.
  intros Hmime. unfold FileHandler.get_file_type. rewrite Hmime.
  repeat match goal with
         | |- context [if ?b then _ else _] => destruct b
         end; eexists; eexists; reflexivity.
Qed.

(** ** The scan loop of the command line *)

Lemma scan_loop_results (E : ReEngine) (d : PIIDetector E) (files : list File)
    (gen : Report.ReportGenerator) (log : list log_record) :
  Report.results
    (fst (fold_left
            (fun '(report_gen, log) file =>
               match detect_file d file with
               | (Return results, log') =>
                   (match results with
                    | [] => report_gen
                    | _ :: _ => Report.add_results report_gen results (Some (path file))
                    end,
                    log ++ log')
               | (Raise e, log') =>
                   (report_gen, log ++ log' ++ [(ERROR, path file, Some e)])
               end)
            files (gen, log)))
  = Report.results gen ++ flat_map (Spec.found_in d) files.
Proof.
  revert gen log. induction files as [|f files IH]; intros gen log; simpl.
  - now rewrite app_nil_r.
  - unfold Spec.found_in at 1.
    destruct (detect_file d f) as [[rs|e] log']; simpl.
    + rewrite IH. destruct rs as [|r rs]; simpl.
      * reflexivity.
      * now rewrite <- app_assoc.
    + rewrite IH. reflexivity.
Qed.

Lemma scan_files_results (E : ReEngine) (d : PIIDetector E) (files : list File)
    (src : Patterns.pattern_file) :
  __init__ E src = Return d ->
  exists gen log,
    Cli.scan_files E files src = (Return gen, log)
    /\ Report.results gen = flat_map (Spec.found_in d) files.
Proof.
  intros Hinit. unfold Cli.scan_files. rewrite Hinit.
  pose proof (scan_loop_results E d files Report.__init__ []) as Hloop.
  destruct (fold_left _ files (Report.__init__, [])) as [gen log].
  exists gen, log. split; [reflexivity | exact Hloop].
Qed.

End ExtractionFacts.

(** C7: once the type of a file is determined, a failure of the extraction
    of its text is a value and not an exception: [detect_file] returns no
    finding and logs the error, [FileHandler.extract_text] returns [None]
    and logs the error, neither raises; and the scan of a list of files
    returns a report that holds the findings of every file that has some,
    whatever happened to the files before it. *)
Theorem extraction_failure_is_a_value
    (E : Detector.ReEngine) (src : Patterns.pattern_file) (d : Detector.PIIDetector E)
    (files : list Fs.File) (f : Fs.File) (mime_type : string) :
  Detector.__init__ E src = Return d ->
  Fs.magic_from_file f = Return mime_type ->
  (exists rs log,
      Detector.detect_file d f = (Return rs, log)
      /\ forall e, Detector.detect_file_text f mime_type = Raise e ->
                   rs = [] /\ log = [(Fs.ERROR, Fs.path f, Some e)])
  /\ (exists file_type log0 text log,
         FileHandler.get_file_type f = (Return file_type, log0)
         /\ FileHandler.extract_text f = (Return text, log)
         /\ forall e log_try,
              FileHandler.extract_text_try f file_type = (Raise e, log_try) ->
              text = None /\ log = log0 ++ log_try ++ [(Fs.ERROR, Fs.path f, Some e)])
  /\ (exists gen log,
         Cli.scan_files E files src = (Return gen, log)
         /\ Report.results gen = flat_map (Spec.found_in d) files).
Proof.
  intros Hinit Hmime. split; [|split].
  - now apply detect_file_returns.
  - destruct (get_file_type_returns f mime_type Hmime) as (file_type & log0 & Htype).
    destruct (extract_text_returns f file_type log0 Htype) as (text & log & Hx & Hfail).
    exists file_type, log0, text, log. auto.
  - now apply scan_files_results.
Qed.

Lemma extraction_failure_is_a_value_witness :
  (exists rs log,
      Detector.detect_file Sample.detector Sample.undecodable = (Return rs, log)
      /\ forall e,
           Detector.detect_file_text Sample.undecodable "text/plain"
           = Raise e ->
           rs = [] /\ log = [(Fs.ERROR, Fs.path Sample.undecodable, Some e)])
  /\ (exists file_type log0 text log,
         FileHandler.get_file_type Sample.undecodable = (Return file_type, log0)
         /\ FileHandler.extract_text Sample.undecodable = (Return text, log)
         /\ forall e log_try,
              FileHandler.extract_text_try Sample.undecodable file_type
              = (Raise e, log_try) ->
              text = None
              /\ log = log0 ++ log_try
                         ++ [(Fs.ERROR, Fs.path Sample.undecodable, Some e)])
  /\ (exists gen log,
         Cli.scan_files LiteralRe.engine
                        [Sample.undecodable; Sample.notes; Sample.html_file]
                        (Patterns.Json Sample.two_groups)
         = (Return gen, log)
         /\ Report.results gen
            = flat_map (Spec.found_in Sample.detector)
                       [Sample.undecodable; Sample.notes; Sample.html_file]).
Proof.
  apply (extraction_failure_is_a_value LiteralRe.engine (Patterns.Json Sample.two_groups)
           Sample.detector [Sample.undecodable; Sample.notes; Sample.html_file]
           Sample.undecodable "text/plain").
  - reflexivity.
  - reflexivity.
Defined.

(** The scan of the sample files: the file that cannot be decoded is
    logged, and the two files after it are scanned. *)
Example scan_past_unreadable_file :
  exists gen,
    Cli.scan_files LiteralRe.engine [Sample.undecodable; Sample.notes; Sample.html_file]
                   (Patterns.Json Sample.two_groups)
    = (Return gen, [(Fs.ERROR, "latin1.txt", Some UnicodeDecodeError)])
    /\ Report.scanned_files gen = ["notes.txt"; "page.html"]
    /\ List.length (Report.results gen) = 2%nat.
Proof. eexists. split; [vm_compute; reflexivity|]. split; reflexivity. Qed.

(** C3: a file whose content type is outside plain text, PDF and DOCX.
    [FileHandler.extract_text] refuses it (it logs the [ValueError] and
    returns [None]), but [PIIDetector.detect_file] takes every type that is
    neither PDF nor DOCX for plain text: the HTML page [html_file] is read
    as text and its registration number is reported as a finding. *)
Theorem detect_file_reads_unsupported_type_as_text :
  FileHandler.get_file_type Sample.html_file
  = (Return FileHandler.UNKNOWN, [(Fs.WARNING, "page.html", None)])
  /\ FileHandler.extract_text Sample.html_file
     = (Return None,
        [(Fs.WARNING, "page.html", None);
         (Fs.ERROR, "page.html", None);
         (Fs.ERROR, "page.html", Some (ValueError "Unsupported file type: .html"))])
  /\ Detector.detect_file_text Sample.html_file "text/html"
     = Return (str_of "<html>950101-1234567</html>")
  /\ Detector.detect_file Sample.detector Sample.html_file
     = (Return [ {| Detector.pattern_name := "rrn";
                    Detector.matched_text := str_of "950101-1234567";
                    Detector.start_pos := 6;
                    Detector.end_pos := 20;
                    Detector.risk_level := "HIGH";
                    Detector.line_number := 1;
                    Detector.context := str_of "<html>950101-1234567</html>";
                    Detector.file_path := Some "page.html" |} ],
        []).
Proof.
  split; [reflexivity|]. split; [reflexivity|]. split; [reflexivity|].
  vm_compute. reflexivity.
Qed.

(** C5: a PDF of three pages, the second without text.
    [FileHandler._extract_from_pdf] returns the page texts joined by line
    feeds, the empty page counting as the empty string;
    [PIIDetector.detect_file] appends the page texts with nothing between
    them, so that the end of the first page and the start of the third
    make up one line, on which a registration number is found that no page
    holds. *)
Theorem detect_file_joins_pdf_pages_without_newline :
  FileHandler._extract_from_pdf Sample.three_pages
  = (Return (str_of "id 950101-" ++ [LF] ++ [] ++ [LF] ++ str_of "1234567 b"), [])
  /\ Detector.detect_file_text Sample.three_pages "application/pdf"
     = Return (str_of "id 950101-1234567 b")
  /\ Detector.detect_file_text Sample.three_pages "application/pdf"
     <> Return (join [LF] [str_of "id 950101-"; []; str_of "1234567 b"])
  /\ exists r rs,
       Detector.detect_file Sample.detector Sample.three_pages = (Return (r :: rs), [])
       /\ Detector.matched_text r = str_of "950101-1234567"
       /\ Detector.line_number r = 1%Z.
Proof.
  split; [reflexivity|]. split; [reflexivity|]. split; [discriminate|].
  eexists. eexists. split; [vm_compute; reflexivity|]. split; reflexivity.
Qed.

(** * The report *)

Section ReportFacts.
Import Fs Detector Report Spec.

(** ** Registered files *)

Lemma ingest_scanned_files (calls : list (list DetectionResult * option Path))
    (gen : ReportGenerator) :
  scanned_files
    (fold_left (fun gen call => add_results gen (fst call) (snd call)) calls gen)
  = scanned_files gen ++ passed_paths calls.
Proof.
  revert gen. induction calls as [|[rs fp] calls IH]; intros gen; simpl.
  - now rewrite app_nil_r.
  - rewrite IH. unfold passed_paths. simpl.
    destruct fp; simpl; [now rewrite <- app_assoc | reflexivity].
Qed.

Lemma total_files_generate_summary (self : ReportGenerator) (now : string) :
  total_files (generate_summary self now) = len (scanned_files self).
Proof.
  unfold generate_summary.
  match goal with
  | |- context [fold_left ?f ?l ?a] => destruct (fold_left f l a) as [rc pc]
  end.
  reflexivity.
Qed.

Lemma total_detections_generate_summary (self : ReportGenerator) (now : string) :
  total_detections (generate_summary self now) = len (results self).
Proof.
  unfold generate_summary.
  match goal with
  | |- context [fold_left ?f ?l ?a] => destruct (fold_left f l a) as [rc pc]
  end.
  reflexivity.
Qed.

Lemma nodup_length_le (l : list string) :
  (List.length (nodup string_dec l) <= List.length l)%nat.
Proof.
  induction l as [|x l IH]; simpl; [lia|].
  destruct (in_dec string_dec x l); simpl; lia.
Qed.

Lemma nodup_length_eq (l : list string) :
  List.length (nodup string_dec l) = List.length l <-> NoDup l.
Proof.
  split.
  - induction l as [|x l IH]; simpl; [constructor|].
    destruct (in_dec string_dec x l) as [Hin|Hout]; simpl.
    + pose proof (nodup_length_le l). lia.
    + intros [= H]. constructor; auto.
  - intros H. now rewrite nodup_fixed_point.
Qed.

(** ** Groups *)

Lemma group_by_file_fold (self : ReportGenerator) :
  _group_by_file self = fold_left group_step (results self) [].
Proof. reflexivity. Qed.

Lemma with_key_app (k : Path) (l1 l2 : list DetectionResult) :
  with_key k (l1 ++ l2) = with_key k l1 ++ with_key k l2.
Proof. apply filter_app. Qed.

Lemma group_of_Some (k : Path) (l g : list DetectionResult) :
  group_of k l = Some g -> with_key k l = g /\ g <> [].
Proof.
  unfold group_of. destruct (with_key k l); [discriminate|].
  intros [= <-]. split; [reflexivity | discriminate].
Qed.

Lemma group_of_None (k : Path) (l : list DetectionResult) :
  group_of k l = None -> with_key k l = [].
Proof. unfold group_of. destruct (with_key k l); [reflexivity | discriminate]. Qed.

Lemma group_step_get (grouped : dict (list DetectionResult)) (rs : list DetectionResult)
    (r : DetectionResult) :
  (forall k, dict_get k grouped = group_of k rs) ->
  forall k, dict_get k (group_step grouped r) = group_of k (rs ++ [r]).
Proof.
  intros Hinv k. unfold group_step.
  destruct (string_dec (group_key r) k) as [<-|Hne].
  - rewrite dict_get_set_eq. unfold group_of at 1.
    rewrite with_key_app. unfold with_key at 2. simpl.
    rewrite String.eqb_refl.
    destruct (dict_get (group_key r) grouped) as [g|] eqn:Hg.
    + unfold get_default. rewrite Hg. rewrite Hinv in Hg.
      apply group_of_Some in Hg. destruct Hg as [-> Hne].
      destruct g; [congruence | reflexivity].
    + unfold get_default. rewrite dict_get_set_eq. rewrite Hinv in Hg.
      apply group_of_None in Hg. rewrite Hg. reflexivity.
  - rewrite dict_get_set_neq by assumption.
    assert (dict_get k match dict_get (group_key r) grouped with
                       | Some _ => grouped
                       | None => dict_set (group_key r) [] grouped
                       end = dict_get k grouped) as ->.
    { destruct (dict_get (group_key r) grouped); [reflexivity|].
      now apply dict_get_set_neq. }
    rewrite Hinv. unfold group_of. rewrite with_key_app.
    unfold with_key at 2. simpl.
    destruct (String.eqb (group_key r) k) eqn:Ek;
      [apply String.eqb_eq in Ek; contradiction|].
    now rewrite app_nil_r.
Qed.

Lemma group_step_keys (grouped : dict (list DetectionResult)) (r : DetectionResult) :
  NoDup (keys grouped) -> NoDup (keys (group_step grouped r)).
Proof.
  intros H. unfold group_step. apply NoDup_keys_dict_set.
  destruct (dict_get (group_key r) grouped); [assumption|].
  now apply NoDup_keys_dict_set.
Qed.

Lemma dict_set_absent {V : Type} (k : string) (v : V) (d : dict V) :
  dict_get k d = None -> dict_set k v d = d ++ [(k, v)].
Proof.
  induction d as [|[k' v'] d IH]; simpl; [reflexivity|].
  destruct (String.eqb k k'); [discriminate|].
  intros H. now rewrite IH.
Qed.

Lemma flatten_dict_set (k : Path) (old extra : list DetectionResult)
    (grouped : dict (list DetectionResult)) :
  dict_get k grouped = Some old ->
  Permutation (flatten (dict_set k (old ++ extra) grouped)) (flatten grouped ++ extra).
Proof.
  unfold flatten. induction grouped as [|[k' v'] grouped IH]; simpl; [discriminate|].
  destruct (String.eqb k k') eqn:E; simpl.
  - intros [= ->]. rewrite <- !app_assoc. apply Permutation_app_head.
    apply Permutation_app_comm.
  - intros H. rewrite <- app_assoc. apply Permutation_app_head. now apply IH.
Qed.

Lemma group_step_flatten (grouped : dict (list DetectionResult)) (r : DetectionResult) :
  Permutation (flatten (group_step grouped r)) (flatten grouped ++ [r]).
Proof.
  unfold group_step.
  destruct (dict_get (group_key r) grouped) as [g|] eqn:Hg.
  - unfold get_default. rewrite Hg. now apply flatten_dict_set.
  - unfold get_default. rewrite dict_get_set_eq.
    rewrite (flatten_dict_set (group_key r) [] [r]) by apply dict_get_set_eq.
    rewrite (dict_set_absent _ _ _ Hg). unfold flatten.
    rewrite map_app, concat_app. simpl. now rewrite !app_nil_r.
Qed.

Lemma group_by_file_spec (rs : list DetectionResult) :
  NoDup (keys (fold_left group_step rs []))
  /\ (forall k, dict_get k (fold_left group_step rs []) = group_of k rs)
  /\ Permutation (flatten (fold_left group_step rs [])) rs.
Proof.
  induction rs as [|r rs IH] using rev_ind.
  - simpl. split; [constructor|]. split; [reflexivity | constructor].
  - rewrite fold_left_app. simpl. destruct IH as (Hkeys & Hget & Hperm).
    split; [now apply group_step_keys|]. split.
    + now apply group_step_get.
    + rewrite group_step_flatten. now apply Permutation_app_tail.
Qed.

End ReportFacts.

(** C1, as stated, fails: a path passed to [add_results] twice is counted
    twice in [total_files], although it is one distinct path. *)
Lemma same_file_counted_twice :
  Report.total_files
    (Report.generate_summary
       (Spec.ingest [([], Some "a.txt"); ([Sample.finding "bee" None], Some "a.txt")])
       "2024-01-01T00:00:00")
  = 2%Z
  /\ Spec.distinct
       (Spec.passed_paths
          [([], Some "a.txt"); ([Sample.finding "bee" None], Some "a.txt")])
     = 1%Z.
Proof. split; reflexivity. Qed.

(** C1, amended: after any sequence of [add_results] calls on a fresh
    generator, [total_files] is the number of calls that passed a path, a
    call with an empty list of findings included and a path that is passed
    again counted again; it is the number of distinct paths exactly when no
    path was passed twice. *)
Theorem total_files_counts_calls
    (calls : list (list Detector.DetectionResult * option Fs.Path)) (now : string) :
  Report.total_files (Report.generate_summary (Spec.ingest calls) now)
  = len (Spec.passed_paths calls)
  /\ (Report.total_files (Report.generate_summary (Spec.ingest calls) now)
      = Spec.distinct (Spec.passed_paths calls)
      <-> NoDup (Spec.passed_paths calls)).
Proof.
  assert (Report.total_files (Report.generate_summary (Spec.ingest calls) now)
          = len (Spec.passed_paths calls)) as Htotal.
  { rewrite total_files_generate_summary.
    unfold Spec.ingest. now rewrite ingest_scanned_files. }
  split; [exact Htotal|].
  rewrite Htotal, <- nodup_length_eq. unfold Spec.distinct, len.
  split; intros H.
  - apply Nat2Z.inj in H. symmetry. exact H.
  - f_equal. symmetry. exact H.
Qed.

(** C9, as stated, fails: the key of the findings without a file is the
    path [unknown], which a real file can have; the finding of the file
    [unknown] and the finding without a file are then in one group. *)
Lemma unknown_is_also_a_path :
  Report._group_by_file
    (Spec.ingest [([Sample.finding "bee" None], None);
                  ([Sample.finding "rrn" (Some "unknown")], Some "unknown")])
  = [("unknown", [Sample.finding "bee" None; Sample.finding "rrn" (Some "unknown")])]
  /\ Detector.file_path (Sample.finding "bee" None) = None
  /\ Detector.file_path (Sample.finding "rrn" (Some "unknown")) = Some Report.unknown.
Proof. repeat split. Qed.

(** C9, amended: [_group_by_file] puts every finding that has a file path
    in the group of that path and every finding without one in the group
    of the path [unknown] (where it sits together with the findings of a
    file of that very path, if there is one); the keys of the grouping are
    distinct, the group of a key holds exactly the findings with this key,
    in their order, and the groups together hold every finding exactly as
    often as the report does. *)
Theorem group_by_file_partitions (self : Report.ReportGenerator) :
  NoDup (keys (Report._group_by_file self))
  /\ (forall r p, In r (Report.results self) -> Detector.file_path r = Some p ->
                  exists g, dict_get p (Report._group_by_file self) = Some g /\ In r g)
  /\ (forall r, In r (Report.results self) -> Detector.file_path r = None ->
                exists g, dict_get Report.unknown (Report._group_by_file self) = Some g
                          /\ In r g)
  /\ (forall k g, dict_get k (Report._group_by_file self) = Some g ->
                  g = Spec.with_key k (Report.results self))
  /\ (forall k g r, dict_get k (Report._group_by_file self) = Some g -> In r g ->
                    match Detector.file_path r with
                    | Some p => p = k
                    | None => k = Report.unknown
                    end)
  /\ Permutation (Spec.flatten (Report._group_by_file self)) (Report.results self).
Proof.
  rewrite group_by_file_fold.
  destruct (group_by_file_spec (Report.results self)) as (Hkeys & Hget & Hperm).
  assert (forall r, In r (Report.results self) ->
                    exists g, dict_get (Report.group_key r)
                                       (fold_left Report.group_step (Report.results self) [])
                              = Some g /\ In r g) as Hin.
  { intros r Hr. rewrite Hget. unfold Spec.group_of.
    assert (In r (Spec.with_key (Report.group_key r) (Report.results self))) as Hrk
        by (apply filter_In; split; [assumption | apply String.eqb_refl]).
    destruct (Spec.with_key (Report.group_key r) (Report.results self)) as [|x g];
      [contradiction|].
    eexists. split; [reflexivity | exact Hrk]. }
  split; [exact Hkeys|]. split; [|split; [|split; [|split]]].
  - intros r p Hr Hp. destruct (Hin r Hr) as (g & Hg & Hrg).
    unfold Report.group_key in Hg. rewrite Hp in Hg. eauto.
  - intros r Hr Hnone. destruct (Hin r Hr) as (g & Hg & Hrg).
    unfold Report.group_key in Hg. rewrite Hnone in Hg. eauto.
  - intros k g Hg. rewrite Hget in Hg. apply group_of_Some in Hg. now destruct Hg.
  - intros k g r Hg Hr. rewrite Hget in Hg. apply group_of_Some in Hg.
    destruct Hg as [<- _]. apply filter_In in Hr. destruct Hr as [_ Hk].
    apply String.eqb_eq in Hk. unfold Report.group_key in Hk.
    destruct (Detector.file_path r); auto.
  - exact Hperm.
Qed.

(** * Further properties of the report *)

Section SummaryFacts.
Import Fs Detector Report Props.

Lemma fold_left_pair {A B C : Type} (f : A -> C -> A) (g : B -> C -> B)
    (l : list C) (a : A) (b : B) :
  fold_left (fun '(a, b) c => (f a c, g b c)) l (a, b)
  = (fold_left f l a, fold_left g l b).
Proof.
  revert a b. induction l as [|c l IH]; intros a b; simpl; [reflexivity | apply IH].
Qed.

Lemma generate_summary_counts (self : ReportGenerator) (now : string) :
  risk_level_counts (generate_summary self now)
  = fold_left (count_step risk_level) (results self) []
  /\ pattern_counts (generate_summary self now)
     = fold_left (count_step pattern_name) (results self) [].
Proof.
  unfold generate_summary.
  rewrite (fold_left_pair (count_step risk_level) (count_step pattern_name)).
  split; reflexivity.
Qed.

Lemma count_by_app key k (l1 l2 : list DetectionResult) :
  count_by key k (l1 ++ l2) = (count_by key k l1 + count_by key k l2)%Z.
Proof. unfold count_by, len. rewrite filter_app, length_app. lia. Qed.

Lemma count_by_nonneg key k (l : list DetectionResult) : (0 <= count_by key k l)%Z.
Proof. unfold count_by, len. lia. Qed.

Lemma sum_values_dict_set (k : string) (v : Z) (d : dict Z) :
  sum_values (dict_set k v d) = (sum_values d - get_default d k 0 + v)%Z.
Proof.
  unfold sum_values, get_default.
  induction d as [|[k' v'] d IH]; simpl.
  - lia.
  - destruct (String.eqb k k'); simpl; [lia|]. rewrite IH. lia.
Qed.

(** The counting loop builds the histogram of the keys. *)
Lemma count_loop_spec (key : DetectionResult -> string) (rs : list DetectionResult) :
  NoDup (keys (fold_left (count_step key) rs []))
  /\ (forall k, dict_get k (fold_left (count_step key) rs [])
                = counted (count_by key k rs))
  /\ sum_values (fold_left (count_step key) rs []) = len rs.
Proof.
  induction rs as [|r rs IH] using rev_ind.
  - simpl. split; [constructor|]. split; reflexivity.
  - rewrite fold_left_app. simpl. destruct IH as (Hkeys & Hget & Hsum).
    set (d := fold_left (count_step key) rs []) in *.
    assert (get_default d (key r) 0%Z = count_by key (key r) rs) as Hold.
    { unfold get_default. rewrite Hget. unfold counted.
      destruct (Z.eqb_spec (count_by key (key r) rs) 0%Z); congruence. }
    split; [now apply NoDup_keys_dict_set|]. split.
    + intros k. unfold count_step. rewrite count_by_app.
      unfold count_by at 2. simpl.
      destruct (string_dec (key r) k) as [<-|Hne].
      * rewrite dict_get_set_eq, Hold, String.eqb_refl. unfold counted, len. simpl.
        pose proof (count_by_nonneg key (key r) rs).
        destruct (Z.eqb_spec (count_by key (key r) rs + 1)%Z 0%Z); [lia | reflexivity].
      * rewrite dict_get_set_neq by assumption. rewrite Hget.
        destruct (String.eqb (key r) k) eqn:E;
          [apply String.eqb_eq in E; contradiction|].
        unfold len. simpl. now rewrite Z.add_0_r.
    + unfold count_step. rewrite sum_values_dict_set, Hsum.
      unfold len. rewrite length_app. simpl. lia.
Qed.

Lemma ingest_results (calls : list (list DetectionResult * option Path))
    (gen : ReportGenerator) :
  results (fold_left (fun gen call => add_results gen (fst call) (snd call)) calls gen)
  = results gen ++ List.concat (map fst calls).
Proof.
  revert gen. induction calls as [|[rs fp] calls IH]; intros gen; simpl.
  - now rewrite app_nil_r.
  - rewrite IH. simpl. now rewrite <- app_assoc.
Qed.

End SummaryFacts.

(** X1: in the summary, the counters by risk level and by pattern name are
    histograms of the findings: the keys are distinct, a key is present
    exactly when a finding has it and then holds the number of such
    findings, and the counters of either dictionary add up to
    [total_detections]. *)
Theorem summary_counts_are_histograms (self : Report.ReportGenerator) (now : string) :
  let summary := Report.generate_summary self now in
  NoDup (keys (Report.risk_level_counts summary))
  /\ NoDup (keys (Report.pattern_counts summary))
  /\ (forall k, dict_get k (Report.risk_level_counts summary)
                = Props.counted (Props.count_by Detector.risk_level k
                                                (Report.results self)))
  /\ (forall k, dict_get k (Report.pattern_counts summary)
                = Props.counted (Props.count_by Detector.pattern_name k
                                                (Report.results self)))
  /\ Props.sum_values (Report.risk_level_counts summary)
     = Report.total_detections summary
  /\ Props.sum_values (Report.pattern_counts summary)
     = Report.total_detections summary.
Proof.
  intros summary. subst summary.
  destruct (generate_summary_counts self now) as [-> ->].
  rewrite total_detections_generate_summary.
  destruct (count_loop_spec Detector.risk_level (Report.results self))
    as (H1 & H2 & H3).
  destruct (count_loop_spec Detector.pattern_name (Report.results self))
    as (H4 & H5 & H6).
  repeat split; assumption.
Qed.

(** X2: a report keeps every finding it was given, in the order of the
    calls and without removing duplicates: after any sequence of
    [add_results] calls on a fresh generator the results are the
    concatenation of the lists passed, and [total_detections] is the sum of
    their lengths. *)
Theorem add_results_concatenates
    (calls : list (list Detector.DetectionResult * option Fs.Path)) (now : string) :
  Report.results (Spec.ingest calls) = List.concat (map fst calls)
  /\ Report.total_detections (Report.generate_summary (Spec.ingest calls) now)
     = fold_right Z.add 0%Z (map (fun call => len (fst call)) calls).
Proof.
  assert (Report.results (Spec.ingest calls) = List.concat (map fst calls)) as Hres
      by (unfold Spec.ingest; now rewrite ingest_results).
  split; [exact Hres|].
  rewrite total_detections_generate_summary, Hres.
  clear Hres. induction calls as [|[rs fp] calls IH]; simpl; [reflexivity|].
  rewrite <- IH. unfold len. rewrite length_app. lia.
Qed.

Section GroupingFacts.
Import Fs Detector Report Props.

Lemma dict_get_None {V : Type} (k : string) (d : dict V) :
  ~ In k (keys d) -> dict_get k d = None.
Proof.
  induction d as [|[k' v'] d IH]; simpl; [reflexivity|].
  intros Hout. destruct (String.eqb k k') eqn:E.
  - apply String.eqb_eq in E. subst. tauto.
  - apply IH. tauto.
Qed.

Lemma dict_get_In_pair {V : Type} (k : string) (v : V) (d : dict V) :
  NoDup (keys d) -> In (k, v) d -> dict_get k d = Some v.
Proof.
  induction d as [|[k' v'] d IH]; simpl; [contradiction|].
  intros Hd [[= -> ->]|Hin].
  - now rewrite String.eqb_refl.
  - inversion Hd as [|? ? Hk' Hd']; subst.
    destruct (String.eqb k k') eqn:E.
    + apply String.eqb_eq in E. subst. exfalso. apply Hk'.
      apply (in_map fst) in Hin. exact Hin.
    + now apply IH.
Qed.

Lemma dict_get_app_last {V : Type} (k : string) (v : V) (d : dict V) :
  dict_get k d = None -> dict_get k (d ++ [(k, v)]) = Some v.
Proof.
  induction d as [|[k' v'] d IH]; simpl.
  - now rewrite String.eqb_refl.
  - destruct (String.eqb k k'); [discriminate | exact IH].
Qed.

Lemma dict_set_app_last {V : Type} (k : string) (v v' : V) (d : dict V) :
  dict_get k d = None -> dict_set k v' (d ++ [(k, v)]) = d ++ [(k, v')].
Proof.
  induction d as [|[k0 v0] d IH]; simpl.
  - now rewrite String.eqb_refl.
  - destruct (String.eqb k k0); [discriminate|]. intros H. now rewrite IH.
Qed.

Lemma group_step_last (bs : dict (list DetectionResult)) (b : list DetectionResult)
    (r : DetectionResult) :
  dict_get (group_key r) bs = None ->
  group_step (bs ++ [(group_key r, b)]) r = bs ++ [(group_key r, b ++ [r])].
Proof.
  intros Hk. unfold group_step, get_default, Path in *. cbv zeta.
  rewrite !(dict_get_app_last _ b _ Hk).
  now apply dict_set_app_last.
Qed.

Lemma group_step_new (bs : dict (list DetectionResult)) (r : DetectionResult) :
  dict_get (group_key r) bs = None ->
  group_step bs r = bs ++ [(group_key r, [r])].
Proof.
  intros Hk. unfold group_step, get_default, Path in *. cbv zeta. rewrite Hk.
  rewrite (dict_set_absent _ _ _ Hk), (dict_get_app_last _ [] _ Hk).
  now apply dict_set_app_last.
Qed.

Lemma group_loop_block (k : Path) (bs : dict (list DetectionResult))
    (b0 b : list DetectionResult) :
  dict_get k bs = None ->
  Forall (fun r => group_key r = k) b ->
  fold_left group_step b (bs ++ [(k, b0)]) = bs ++ [(k, b0 ++ b)].
Proof.
  intros Hk Hb. revert b0. induction Hb as [|r b Hr Hb IH]; intros b0; simpl.
  - now rewrite app_nil_r.
  - subst k. rewrite (group_step_last bs b0 r Hk), IH, <- app_assoc. reflexivity.
Qed.

Lemma flatten_app (g1 g2 : dict (list DetectionResult)) :
  Spec.flatten (g1 ++ g2) = Spec.flatten g1 ++ Spec.flatten g2.
Proof. unfold Spec.flatten. now rewrite map_app, concat_app. Qed.

Lemma group_loop_blocks (blocks : dict (list DetectionResult)) :
  well_keyed blocks ->
  fold_left group_step (Spec.flatten blocks) [] = blocks.
Proof.
  induction blocks as [|[k b] blocks IH] using rev_ind; [reflexivity|].
  intros [Hkeys Hblocks].
  unfold keys in Hkeys. rewrite map_app in Hkeys. simpl in Hkeys.
  apply NoDup_remove in Hkeys. rewrite app_nil_r in Hkeys.
  destruct Hkeys as [Hkeys Hk].
  apply Forall_app in Hblocks. destruct Hblocks as [Hblocks Hlast].
  inversion Hlast as [|? ? [Hne Hb] _]; subst. simpl in Hne, Hb.
  rewrite flatten_app, fold_left_app, (IH (conj Hkeys Hblocks)).
  unfold Spec.flatten at 1. simpl. rewrite app_nil_r.
  destruct b as [|r b]; [congruence|].
  inversion Hb as [|? ? Hr Hb']; subst. simpl.
  rewrite (group_step_new blocks r (dict_get_None _ _ Hk)).
  now rewrite (group_loop_block (group_key r) blocks [r] b (dict_get_None _ _ Hk) Hb').
Qed.

(** The grouping [_group_by_file] builds is well keyed. *)
Lemma group_by_file_well_keyed (self : ReportGenerator) :
  well_keyed (_group_by_file self).
Proof.
  rewrite group_by_file_fold.
  destruct (group_by_file_spec (results self)) as (Hkeys & Hget & _).
  split; [exact Hkeys|].
  apply Forall_forall. intros [k g] Hin. simpl.
  pose proof (dict_get_In_pair k g _ Hkeys Hin) as Hg.
  rewrite Hget in Hg.
  destruct (group_of_Some k (results self) g Hg) as [<- Hne].
  split; [exact Hne|].
  apply Forall_forall. intros r Hr. apply filter_In in Hr.
  destruct Hr as [_ Hr]. now apply String.eqb_eq in Hr.
Qed.

Lemma csv_loop (grouped : dict (list DetectionResult))
    (rows : list (list ReportOutput.cell)) :
  fold_left
    (fun rows '(file, results) =>
       fold_left
         (fun rows r =>
            rows ++ [[ReportOutput.Str file; ReportOutput.Str (pattern_name r);
                      ReportOutput.Text (matched_text r);
                      ReportOutput.Str (risk_level r);
                      ReportOutput.Int (line_number r);
                      ReportOutput.Int (start_pos r); ReportOutput.Int (end_pos r);
                      ReportOutput.Text (context r)]])
         results rows)
    grouped rows
  = rows ++ flat_map (fun kb => map (csv_row (fst kb)) (snd kb)) grouped.
Proof.
  revert rows. induction grouped as [|[k g] grouped IH]; intros rows; simpl.
  - now rewrite app_nil_r.
  - rewrite IH.
    pose proof (fold_left_append (csv_row k) g rows) as Hrows.
    unfold csv_row in Hrows. rewrite Hrows, <- app_assoc. reflexivity.
Qed.

Lemma csv_rows_flat_map (self : ReportGenerator) :
  ReportOutput.save_csv self
  = ReportOutput.header
      :: flat_map (fun kb => map (csv_row (fst kb)) (snd kb)) (_group_by_file self).
Proof. unfold ReportOutput.save_csv. now rewrite csv_loop. Qed.

Lemma well_keyed_rows (blocks : dict (list DetectionResult)) :
  well_keyed blocks ->
  flat_map (fun kb => map (csv_row (fst kb)) (snd kb)) blocks
  = map (fun r => csv_row (group_key r) r) (Spec.flatten blocks).
Proof.
  intros [_ Hblocks]. unfold Spec.flatten.
  induction Hblocks as [|[k g] blocks [_ Hg] _ IH]; simpl; [reflexivity|].
  rewrite map_app, IH. f_equal.
  apply map_ext_in. intros r Hr. simpl in Hg. rewrite Forall_forall in Hg.
  now rewrite (Hg r Hr).
Qed.

Lemma json_loop (grouped : dict (list DetectionResult))
    (detections : list ReportOutput.detection) :
  fold_left
    (fun detections '(file, results) =>
       detections ++ [(file, fold_left (fun rs r => rs ++ [r]) results [])])
    grouped detections
  = detections ++ grouped.
Proof.
  revert detections.
  induction grouped as [|[k g] grouped IH]; intros detections; simpl.
  - now rewrite app_nil_r.
  - rewrite IH, (fold_left_append (fun r => r) g []), map_id, <- app_assoc.
    reflexivity.
Qed.

Lemma json_detections (self : ReportGenerator) (now : string) :
  snd (ReportOutput.save_json self now) = _group_by_file self.
Proof. unfold ReportOutput.save_json. simpl. now rewrite json_loop. Qed.

End GroupingFacts.

Lemma group_by_file_left_inverse
    (self : Report.ReportGenerator) (blocks : dict (list Detector.DetectionResult)) :
  Props.well_keyed blocks ->
  Report.results self = Spec.flatten blocks ->
  Report._group_by_file self = blocks
  /\ Spec.flatten (Report._group_by_file self) = Report.results self.
Proof.
  intros Hblocks Hres.
  assert (Report._group_by_file self = blocks) as Hg
      by (rewrite group_by_file_fold, Hres; now apply group_loop_blocks).
  split; [exact Hg|]. now rewrite Hg.
Qed.

(** X3: [_group_by_file] undoes flattening. When the findings of a report
    are the concatenation of groups with distinct keys, none of them empty
    and each holding only findings of its key, [_group_by_file] returns
    exactly these groups in their order, so that the grouped views list
    the findings in the order of the report. *)
Theorem group_by_file_of_flattened
    (self : Report.ReportGenerator) (blocks : dict (list Detector.DetectionResult)) :
  Props.well_keyed blocks ->
  Report.results self = Spec.flatten blocks ->
  Report._group_by_file self = blocks
  /\ Spec.flatten (Report._group_by_file self) = Report.results self.
Proof. apply group_by_file_left_inverse. Qed.

Lemma group_by_file_of_flattened_witness :
  Report._group_by_file
    (Spec.ingest [([Sample.finding "bee" (Some "a.txt");
                    Sample.finding "rrn" (Some "a.txt")], Some "a.txt");
                  ([Sample.finding "bee" None], None)])
  = [("a.txt", [Sample.finding "bee" (Some "a.txt");
                Sample.finding "rrn" (Some "a.txt")]);
     ("unknown", [Sample.finding "bee" None])]
  /\ Spec.flatten
       (Report._group_by_file
          (Spec.ingest [([Sample.finding "bee" (Some "a.txt");
                          Sample.finding "rrn" (Some "a.txt")], Some "a.txt");
                        ([Sample.finding "bee" None], None)]))
     = Report.results
         (Spec.ingest [([Sample.finding "bee" (Some "a.txt");
                         Sample.finding "rrn" (Some "a.txt")], Some "a.txt");
                       ([Sample.finding "bee" None], None)]).
Proof.
  apply (group_by_file_of_flattened
           (Spec.ingest [([Sample.finding "bee" (Some "a.txt");
                           Sample.finding "rrn" (Some "a.txt")], Some "a.txt");
                         ([Sample.finding "bee" None], None)])
           [("a.txt", [Sample.finding "bee" (Some "a.txt");
                       Sample.finding "rrn" (Some "a.txt")]);
            ("unknown", [Sample.finding "bee" None])]).
  - split.
    + simpl. repeat constructor; simpl; intuition discriminate.
    + repeat constructor; simpl; discriminate.
  - reflexivity.
Defined.

(** X4: the CSV report has the header of eight columns and then one row of
    eight cells for every finding of the report, no more and no fewer; the
    first cell of a row is the path of the finding, or [unknown] when it
    has none, and the other cells are its fields. *)
Theorem save_csv_one_row_per_finding (self : Report.ReportGenerator) :
  hd_error (ReportOutput.save_csv self) = Some ReportOutput.header
  /\ List.length (ReportOutput.save_csv self) = S (List.length (Report.results self))
  /\ Forall (fun row => List.length row = 8%nat) (ReportOutput.save_csv self)
  /\ Permutation (tl (ReportOutput.save_csv self))
                 (map (fun r => Props.csv_row (Report.group_key r) r)
                      (Report.results self)).
Proof.
  rewrite csv_rows_flat_map, (well_keyed_rows _ (group_by_file_well_keyed self)).
  pose proof (group_by_file_spec (Report.results self)) as (_ & _ & Hperm).
  rewrite <- group_by_file_fold in Hperm.
  split; [reflexivity|]. split; [|split].
  - simpl. rewrite length_map. f_equal. now apply Permutation_length.
  - constructor; [reflexivity|]. apply Forall_map. apply Forall_forall.
    intros r _. reflexivity.
  - simpl. now apply Permutation_map.
Qed.

(** X5: the JSON report is consistent with its own summary: its
    [detections] are the groups of [_group_by_file], one entry per distinct
    file, none of them empty, and together they hold exactly
    [total_detections] records. *)
Theorem save_json_matches_summary (self : Report.ReportGenerator) (now : string) :
  let '(summary, detections) := ReportOutput.save_json self now in
  detections = Report._group_by_file self
  /\ NoDup (map fst detections)
  /\ Forall (fun entry => snd entry <> []) detections
  /\ len (List.concat (map snd detections)) = Report.total_detections summary.
Proof.
  pose proof (json_detections self now) as Hd.
  destruct (ReportOutput.save_json self now) as [summary detections] eqn:Hsave.
  simpl in Hd. subst detections.
  assert (summary = Report.generate_summary self now) as ->
      by (unfold ReportOutput.save_json in Hsave; congruence).
  destruct (group_by_file_well_keyed self) as [Hkeys Hblocks].
  split; [reflexivity|]. split; [exact Hkeys|]. split.
  - eapply Forall_impl; [|exact Hblocks]. intros kb [Hne _]. exact Hne.
  - rewrite total_detections_generate_summary.
    pose proof (group_by_file_spec (Report.results self)) as (_ & _ & Hperm).
    rewrite <- group_by_file_fold in Hperm.
    unfold len. f_equal. now apply Permutation_length.
Qed.

(** * Further properties of the scan *)

Section ScanFacts.
Import Fs Detector Props.

Lemma has_findings_false (E : ReEngine) (d : PIIDetector E) (f : File) :
  has_findings d f = false -> Spec.found_in d f = [].
Proof. unfold has_findings. destruct (Spec.found_in d f); [reflexivity | discriminate]. Qed.

(** Every finding [detect_file] returns carries the path of the file. *)
Lemma found_in_keyed (E : ReEngine) (d : PIIDetector E) (f : File) :
  Forall (fun r => file_path r = Some (path f)) (Spec.found_in d f).
Proof.
  unfold Spec.found_in, detect_file.
  destruct (magic_from_file f) as [mime|e]; simpl; [|constructor].
  destruct (detect_file_text f mime) as [text|e]; simpl; [|constructor].
  destruct (detect d text default_context_chars) as [rs|e]; simpl; [|constructor].
  apply Forall_map. apply Forall_forall. intros r _. reflexivity.
Qed.

Lemma scan_loop_scanned_files (E : ReEngine) (d : PIIDetector E) (files : list File)
    (gen : Report.ReportGenerator) (log : list log_record) :
  Report.scanned_files
    (fst (fold_left
            (fun '(report_gen, log) file =>
               match detect_file d file with
               | (Return results, log') =>
                   (match results with
                    | [] => report_gen
                    | _ :: _ => Report.add_results report_gen results (Some (path file))
                    end,
                    log ++ log')
               | (Raise e, log') =>
                   (report_gen, log ++ log' ++ [(ERROR, path file, Some e)])
               end)
            files (gen, log)))
  = Report.scanned_files gen ++ map path (filter (has_findings d) files).
Proof.
  revert gen log. induction files as [|f files IH]; intros gen log; simpl.
  - now rewrite app_nil_r.
  - unfold has_findings at 1, Spec.found_in at 1.
    destruct (detect_file d f) as [[rs|e] log']; simpl.
    + rewrite IH. destruct rs as [|r rs]; simpl.
      * reflexivity.
      * now rewrite <- app_assoc.
    + rewrite IH. reflexivity.
Qed.

Lemma scan_files_report (E : ReEngine) (d : PIIDetector E) (files : list File)
    (src : Patterns.pattern_file) :
  __init__ E src = Return d ->
  exists gen log,
    Cli.scan_files E files src = (Return gen, log)
    /\ Report.results gen = flat_map (Spec.found_in d) files
    /\ Report.scanned_files gen = map path (filter (has_findings d) files).
Proof.
  intros Hinit. unfold Cli.scan_files. rewrite Hinit.
  pose proof (scan_loop_results E d files Report.__init__ []) as Hres.
  pose proof (scan_loop_scanned_files E d files Report.__init__ []) as Hfiles.
  destruct (fold_left _ files (Report.__init__, [])) as [gen log].
  exists gen, log. split; [reflexivity|]. split; assumption.
Qed.

Lemma NoDup_map_filter {A B : Type} (g : A -> B) (p : A -> bool) (l : list A) :
  NoDup (map g l) -> NoDup (map g (filter p l)).
Proof.
  induction l as [|x l IH]; simpl; [auto|].
  intros Hl. inversion Hl as [|? ? Hx Hl']; subst.
  destruct (p x); simpl; [|now apply IH].
  constructor; [|now apply IH].
  intros Hin. apply Hx. apply in_map_iff in Hin. destruct Hin as (y & Hy & Hin).
  apply filter_In in Hin. apply in_map_iff. exists y. tauto.
Qed.

(** The groups of a scan: one per file with findings. *)
Lemma scan_blocks (E : ReEngine) (d : PIIDetector E) (files : list File) :
  NoDup (map path files) ->
  well_keyed (map (fun f => (path f, Spec.found_in d f)) (filter (has_findings d) files))
  /\ Spec.flatten (map (fun f => (path f, Spec.found_in d f))
                       (filter (has_findings d) files))
     = flat_map (Spec.found_in d) files.
Proof.
  intros Hpaths. split; [split|].
  - unfold keys. rewrite map_map. simpl. now apply NoDup_map_filter.
  - apply Forall_map. apply Forall_forall. intros f Hf. simpl.
    apply filter_In in Hf. destruct Hf as [_ Hf]. split.
    + unfold has_findings in Hf. destruct (Spec.found_in d f); [discriminate|].
      discriminate.
    + eapply Forall_impl; [|apply found_in_keyed]. simpl.
      intros r Hr. unfold Report.group_key. now rewrite Hr.
  - clear Hpaths. unfold Spec.flatten.
    induction files as [|f files IH]; simpl; [reflexivity|].
    destruct (has_findings d f) eqn:Hf; simpl.
    + now rewrite IH.
    + now rewrite (has_findings_false E d f Hf), IH.
Qed.


End ScanFacts.

(** X6: the report of a scan registers exactly the files in which something
    was found: after [scan_files] over a list of files, [scanned_files] are
    the paths of the files with at least one finding, in scan order, so
    that [total_files] counts the files with findings and not the files
    that were scanned. *)
Theorem scan_files_registers_files_with_findings
    (E : Detector.ReEngine) (src : Patterns.pattern_file) (d : Detector.PIIDetector E)
    (files : list Fs.File) (now : string) :
  Detector.__init__ E src = Return d ->
  exists gen log,
    Cli.scan_files E files src = (Return gen, log)
    /\ Report.scanned_files gen = map Fs.path (filter (Props.has_findings d) files)
    /\ Report.total_files (Report.generate_summary gen now)
       = len (filter (Props.has_findings d) files)
    /\ (Report.total_files (Report.generate_summary gen now) <= len files)%Z.
Proof.
  intros Hinit.
  destruct (scan_files_report E d files src Hinit) as (gen & log & Hscan & _ & Hfiles).
  exists gen, log. split; [exact Hscan|]. split; [exact Hfiles|].
  rewrite total_files_generate_summary, Hfiles. unfold len. rewrite length_map.
  split; [reflexivity|].
  pose proof (filter_length_le (Props.has_findings d) files). lia.
Qed.

Lemma scan_files_registers_files_with_findings_witness :
  exists gen log,
    Cli.scan_files LiteralRe.engine [Sample.undecodable; Sample.notes; Sample.html_file]
                   (Patterns.Json Sample.two_groups)
    = (Return gen, log)
    /\ Report.scanned_files gen
       = map Fs.path (filter (Props.has_findings Sample.detector)
                             [Sample.undecodable; Sample.notes; Sample.html_file])
    /\ Report.total_files (Report.generate_summary gen "2024-01-01T00:00:00")
       = len (filter (Props.has_findings Sample.detector)
                     [Sample.undecodable; Sample.notes; Sample.html_file])
    /\ (Report.total_files (Report.generate_summary gen "2024-01-01T00:00:00")
        <= len [Sample.undecodable; Sample.notes; Sample.html_file])%Z.
Proof.
  apply (scan_files_registers_files_with_findings LiteralRe.engine
           (Patterns.Json Sample.two_groups) Sample.detector).
  reflexivity.
Defined.

(** X7: when the files of a scan have distinct paths, the grouping of its
    report has one group per file with findings, in scan order, holding
    the findings of that file in the order they were found; its keys are
    the registered files, so that [total_files] is the number of groups,
    and the grouped views list the findings in scan order. *)
Theorem scan_files_groups_by_file
    (E : Detector.ReEngine) (src : Patterns.pattern_file) (d : Detector.PIIDetector E)
    (files : list Fs.File) :
  Detector.__init__ E src = Return d ->
  NoDup (map Fs.path files) ->
  exists gen log,
    Cli.scan_files E files src = (Return gen, log)
    /\ Report._group_by_file gen
       = map (fun f => (Fs.path f, Spec.found_in d f))
             (filter (Props.has_findings d) files)
    /\ keys (Report._group_by_file gen) = Report.scanned_files gen
    /\ Spec.flatten (Report._group_by_file gen) = Report.results gen.
Proof.
  intros Hinit Hpaths.
  destruct (scan_files_report E d files src Hinit) as (gen & log & Hscan & Hres & Hfiles).
  destruct (scan_blocks E d files Hpaths) as [Hkeyed Hflat].
  destruct (group_by_file_left_inverse gen _ Hkeyed) as [Hg Hf];
    [now rewrite Hres, Hflat|].
  exists gen, log. split; [exact Hscan|]. split; [exact Hg|]. split; [|exact Hf].
  rewrite Hg, Hfiles. unfold keys. rewrite map_map. reflexivity.
Qed.

Lemma scan_files_groups_by_file_witness :
  exists gen log,
    Cli.scan_files LiteralRe.engine [Sample.undecodable; Sample.notes; Sample.html_file]
                   (Patterns.Json Sample.two_groups)
    = (Return gen, log)
    /\ Report._group_by_file gen
       = map (fun f => (Fs.path f, Spec.found_in Sample.detector f))
             (filter (Props.has_findings Sample.detector)
                     [Sample.undecodable; Sample.notes; Sample.html_file])
    /\ keys (Report._group_by_file gen) = Report.scanned_files gen
    /\ Spec.flatten (Report._group_by_file gen) = Report.results gen.
Proof.
  apply (scan_files_groups_by_file LiteralRe.engine (Patterns.Json Sample.two_groups)
           Sample.detector).
  - reflexivity.
  - simpl. repeat constructor; simpl; intuition discriminate.
Defined.

Section MainFacts.
Import Fs Detector Props.




End MainFacts.




(** The scan of the sample directory: the sub-directory and the HTML page
    are left out, the spreadsheet is admitted and fails to decode, the
    notes and the letter (a DOCX by its suffix) are scanned. *)
Example scan_sample_tree :
  exists gen,
    CliMain.scan_files LiteralRe.engine (CliMain.NotAFile (Some Sample2.tree))
                       (Patterns.Json Sample.two_groups)
    = (Return gen, [(Fs.ERROR, "table.xlsx", Some UnicodeDecodeError)])
    /\ Report.scanned_files gen = ["notes.txt"; "letter.DOCX"].
Proof. eexists. split; [vm_compute; reflexivity | reflexivity]. Qed.

Section ExitCode.
Context (E : Detector.ReEngine) (src : Patterns.pattern_file).







End ExitCode.


(** A scan that finds and writes everything still exits with 1 when the
    heading of the summary cannot be printed. *)
Example main_fails_on_print :
  CliMain.main LiteralRe.engine (CliMain.IsFile Sample.notes)
               (Patterns.Json Sample.two_groups) (Return tt) "2024-01-01T00:00:00"
               (fun line => match line with
                            | CliMain.Heading => Raise UnicodeDecodeError
                            | _ => Return tt
                            end)
  = 1%Z
  /\ CliMain.main LiteralRe.engine (CliMain.IsFile Sample.notes)
                  (Patterns.Json Sample.two_groups) (Return tt) "2024-01-01T00:00:00"
                  (fun _ => Return tt)
     = 0%Z.
Proof. split; vm_compute; reflexivity. Qed.

(** X10: the default file scanner, which is also the one built from an
    empty set of types, admits spreadsheets and legacy Word documents, but
    no extractor supports them: [FileHandler] classifies such a file as
    unknown and extracts nothing, and [detect_file] reads it as plain
    text. *)
Theorem scanner_admits_unsupported_types (f : Fs.File) (mime : string) :
  Fs.magic_from_file f = Return mime ->
  In mime ["application/vnd.openxmlformats-officedocument.spreadsheetml.sheet";
           "application/msword"] ->
  String.eqb (lower (Fs.suffix f)) ".docx" = false ->
  FileScanner.__init__ (Some []) = FileScanner.__init__ None
  /\ fst (FileScanner._is_supported_file (FileScanner.__init__ None) f) = true
  /\ fst (FileHandler.get_file_type f) = Return FileHandler.UNKNOWN
  /\ fst (FileHandler.extract_text f) = Return None
  /\ Detector.detect_file_text f mime = Fs.read_text f.
Proof.
  intros Hmime Hin Hsuffix.
  assert (FileScanner.mem mime FileScanner.default_supported_types = true
          /\ contains "text/plain" (lower mime) = false
          /\ contains "pdf" (lower mime) = false
          /\ contains "officedocument.wordprocessingml.document" (lower mime) = false)
    as (Hmem & Htext & Hpdf & Hdocx).
  { destruct Hin as [<-|[<-|[]]]; repeat split; reflexivity. }
  split; [reflexivity|]. split; [|split; [|split]].
  - unfold FileScanner._is_supported_file. rewrite Hsuffix, Hmime. exact Hmem.
  - unfold FileHandler.get_file_type. now rewrite Hmime, Htext, Hpdf, Hdocx, Hsuffix.
  - unfold FileHandler.extract_text, FileHandler.get_file_type.
    now rewrite Hmime, Htext, Hpdf, Hdocx, Hsuffix.
  - unfold Detector.detect_file_text. now rewrite Hpdf, Hdocx, Hsuffix.
Qed.

Lemma scanner_admits_unsupported_types_witness :
  FileScanner.__init__ (Some []) = FileScanner.__init__ None
  /\ fst (FileScanner._is_supported_file (FileScanner.__init__ None) Sample2.spreadsheet)
     = true
  /\ fst (FileHandler.get_file_type Sample2.spreadsheet) = Return FileHandler.UNKNOWN
  /\ fst (FileHandler.extract_text Sample2.spreadsheet) = Return None
  /\ Detector.detect_file_text
       Sample2.spreadsheet
       "application/vnd.openxmlformats-officedocument.spreadsheetml.sheet"
     = Fs.read_text Sample2.spreadsheet.
Proof.
  apply (scanner_admits_unsupported_types Sample2.spreadsheet).
  - reflexivity.
  - simpl. left. reflexivity.
  - reflexivity.
Defined.


(** * Further properties of the detector *)

Section CompiledFacts.
Import Detector Props.
Context (E : ReEngine).

Lemma compile_all_lookup (ps : list Patterns.PIIPattern)
    (compiled compiled' : dict (regex E)) :
  Spec.compile_all E ps compiled = Return compiled' ->
  forall n, dict_get n compiled'
            = match last_named n ps with
              | Some p => re_compile E (Patterns.pattern p)
              | None => dict_get n compiled
              end.
Proof.
  revert compiled. induction ps as [|q ps IH]; intros compiled; unfold Spec.compile_all;
    simpl.
  - intros [= <-] n. reflexivity.
  - destruct (re_compile E (Patterns.pattern q)) as [re|] eqn:Hq; simpl; [|discriminate].
    intros Hrest n. rewrite (IH _ Hrest n).
    destruct (last_named n ps) as [p|]; [reflexivity|].
    destruct (String.eqb (Patterns.name q) n) eqn:Hn.
    + apply String.eqb_eq in Hn. subst n. now rewrite dict_get_set_eq, Hq.
    + apply String.eqb_neq in Hn. now rewrite dict_get_set_neq.
Qed.

Lemma last_named_In (n : string) (ps : list Patterns.PIIPattern) (p : Patterns.PIIPattern) :
  last_named n ps = Some p -> In p ps /\ Patterns.name p = n.
Proof.
  induction ps as [|q ps IH]; simpl; [discriminate|].
  destruct (last_named n ps) as [p'|].
  - intros [= <-]. destruct (IH eq_refl). auto.
  - destruct (String.eqb (Patterns.name q) n) eqn:Hn; [|discriminate].
    intros [= <-]. apply String.eqb_eq in Hn. auto.
Qed.

Lemma last_named_some (ps : list Patterns.PIIPattern) (p : Patterns.PIIPattern) :
  In p ps -> exists q, last_named (Patterns.name p) ps = Some q.
Proof.
  induction ps as [|q ps IH]; simpl; [contradiction|].
  intros [->|Hin].
  - destruct (last_named (Patterns.name p) ps); [eauto|].
    rewrite String.eqb_refl. eauto.
  - destruct (IH Hin) as (q' & ->). eauto.
Qed.

End CompiledFacts.

(** X12: a detector keeps the loaded patterns in order and, for every
    name, the compiled expression of the last pattern that has this name:
    when a name is declared several times, every pattern of this name is
    matched with the expression of the last one. *)
Theorem init_keeps_last_expression_of_a_name
    (E : Detector.ReEngine) (src : Patterns.pattern_file) (d : Detector.PIIDetector E) :
  Detector.__init__ E src = Return d ->
  Patterns.load_patterns src = Return (Detector.patterns d)
  /\ (forall n, dict_get n (Detector.compiled_patterns d)
                = match Props.last_named n (Detector.patterns d) with
                  | Some p => Detector.re_compile E (Patterns.pattern p)
                  | None => None
                  end)
  /\ (forall p, In p (Detector.patterns d) ->
                exists q re,
                  Props.last_named (Patterns.name p) (Detector.patterns d) = Some q
                  /\ Detector.re_compile E (Patterns.pattern q) = Some re
                  /\ dict_get (Patterns.name p) (Detector.compiled_patterns d) = Some re).
Proof.
  rewrite init_unfold.
  destruct (Patterns.load_patterns src) as [ps|] eqn:Hload; simpl; [|discriminate].
  destruct (Spec.compile_all E ps []) as [compiled|] eqn:Hc; simpl; [|discriminate].
  intros [= <-]. simpl.
  pose proof (compile_all_lookup E ps [] compiled Hc) as Hlookup.
  split; [reflexivity|]. split; [exact Hlookup|].
  intros p Hp. destruct (last_named_some ps p Hp) as (q & Hq).
  pose proof (Hlookup (Patterns.name p)) as Hget. rewrite Hq in Hget.
  pose proof (proj2 (compile_all_keys E ps [] compiled Hc) p Hp) as Hsome.
  destruct (dict_get (Patterns.name p) compiled) as [re|] eqn:Hre; [|congruence].
  exists q, re. auto.
Qed.

Lemma init_keeps_last_expression_of_a_name_witness :
  Patterns.load_patterns (Patterns.Json Sample2.same_name_twice)
  = Return (Detector.patterns Sample2.same_name_detector)
  /\ (forall n, dict_get n (Detector.compiled_patterns Sample2.same_name_detector)
                = match Props.last_named n (Detector.patterns Sample2.same_name_detector)
                  with
                  | Some p => Detector.re_compile LiteralRe.engine (Patterns.pattern p)
                  | None => None
                  end)
  /\ (forall p, In p (Detector.patterns Sample2.same_name_detector) ->
                exists q re,
                  Props.last_named (Patterns.name p)
                                   (Detector.patterns Sample2.same_name_detector)
                  = Some q
                  /\ Detector.re_compile LiteralRe.engine (Patterns.pattern q) = Some re
                  /\ dict_get (Patterns.name p)
                              (Detector.compiled_patterns Sample2.same_name_detector)
                     = Some re).
Proof.
  apply (init_keeps_last_expression_of_a_name LiteralRe.engine
           (Patterns.Json Sample2.same_name_twice) Sample2.same_name_detector).
  reflexivity.
Defined.

(** With the name [id] declared for [950101] and then for [b], the text
    [950101 b] has no finding for the number and two for the letter, one
    at each risk level. *)
Example detect_same_name_twice :
  exists r1 r2,
    Detector.detect Sample2.same_name_detector (str_of "950101 b") 0 = Return [r1; r2]
    /\ Detector.matched_text r1 = str_of "b" /\ Detector.risk_level r1 = "HIGH"
    /\ Detector.matched_text r2 = str_of "b" /\ Detector.risk_level r2 = "LOW".
Proof. eexists. eexists. split; [vm_compute; reflexivity|]. repeat split. Qed.

Section CountFacts.
Import Detector Props.

Lemma length_flat_map_sum {A B : Type} (f : A -> list B) (l : list A) :
  List.length (flat_map f l) = list_sum (map (fun x => List.length (f x)) l).
Proof.
  induction l as [|x l IH]; simpl; [reflexivity|].
  now rewrite length_app, IH.
Qed.

Lemma map_snd_enumerate {A B : Type} (g : A -> B) (l : list A) (start : Z) :
  map (fun nl => g (snd nl)) (enumerate l start) = map g l.
Proof.
  revert start. induction l as [|x l IH]; intros start; simpl; [reflexivity|].
  now rewrite IH.
Qed.

Lemma findings_length {E : ReEngine} (d : PIIDetector E) (c : Z) (nl : Z * pystr)
    (p : Patterns.PIIPattern) :
  List.length (Spec.findings d c nl p) = match_count d (snd nl) p.
Proof.
  unfold Spec.findings, match_count.
  destruct (dict_get (Patterns.name p) (compiled_patterns d)); [|reflexivity].
  apply length_map.
Qed.

Lemma findings_in_text_length {E : ReEngine} (d : PIIDetector E) (text : pystr) (c : Z) :
  List.length (Spec.findings_in_text d text c)
  = list_sum (map (fun line => list_sum (map (match_count d line) (patterns d)))
                  (splitlines text)).
Proof.
  unfold Spec.findings_in_text, Spec.findings_in_line.
  rewrite length_flat_map_sum.
  rewrite <- (map_snd_enumerate
                (fun line => list_sum (map (match_count d line) (patterns d)))
                (splitlines text) 1).
  f_equal. apply map_ext. intros nl. rewrite length_flat_map_sum.
  f_equal. apply map_ext. intros p. apply findings_length.
Qed.

Lemma In_firstn {A : Type} (n : nat) (l : list A) (x : A) :
  In x (firstn n l) -> In x l.
Proof.
  revert l. induction n as [|n IH]; intros [|y l]; simpl; try contradiction.
  intros [->|H]; [now left | right; now apply IH].
Qed.

Lemma In_skipn {A : Type} (n : nat) (l : list A) (x : A) :
  In x (skipn n l) -> In x l.
Proof.
  revert l. induction n as [|n IH]; intros [|y l]; simpl; try contradiction; auto.
Qed.

Lemma no_linebreak_py_slice (s : pystr) (lo hi : Z) :
  Spec.no_linebreak s -> Spec.no_linebreak (py_slice s lo hi).
Proof.
  unfold Spec.no_linebreak, py_slice. rewrite !Forall_forall.
  intros Hs c Hc. apply Hs.
  apply In_firstn in Hc. now apply In_skipn in Hc.
Qed.

Lemma nested_rows (tbls : list (list (list pystr))) (acc : list pystr) :
  fold_left
    (fun tables table =>
       fold_left (fun tables row => tables ++ [join (str_of " ") row]) table tables)
    tbls acc
  = acc ++ map (join (str_of " ")) (List.concat tbls).
Proof.
  revert acc. induction tbls as [|t tbls IH]; intros acc; simpl.
  - now rewrite app_nil_r.
  - rewrite IH, (fold_left_append (join (str_of " "))), map_app, app_assoc.
    reflexivity.
Qed.

End CountFacts.

(** X13: a detector built from a pattern source reports, for every text,
    one finding per match of every pattern on every line: the number of
    findings is the sum over the lines and the patterns of the number of
    matches, nothing is merged or dropped. An empty text, and a detector
    without patterns, give the empty list. *)
Theorem detect_reports_every_match
    (E : Detector.ReEngine) (src : Patterns.pattern_file) (d : Detector.PIIDetector E)
    (text : pystr) (context_chars : Z) :
  Detector.__init__ E src = Return d ->
  exists rs,
    Detector.detect d text context_chars = Return rs
    /\ List.length rs
       = list_sum
           (map (fun line =>
                   list_sum (map (Props.match_count d line) (Detector.patterns d)))
                (splitlines text))
    /\ (text = [] -> rs = [])
    /\ (Detector.patterns d = [] -> rs = []).
Proof.
  intros Hinit. exists (Spec.findings_in_text d text context_chars).
  split; [apply detect_all_compiled; now apply (init_all_compiled E src)|].
  split; [apply findings_in_text_length|]. split.
  - intros ->. reflexivity.
  - intros Hnone. apply length_zero_iff_nil.
    rewrite findings_in_text_length, Hnone. simpl.
    induction (splitlines text) as [|l ls IH]; simpl; [reflexivity | exact IH].
Qed.

Lemma detect_reports_every_match_witness :
  exists rs,
    Detector.detect Sample2.same_name_detector (str_of "950101 b") 0 = Return rs
    /\ List.length rs
       = list_sum
           (map (fun line =>
                   list_sum (map (Props.match_count Sample2.same_name_detector line)
                                 (Detector.patterns Sample2.same_name_detector)))
                (splitlines (str_of "950101 b")))
    /\ (str_of "950101 b" = [] -> rs = [])
    /\ (Detector.patterns Sample2.same_name_detector = [] -> rs = []).
Proof.
  apply (detect_reports_every_match LiteralRe.engine
           (Patterns.Json Sample2.same_name_twice)).
  reflexivity.
Defined.

(** X14: with an expression engine that returns matches inside the line
    it is given, no finding spans a line boundary: the matched text and
    the context of every finding contain none of the characters at which
    [splitlines] breaks a line, whatever the context window. *)
Theorem detect_findings_stay_in_their_line
    (E : Detector.ReEngine) (d : Detector.PIIDetector E)
    (text : pystr) (context_chars : Z) (rs : list Detector.DetectionResult) :
  Spec.re_contract E ->
  Detector.detect d text context_chars = Return rs ->
  forall r, In r rs ->
            Spec.no_linebreak (Detector.matched_text r)
            /\ Spec.no_linebreak (Detector.context r).
Proof.
  intros HE Hrs r Hr.
  destruct (detect_Return_In E d text context_chars rs r Hrs Hr)
    as (n & line & p & re & m & Hnl & _ & _ & Hm & ->).
  assert (Spec.no_linebreak line) as Hline.
  { apply enumerate_In in Hnl. destruct Hnl as [_ Hnth].
    apply nth_error_In in Hnth.
    exact (proj1 (Forall_forall _ _) (splitlines_no_linebreak text) line Hnth). }
  simpl. split; [|now apply no_linebreak_py_slice].
  destruct (HE re line) as [Hok _].
  pose proof (proj1 (Forall_forall _ _) Hok m Hm) as Hmok.
  destruct Hmok as (_ & _ & ->). now apply no_linebreak_py_slice.
Qed.

Lemma detect_findings_stay_in_their_line_witness :
  Forall (fun r => Spec.no_linebreak (Detector.matched_text r)
                   /\ Spec.no_linebreak (Detector.context r))
         (Spec.findings_in_text Sample.detector Sample.two_lines 50).
Proof.
  apply Forall_forall.
  apply (detect_findings_stay_in_their_line
           LiteralRe.engine Sample.detector Sample.two_lines 50).
  - exact literal_contract.
  - reflexivity.
Defined.

(** X15: for a file that [FileHandler] classifies as DOCX, [detect_file]
    and [FileHandler] obtain the same text: the paragraphs, then every row
    of every table with its cells joined by one space, all joined by line
    feeds. When the document cannot be opened, [extract_text] returns
    [None]. *)
Theorem docx_text_is_the_same_for_both_readers (f : Fs.File) (mime : string) :
  Fs.magic_from_file f = Return mime ->
  fst (FileHandler.get_file_type f) = Return FileHandler.DOCX ->
  Detector.detect_file_text f mime
  = (doc <- Fs.docx_Document f ;; Return (Props.docx_text doc))
  /\ fst (FileHandler._extract_from_docx f) = Detector.detect_file_text f mime
  /\ fst (FileHandler.extract_text f)
     = Return match Fs.docx_Document f with
              | Return doc => Some (Props.docx_text doc)
              | Raise _ => None
              end.
Proof.
  intros Hmime Htype.
  assert (contains "pdf" (lower mime) = false
          /\ (contains "officedocument.wordprocessingml.document" (lower mime)
              || String.eqb (lower (Fs.suffix f)) ".docx")%bool = true)
    as [Hpdf Hdocx].
  { unfold FileHandler.get_file_type in Htype. rewrite Hmime in Htype.
    destruct (contains "text/plain" (lower mime)); [discriminate|].
    destruct (contains "pdf" (lower mime)); [discriminate|].
    destruct (contains "officedocument.wordprocessingml.document" (lower mime)
              || String.eqb (lower (Fs.suffix f)) ".docx")%bool;
      [auto | discriminate]. }
  assert (Detector.detect_file_text f mime
          = (doc <- Fs.docx_Document f ;; Return (Props.docx_text doc))) as Htext.
  { unfold Detector.detect_file_text. rewrite Hpdf, Hdocx.
    destruct (Fs.docx_Document f) as [doc|e]; [|reflexivity].
    simpl. unfold Props.docx_text. now rewrite nested_rows. }
  assert (fst (FileHandler._extract_from_docx f) = Detector.detect_file_text f mime)
    as Hsame.
  { unfold FileHandler._extract_from_docx, Detector.detect_file_text.
    rewrite Hpdf, Hdocx. reflexivity. }
  split; [exact Htext|]. split; [exact Hsame|].
  unfold FileHandler.extract_text.
  destruct (FileHandler.get_file_type f) as [[t|e] log]; simpl in Htype;
    [|discriminate].
  injection Htype as ->. unfold FileHandler.extract_text_try.
  rewrite Htext in Hsame.
  destruct (FileHandler._extract_from_docx f) as [[text|e] log'];
    simpl in Hsame; destruct (Fs.docx_Document f) as [doc|e']; simpl in Hsame;
    try discriminate; simpl.
  - now injection Hsame as ->.
  - reflexivity.
Qed.

Lemma docx_text_is_the_same_for_both_readers_witness :
  Detector.detect_file_text Sample2.letter "application/zip"
  = (doc <- Fs.docx_Document Sample2.letter ;; Return (Props.docx_text doc))
  /\ fst (FileHandler._extract_from_docx Sample2.letter)
     = Detector.detect_file_text Sample2.letter "application/zip"
  /\ fst (FileHandler.extract_text Sample2.letter)
     = Return match Fs.docx_Document Sample2.letter with
              | Return doc => Some (Props.docx_text doc)
              | Raise _ => None
              end.
Proof.
  apply (docx_text_is_the_same_for_both_readers Sample2.letter "application/zip");
    reflexivity.
Defined.

(** X24: the two readers disagree on a plain text file whose name ends in
    [.docx]: [FileHandler] goes by the MIME type and reads the file as
    text, while [detect_file] goes by the suffix and opens it as a Word
    document, so that with a file that is no such document
    [FileHandler.extract_text] returns its text and [detect_file] finds
    nothing and logs the error. *)
Theorem text_file_named_docx
    (E : Detector.ReEngine) (d : Detector.PIIDetector E) (f : Fs.File) (mime : string) :
  Fs.magic_from_file f = Return mime ->
  contains "text/plain" (lower mime) = true ->
  contains "pdf" (lower mime) = false ->
  String.eqb (lower (Fs.suffix f)) ".docx" = true ->
  fst (FileHandler.get_file_type f) = Return FileHandler.TEXT
  /\ Detector.detect_file_text f mime
     = (doc <- Fs.docx_Document f ;; Return (Props.docx_text doc))
  /\ (forall text e,
         Fs.read_text f = Return text ->
         Fs.docx_Document f = Raise e ->
         FileHandler.extract_text f = (Return (Some text), [])
         /\ Detector.detect_file d f = (Return [], [(Fs.ERROR, Fs.path f, Some e)])).
Proof.
  intros Hmime Htext Hpdf Hsuffix.
  assert (fst (FileHandler.get_file_type f) = Return FileHandler.TEXT
          /\ FileHandler.get_file_type f = (Return FileHandler.TEXT, [])) as [Ht Htype].
  { unfold FileHandler.get_file_type. now rewrite Hmime, Htext. }
  assert (Detector.detect_file_text f mime
          = (doc <- Fs.docx_Document f ;; Return (Props.docx_text doc))) as Hdoc.
  { unfold Detector.detect_file_text. rewrite Hpdf, Hsuffix, orb_true_r.
    destruct (Fs.docx_Document f) as [doc|e]; [|reflexivity].
    simpl. unfold Props.docx_text. now rewrite nested_rows. }
  split; [exact Ht|]. split; [exact Hdoc|].
  intros text e Hread Hopen. split.
  - unfold FileHandler.extract_text. rewrite Htype.
    unfold FileHandler.extract_text_try, FileHandler._extract_from_text.
    now rewrite Hread.
  - unfold Detector.detect_file. rewrite Hmime, Hdoc, Hopen. reflexivity.
Qed.

Lemma text_file_named_docx_witness :
  fst (FileHandler.get_file_type Sample2.text_named_docx) = Return FileHandler.TEXT
  /\ Detector.detect_file_text Sample2.text_named_docx "text/plain"
     = (doc <- Fs.docx_Document Sample2.text_named_docx ;;
        Return (Props.docx_text doc))
  /\ (forall text e,
         Fs.read_text Sample2.text_named_docx = Return text ->
         Fs.docx_Document Sample2.text_named_docx = Raise e ->
         FileHandler.extract_text Sample2.text_named_docx = (Return (Some text), [])
         /\ Detector.detect_file Sample.detector Sample2.text_named_docx
            = (Return [], [(Fs.ERROR, Fs.path Sample2.text_named_docx, Some e)])).
Proof.
  apply (text_file_named_docx LiteralRe.engine Sample.detector
           Sample2.text_named_docx "text/plain"); reflexivity.
Defined.

(** X16: for a detector built from a pattern source and a file whose type
    [magic] determines and whose text can be extracted, [detect_file]
    returns the findings of [detect] on that text with the default window
    of 50 characters, in the same order and number, each with the path of
    the file and otherwise unchanged; nothing is logged. When [magic]
    itself fails, [detect_file] raises what [magic] raised. *)
Theorem detect_file_is_detect_of_the_text
    (E : Detector.ReEngine) (src : Patterns.pattern_file) (d : Detector.PIIDetector E)
    (f : Fs.File) :
  Detector.__init__ E src = Return d ->
  (forall mime text,
      Fs.magic_from_file f = Return mime ->
      Detector.detect_file_text f mime = Return text ->
      exists rs,
        Detector.detect d text 50 = Return rs
        /\ Detector.detect_file d f
           = (Return (map (Detector.set_file_path (Fs.path f)) rs), [])
        /\ List.length (Spec.found_in d f) = List.length rs
        /\ Forall2 (fun r' r =>
                      Detector.file_path r' = Some (Fs.path f)
                      /\ Detector.pattern_name r' = Detector.pattern_name r
                      /\ Detector.matched_text r' = Detector.matched_text r
                      /\ Detector.start_pos r' = Detector.start_pos r
                      /\ Detector.end_pos r' = Detector.end_pos r
                      /\ Detector.risk_level r' = Detector.risk_level r
                      /\ Detector.line_number r' = Detector.line_number r
                      /\ Detector.context r' = Detector.context r)
                   (Spec.found_in d f) rs)
  /\ (forall e, Fs.magic_from_file f = Raise e ->
                Detector.detect_file d f = (Raise e, [])).
Proof.
  intros Hinit. split.
  - intros mime text Hmime Htext.
    pose proof (detect_all_compiled E d text 50 (init_all_compiled E src d Hinit))
      as Hdetect.
    exists (Spec.findings_in_text d text 50). split; [exact Hdetect|].
    assert (Detector.detect_file d f
            = (Return (map (Detector.set_file_path (Fs.path f))
                           (Spec.findings_in_text d text 50)), [])) as Hfile.
    { unfold Detector.detect_file. rewrite Hmime, Htext. simpl.
      unfold Detector.default_context_chars. now rewrite Hdetect. }
    split; [exact Hfile|]. unfold Spec.found_in. rewrite Hfile. simpl.
    split; [apply length_map|]. clear Hdetect Hfile.
    induction (Spec.findings_in_text d text 50) as [|r rs IH]; simpl; constructor.
    + repeat split.
    + exact IH.
  - intros e Hmime. unfold Detector.detect_file. now rewrite Hmime.
Qed.

Lemma detect_file_is_detect_of_the_text_witness :
  (forall mime text,
      Fs.magic_from_file Sample.notes = Return mime ->
      Detector.detect_file_text Sample.notes mime = Return text ->
      exists rs,
        Detector.detect Sample.detector text 50 = Return rs
        /\ Detector.detect_file Sample.detector Sample.notes
           = (Return (map (Detector.set_file_path (Fs.path Sample.notes)) rs), [])
        /\ List.length (Spec.found_in Sample.detector Sample.notes) = List.length rs
        /\ Forall2 (fun r' r =>
                      Detector.file_path r' = Some (Fs.path Sample.notes)
                      /\ Detector.pattern_name r' = Detector.pattern_name r
                      /\ Detector.matched_text r' = Detector.matched_text r
                      /\ Detector.start_pos r' = Detector.start_pos r
                      /\ Detector.end_pos r' = Detector.end_pos r
                      /\ Detector.risk_level r' = Detector.risk_level r
                      /\ Detector.line_number r' = Detector.line_number r
                      /\ Detector.context r' = Detector.context r)
                   (Spec.found_in Sample.detector Sample.notes) rs)
  /\ (forall e, Fs.magic_from_file Sample.notes = Raise e ->
                Detector.detect_file Sample.detector Sample.notes = (Raise e, [])).
Proof.
  apply (detect_file_is_detect_of_the_text LiteralRe.engine
           (Patterns.Json Sample.two_groups)).
  reflexivity.
Defined.

(** * The pattern loader on any file *)

Lemma for_loop_Raise_In {A B : Type} (body : list B -> A -> outcome (list B))
    (g : A -> outcome (list B)) (l : list A) (acc : list B) (e : exn) :
  appends body g -> for_loop body l acc = Raise e ->
  exists x, In x l /\ g x = Raise e.
Proof.
  intros Hb. revert acc. induction l as [|x l IH]; intros acc; simpl; [discriminate|].
  rewrite Hb. destruct (g x) as [ys|e'] eqn:Hx; simpl.
  - intros Hrest. destruct (IH _ Hrest) as (y & Hy & Hg). eauto.
  - intros [= <-]. eauto.
Qed.

Lemma RiskLevel_getitem_Raise (k : string) (e : exn) :
  Patterns.RiskLevel_getitem k = Raise e -> e = KeyError k /\ ~ Spec.valid_risk_key k.
Proof.
  unfold Patterns.RiskLevel_getitem, Spec.valid_risk_key.
  destruct (String.eqb k "HIGH") eqn:E1; [discriminate|].
  destruct (String.eqb k "MEDIUM") eqn:E2; [discriminate|].
  destruct (String.eqb k "LOW") eqn:E3; [discriminate|].
  apply String.eqb_neq in E1, E2, E3.
  intros [= <-]. split; [reflexivity|]. intros [H|[H|H]]; contradiction.
Qed.

Lemma RiskLevel_getitem_valid_iff (k : string) :
  (exists level, Patterns.RiskLevel_getitem k = Return level) <-> Spec.valid_risk_key k.
Proof.
  split.
  - intros (level & Hl). apply RiskLevel_getitem_Return in Hl. subst k.
    unfold Spec.valid_risk_key. destruct level; simpl; auto.
  - intros Hk. destruct (RiskLevel_getitem_valid k Hk) as (level & Hl & _). eauto.
Qed.

Section ValueFacts.
Import PyValue.

Lemma subscript_cases (v : pyvalue) (k : string) :
  (exists x, subscript v k = Return x)
  \/ subscript v k = Raise (KeyError k)
  \/ subscript v k = Raise TypeError.
Proof.
  destruct v; simpl; auto. unfold getitem. destruct (dict_get k d); eauto.
Qed.

Lemma subscript_0_cases (v : pyvalue) :
  (exists x, subscript_0 v = Return x)
  \/ subscript_0 v = Raise IndexError
  \/ subscript_0 v = Raise KeyError_0
  \/ subscript_0 v = Raise TypeError.
Proof.
  destruct v as [| | |s|l|d]; simpl; auto.
  - destruct s; eauto.
  - destruct l; eauto.
Qed.

Lemma dict_get_map {V W : Type} (f : V -> W) (k : string) (d : dict V) :
  dict_get k (map (fun entry => (fst entry, f (snd entry))) d)
  = option_map f (dict_get k d).
Proof.
  induction d as [|[k' v] d IH]; simpl; [reflexivity|].
  destruct (String.eqb k k'); [reflexivity | exact IH].
Qed.

End ValueFacts.

Section AnyLoader.
Import PyValue PatternLoader Props.

Lemma record_body_appends (risk : string) :
  appends
    (fun patterns p =>
       p_name <- subscript p "name" ;;
       p_pattern <- subscript p "pattern" ;;
       level <- Patterns.RiskLevel_getitem risk ;;
       p_description <- get p "description" (PyStr "") ;;
       Return (patterns
                 ++ [ {| name := p_name;
                         pattern := p_pattern;
                         risk_level := level;
                         description := p_description |} ]))
    (declare_value risk).
Proof.
  intros acc p. unfold declare_value.
  destruct (subscript p "name"); simpl; [|reflexivity].
  destruct (subscript p "pattern"); simpl; [|reflexivity].
  destruct (Patterns.RiskLevel_getitem risk); simpl; [|reflexivity].
  destruct (get p "description" (PyStr "")); reflexivity.
Qed.

Lemma declare_records_cons (risk : string) (p : pyvalue) (l : list pyvalue) :
  declare_records risk (p :: l)
  = (ys <- declare_value risk p ;; zs <- declare_records risk l ;; Return (ys ++ zs)).
Proof. exact (for_loop_cons _ _ p l (record_body_appends risk)). Qed.

Lemma entry_body_appends :
  appends
    (fun patterns '(risk_level, pattern_list) =>
       records <- iterate pattern_list ;;
       for_loop
         (fun patterns p =>
            p_name <- subscript p "name" ;;
            p_pattern <- subscript p "pattern" ;;
            level <- Patterns.RiskLevel_getitem risk_level ;;
            p_description <- get p "description" (PyStr "") ;;
            Return (patterns
                      ++ [ {| name := p_name;
                              pattern := p_pattern;
                              risk_level := level;
                              description := p_description |} ]))
         records patterns)
    declare_entry.
Proof.
  intros acc [risk v]. unfold declare_entry, declare_records. simpl.
  destruct (iterate v) as [records|e]; simpl; [|reflexivity].
  apply (for_loop_shift _ _ records acc (record_body_appends risk)).
Qed.

Lemma entry_step_appends :
  appends (fun patterns g => ys <- declare_entry g ;; Return (patterns ++ ys))
          declare_entry.
Proof. intros acc g. reflexivity. Qed.

Lemma load_patterns_unfold (data : pyvalue) :
  load_patterns (Json data)
  = (groups <- subscript data "patterns" ;;
     entries <- items groups ;;
     for_loop (fun patterns g => ys <- declare_entry g ;; Return (patterns ++ ys))
              entries []).
Proof.
  unfold load_patterns.
  destruct (subscript data "patterns") as [groups|e]; simpl; [|reflexivity].
  destruct (items groups) as [entries|e]; simpl; [|reflexivity].
  apply for_loop_ext. intros acc g. apply (entry_body_appends acc g).
Qed.

(** ** When a record, a sequence of records, an entry loads *)

Lemma declare_value_not_dict (risk : string) (p : pyvalue) :
  (forall o, p <> PyDict o) -> declare_value risk p = Raise TypeError.
Proof.
  intros Hp. unfold declare_value.
  destruct p; try reflexivity. now destruct (Hp d).
Qed.

Lemma declare_value_Return_iff (risk : string) (p : pyvalue) :
  (exists ys, declare_value risk p = Return ys)
  <-> has_fields_value p /\ Spec.valid_risk_key risk.
Proof.
  destruct p as [| | | | |o];
    try (split; [intros (ys & H); discriminate | intros [[] _]]).
  unfold declare_value, has_fields_value. simpl. unfold getitem.
  destruct (dict_get "name" o) as [n|]; simpl;
    [|split; [intros (ys & H); discriminate | intros [[H _] _]; congruence]].
  destruct (dict_get "pattern" o) as [x|]; simpl;
    [|split; [intros (ys & H); discriminate | intros [[_ H] _]; congruence]].
  destruct (Patterns.RiskLevel_getitem risk) as [level|e] eqn:Hl; simpl.
  - split.
    + intros _. split; [split; discriminate|].
      apply RiskLevel_getitem_valid_iff. eauto.
    + intros _. eauto.
  - split; [intros (ys & H); discriminate|].
    intros [_ Hk]. apply RiskLevel_getitem_valid_iff in Hk.
    destruct Hk as (level & Hk). congruence.
Qed.

Lemma declare_records_Return_iff (risk : string) (l : list pyvalue) :
  (exists ys, declare_records risk l = Return ys)
  <-> Forall has_fields_value l /\ (l = [] \/ Spec.valid_risk_key risk).
Proof.
  induction l as [|p l IH].
  - split; [intros _; split; [constructor | now left] | intros _; now exists []].
  - rewrite declare_records_cons. split.
    + intros (ys & H).
      destruct (declare_value risk p) as [y|] eqn:Hp; simpl in H; [|discriminate].
      destruct (declare_records risk l) as [zs|] eqn:Hl; simpl in H; [|discriminate].
      destruct (proj1 (declare_value_Return_iff risk p) (ex_intro _ y Hp)) as [Hf Hk].
      destruct (proj1 IH (ex_intro _ zs eq_refl)) as [Hfs _].
      split; [constructor; assumption | now right].
    + intros [Hfs [Hnil|Hk]]; [discriminate|].
      inversion Hfs as [|? ? Hf Hfs']; subst.
      destruct (proj2 (declare_value_Return_iff risk p) (conj Hf Hk)) as (y & ->).
      destruct (proj2 IH (conj Hfs' (or_intror Hk))) as (zs & ->).
      simpl. eauto.
Qed.

Lemma declare_entry_Return_iff (g : string * pyvalue) :
  (exists ys, declare_entry g = Return ys) <-> loadable_group g.
Proof.
  destruct g as [risk v]. unfold declare_entry, loadable_group. simpl.
  destruct v as [| | |s|l|o]; simpl;
    try (split; [intros (ys & H); discriminate | intros []]).
  - destruct s as [|a s]; simpl.
    + split; [reflexivity | intros _; now exists []].
    + rewrite declare_records_cons. simpl.
      split; [intros (ys & H); discriminate | discriminate].
  - apply declare_records_Return_iff.
  - destruct o as [|[k v] o]; simpl.
    + split; [reflexivity | intros _; now exists []].
    + rewrite declare_records_cons. simpl.
      split; [intros (ys & H); discriminate | discriminate].
Qed.

Lemma entry_loop_loadable (entries : list (string * pyvalue)) :
  (exists ps,
      for_loop (fun patterns g => ys <- declare_entry g ;; Return (patterns ++ ys))
               entries [] = Return ps)
  <-> Forall loadable_group entries.
Proof.
  split.
  - intros (ps & Hps).
    apply (for_loop_Return_iff _ _ entries ps entry_step_appends) in Hps.
    destruct Hps as (yss & HF & _).
    induction HF as [|g ys entries yss Hg _ IH]; constructor; [|exact IH].
    apply declare_entry_Return_iff. eauto.
  - intros Hentries. induction Hentries as [|g entries Hg _ IH].
    + exists []. reflexivity.
    + rewrite (for_loop_cons _ _ _ entries entry_step_appends).
      destruct (proj2 (declare_entry_Return_iff g) Hg) as (ys & ->).
      destruct IH as (zs & ->). simpl. eauto.
Qed.

Lemma load_patterns_loadable (data : pyvalue) :
  (exists ps, load_patterns (Json data) = Return ps) <-> loadable_document data.
Proof.
  rewrite load_patterns_unfold. unfold loadable_document.
  destruct data as [| | | | |d]; simpl;
    try (split; [intros (ps & H); discriminate | intros []]).
  unfold getitem. destruct (dict_get "patterns" d) as [groups|]; simpl;
    [|split; [intros (ps & H); discriminate | intros []]].
  destruct groups as [| | | | |entries]; simpl;
    try (split; [intros (ps & H); discriminate | intros []]).
  apply entry_loop_loadable.
Qed.

(** ** What a record, a sequence of records, an entry raises *)

Lemma declare_value_Raise (risk : string) (p : pyvalue) (e : exn) :
  declare_value risk p = Raise e -> record_fault risk p e.
Proof.
  destruct p as [| | | | |o]; try (now intros [= <-]).
  unfold declare_value, record_fault. simpl. unfold getitem.
  destruct (dict_get "name" o) as [n|]; simpl; [|intros [= <-]; auto].
  destruct (dict_get "pattern" o) as [x|]; simpl; [|intros [= <-]; auto].
  destruct (Patterns.RiskLevel_getitem risk) as [level|e'] eqn:Hl; simpl; [discriminate|].
  intros [= <-]. right. right. now apply RiskLevel_getitem_Raise.
Qed.

Lemma declare_records_Raise (risk : string) (l : list pyvalue) (e : exn) :
  declare_records risk l = Raise e ->
  exists p, In p l /\ record_fault risk p e.
Proof.
  intros H.
  destruct (for_loop_Raise_In _ _ l [] e (record_body_appends risk) H) as (p & Hp & Hd).
  exists p. split; [exact Hp | now apply declare_value_Raise].
Qed.

Lemma declare_entry_Raise (g : string * pyvalue) (e : exn) :
  declare_entry g = Raise e -> group_fault g e.
Proof.
  destruct g as [risk v]. unfold declare_entry, group_fault. simpl.
  destruct v as [| | |s|l|o]; simpl; try (now intros [= <-]).
  - intros H. destruct (declare_records_Raise _ _ _ H) as (p & Hp & Hf).
    apply in_map_iff in Hp. destruct Hp as (a & <- & Ha). simpl in Hf.
    split; [|exact Hf]. intros ->. contradiction.
  - apply declare_records_Raise.
  - intros H. destruct (declare_records_Raise _ _ _ H) as (p & Hp & Hf).
    apply in_map_iff in Hp. destruct Hp as (entry & <- & Hentry). simpl in Hf.
    split; [|exact Hf]. intros ->. contradiction.
Qed.

Lemma load_patterns_fault (data : pyvalue) (e : exn) :
  load_patterns (Json data) = Raise e -> document_fault data e.
Proof.
  rewrite load_patterns_unfold. unfold document_fault.
  destruct data as [| | | | |d]; simpl; try (now intros [= <-]).
  unfold getitem. destruct (dict_get "patterns" d) as [groups|]; simpl;
    [|now intros [= <-]].
  destruct groups as [| | | | |entries]; simpl; try (now intros [= <-]).
  intros H.
  destruct (for_loop_Raise_In _ _ entries [] e entry_step_appends H) as (g & Hg & Hd).
  exists g. split; [exact Hg | now apply declare_entry_Raise].
Qed.

(** ** The loader on the documents of the annotated shape *)

Lemma declare_value_as_record (risk : string) (p : Patterns.record) :
  declare_value risk (as_record p)
  = (ys <- Spec.declare risk p ;; Return (map as_pattern ys)).
Proof.
  unfold declare_value, Spec.declare, as_record. simpl.
  unfold getitem, get_default. rewrite !(dict_get_map PyStr).
  destruct (dict_get "name" p) as [n|]; simpl; [|reflexivity].
  destruct (dict_get "pattern" p) as [x|]; simpl; [|reflexivity].
  destruct (Patterns.RiskLevel_getitem risk) as [level|]; simpl; [|reflexivity].
  destruct (dict_get "description" p); reflexivity.
Qed.

Lemma declare_records_as_records (risk : string) (l : list Patterns.record) :
  declare_records risk (map as_record l)
  = (ys <- Spec.declare_group (risk, l) ;; Return (map as_pattern ys)).
Proof.
  induction l as [|p l IH]; [reflexivity|].
  simpl map. rewrite declare_records_cons, declare_group_cons, IH,
    declare_value_as_record.
  destruct (Spec.declare risk p) as [ys|]; simpl; [|reflexivity].
  destruct (Spec.declare_group (risk, l)) as [zs|]; simpl; [|reflexivity].
  now rewrite map_app.
Qed.

Lemma entry_loop_as_groups (groups : dict (list Patterns.record)) :
  for_loop (fun patterns g => ys <- declare_entry g ;; Return (patterns ++ ys))
           (map as_group groups) []
  = (ps <- for_loop (fun patterns g =>
                       ys <- Spec.declare_group g ;; Return (patterns ++ ys))
                    groups [] ;;
     Return (map as_pattern ps)).
Proof.
  induction groups as [|[risk l] groups IH]; [reflexivity|].
  simpl map.
  rewrite (for_loop_cons _ _ _ _ entry_step_appends),
    (for_loop_cons _ _ _ _ group_step_appends), IH.
  unfold declare_entry, as_group. simpl. rewrite declare_records_as_records.
  destruct (Spec.declare_group (risk, l)) as [ys|]; simpl; [|reflexivity].
  destruct (for_loop _ groups []) as [zs|]; simpl; [|reflexivity].
  now rewrite map_app.
Qed.

(** On a source of the shape the annotations assume, the loader does what
    [Patterns.load_patterns] does. *)
Lemma load_patterns_as_source (src : Patterns.pattern_file) :
  load_patterns (as_source src)
  = (ps <- Patterns.load_patterns src ;; Return (map as_pattern ps)).
Proof.
  destruct src as [| |data]; [reflexivity | reflexivity |].
  unfold as_source. rewrite load_patterns_unfold, load_patterns_Json.
  unfold as_document. simpl. unfold getitem.
  rewrite (dict_get_map (fun groups => PyDict (map as_group groups))).
  unfold Patterns.document, Patterns.record, dict in *.
  destruct (dict_get "patterns" data) as [groups|]; simpl; [|reflexivity].
  apply entry_loop_as_groups.
Qed.

End AnyLoader.

(** X17: a file that holds a JSON value loads exactly when the value is
    an object whose entry [patterns] is an object, in which every value
    is a list of objects that each have a [name] and a [pattern], under
    the key [HIGH], [MEDIUM] or [LOW] or, when the list is empty, under
    any key. The empty string and the empty object are accepted in the
    place of a list, and the fields of a record are not checked to be
    strings. *)
Theorem load_patterns_succeeds_iff (data : PyValue.pyvalue) :
  (exists ps, PatternLoader.load_patterns (PatternLoader.Json data) = Return ps)
  <-> Props.loadable_document data.
Proof. apply load_patterns_loadable. Qed.

(** X18: the loader fails as a whole, never with a partial list, and
    catches nothing. On a missing file it raises [FileNotFoundError]; when
    opening or decoding the file raises, it raises the same; on a JSON
    value it raises a [TypeError] for a value that is no object, a group
    that cannot be iterated or a record that is no object, an
    [AttributeError] for a [patterns] entry that is no object, and a
    [KeyError] for a missing [patterns], for the missing [name] or
    [pattern] of a record, or for the key of a group with a record that
    is not a risk level. *)
Theorem load_patterns_error (src : PatternLoader.pattern_file) (e : exn) :
  PatternLoader.load_patterns src = Raise e ->
  match src with
  | PatternLoader.NoSuchFile => e = FileNotFoundError
  | PatternLoader.Unreadable e' => e = e'
  | PatternLoader.Json data => Props.document_fault data e
  end.
Proof.
  destruct src as [|e'|data]; [now intros [= <-] | now intros [= <-] |].
  apply load_patterns_fault.
Qed.

Lemma load_patterns_error_witness :
  Props.document_fault Sample2.high_null PyValue.TypeError.
Proof.
  apply (load_patterns_error (PatternLoader.Json Sample2.high_null) PyValue.TypeError).
  reflexivity.
Defined.

(** Documents of other shapes than the annotated one: a [patterns] entry
    that is a list, a group that is [null], and a document with an empty
    string for a group and a number for a name, which loads. *)
Example load_patterns_other_shapes :
  PatternLoader.load_patterns (PatternLoader.Json Sample2.patterns_list)
  = Raise PyValue.AttributeError
  /\ PatternLoader.load_patterns (PatternLoader.Json Sample2.high_null)
     = Raise PyValue.TypeError
  /\ PatternLoader.load_patterns (PatternLoader.Json Sample2.numbered_name)
     = Return [ {| PatternLoader.name := PyValue.PyNumber "7";
                   PatternLoader.pattern := PyValue.PyStr "b";
                   PatternLoader.risk_level := Patterns.LOW;
                   PatternLoader.description := PyValue.PyStr "" |} ]
  /\ PatternLoader.load_patterns
       (PatternLoader.Unreadable UnicodeDecodeError)
     = Raise UnicodeDecodeError.
Proof. repeat split. Qed.

(** A document with an empty group [URGENT] loads; a document with a
    record in a group [CRITICAL] does not. *)
Example load_patterns_unknown_level :
  Patterns.load_patterns (Patterns.Json Sample2.empty_unknown_level)
  = Return (Detector.patterns Sample.detector)
  /\ Patterns.load_patterns (Patterns.Json Sample.bad_expression_and_bad_key)
     = Raise (KeyError "CRITICAL").
Proof. split; reflexivity. Qed.

(** * The S3 text parser *)

Section LambdaFacts.
Import Fs PyValue Lambda Props.

Lemma lookups_cases (event : S3Event) :
  (exists info, lookups event = Return info)
  \/ (exists cause, lookups event = Raise cause
                    /\ is_KeyError_or_IndexError cause = true
                    /\ (cause = IndexError \/ cause = KeyError_0
                        \/ exists k, cause = KeyError k))
  \/ lookups event = Raise TypeError.
Proof.
  unfold lookups.
  destruct (subscript_cases event "Records") as [[records ->]|[->| ->]]; simpl;
    [|right; left; eexists; repeat split; eauto | now right; right].
  destruct (subscript_0_cases records) as [[record ->]|[->|[->| ->]]]; simpl;
    [|right; left; eexists; repeat split; eauto
     |right; left; eexists; repeat split; eauto | now right; right].
  destruct (subscript_cases record "s3") as [[recode ->]|[->| ->]]; simpl;
    [|right; left; eexists; repeat split; eauto | now right; right].
  destruct (subscript_cases recode "bucket") as [[bucket_entry ->]|[->| ->]]; simpl;
    [|right; left; eexists; repeat split; eauto | now right; right].
  destruct (subscript_cases bucket_entry "name") as [[bucket ->]|[->| ->]]; simpl;
    [|right; left; eexists; repeat split; eauto | now right; right].
  destruct (subscript_cases recode "object") as [[object_entry ->]|[->| ->]]; simpl;
    [|right; left; eexists; repeat split; eauto | now right; right].
  destruct (subscript_cases object_entry "key") as [[key ->]|[->| ->]]; simpl;
    [|right; left; eexists; repeat split; eauto | now right; right].
  left. eauto.
Qed.

Lemma get_s3_info_cases (event : S3Event) :
  (exists bucket key, get_s3_info event = (Return (bucket, key), []))
  \/ (exists cause, get_s3_info event = (Raise invalid_event, [(ERROR, cause)])
                    /\ (cause = IndexError \/ cause = KeyError_0
                        \/ exists k, cause = KeyError k))
  \/ get_s3_info event = (Raise TypeError, []).
Proof.
  unfold get_s3_info.
  destruct (lookups_cases event) as [([bucket key] & ->)|[(cause & -> & Hc & Hk)| ->]].
  - left. eauto.
  - rewrite Hc. right. left. eauto.
  - right. right. reflexivity.
Qed.

Lemma get_s3_info_Return (event : S3Event) (info : pyvalue * pyvalue) :
  fst (get_s3_info event) = Return info -> get_s3_info event = (Return info, []).
Proof.
  destruct (get_s3_info_cases event) as [(b & k & ->)|[(e & -> & _)| ->]]; simpl.
  - now intros [= <-].
  - discriminate.
  - discriminate.
Qed.

Lemma get_s3_info_Raise (event : S3Event) (e : exn) :
  fst (get_s3_info event) = Raise e ->
  (exists cause, get_s3_info event = (Raise invalid_event, [(ERROR, cause)])
                 /\ e = invalid_event
                 /\ (cause = IndexError \/ cause = KeyError_0
                     \/ exists k, cause = KeyError k))
  \/ (get_s3_info event = (Raise TypeError, []) /\ e = TypeError).
Proof.
  destruct (get_s3_info_cases event) as [(b & k & ->)|[(cause & -> & Hc)| ->]]; simpl.
  - discriminate.
  - intros [= <-]. left. eauto.
  - intros [= <-]. right. auto.
Qed.

Lemma for_loop_fold_in {S A : Type} (body : S -> A -> outcome S) (step : S -> A -> S)
    (l : list A) (acc : S) :
  (forall acc x, In x l -> body acc x = Return (step acc x)) ->
  for_loop body l acc = Return (fold_left step l acc).
Proof.
  revert acc. induction l as [|x l IH]; intros acc Hb; simpl; [reflexivity|].
  rewrite Hb by now left. simpl. apply IH. intros acc' y Hy. apply Hb. now right.
Qed.

Lemma matching_lines_cons {E : Detector.ReEngine} (re : Detector.regex E)
    (line : pystr) (lines : list pystr) (start : Z) :
  matching_lines re (line :: lines) start
  = match Detector.finditer E re line with
    | [] => matching_lines re lines (start + 1)
    | _ :: _ => start :: matching_lines re lines (start + 1)
    end.
Proof.
  unfold matching_lines. simpl.
  destruct (Detector.finditer E re line); reflexivity.
Qed.

Lemma matching_lines_range {E : Detector.ReEngine} (re : Detector.regex E)
    (lines : list pystr) (start n : Z) :
  In n (matching_lines re lines start) -> (start <= n < start + len lines)%Z.
Proof.
  unfold matching_lines. intros Hn. apply in_map_iff in Hn.
  destruct Hn as ([n' line] & <- & Hin). apply filter_In in Hin.
  destruct Hin as [Hin _]. now apply enumerate_In_range in Hin.
Qed.

Lemma matching_lines_sorted {E : Detector.ReEngine} (re : Detector.regex E)
    (lines : list pystr) (start : Z) :
  StronglySorted Z.lt (matching_lines re lines start).
Proof.
  revert start. induction lines as [|line lines IH]; intros start.
  - constructor.
  - rewrite matching_lines_cons.
    destruct (Detector.finditer E re line); [apply IH|].
    constructor; [apply IH|]. apply Forall_forall. intros n Hn.
    apply matching_lines_range in Hn. lia.
Qed.

Lemma set_add_new (x : Z) (s : list Z) :
  Forall (fun y => (y < x)%Z) s -> set_add x s = x :: s.
Proof.
  intros Hs. unfold set_add.
  replace (existsb (Z.eqb x) s) with false; [reflexivity|].
  symmetry. induction Hs as [|y s Hy _ IH]; simpl; [reflexivity|].
  rewrite IH, orb_false_r. apply Z.eqb_neq. lia.
Qed.

Lemma line_loop {E : Detector.ReEngine} (pattern : string) (re : Detector.regex E)
    (lines : list pystr) (start : Z) (acc : list Z) :
  Detector.re_compile E pattern = Some re ->
  Forall (fun y => (y < start)%Z) acc ->
  for_loop
    (fun line_numbers '(line_number, line) =>
       found <- re_search E pattern line ;;
       Return (if found then set_add line_number line_numbers else line_numbers))
    (enumerate lines start) acc
  = Return (rev (matching_lines re lines start) ++ acc).
Proof.
  intros Hre. revert start acc.
  induction lines as [|line lines IH]; intros start acc Hacc; [reflexivity|].
  rewrite matching_lines_cons. cbn [enumerate for_loop].
  unfold re_search at 1. rewrite Hre. cbn [bind].
  destruct (Detector.finditer E re line) as [|m ms].
  - rewrite IH; [reflexivity|].
    apply Forall_forall. intros y Hy.
    pose proof (proj1 (Forall_forall _ _) Hacc y Hy). simpl in *. lia.
  - rewrite (set_add_new start acc Hacc), IH.
    + simpl. now rewrite <- app_assoc.
    + constructor; [lia|]. apply Forall_forall. intros y Hy.
      pose proof (proj1 (Forall_forall _ _) Hacc y Hy). simpl in *. lia.
Qed.

Lemma insert_sorted_last (x : Z) (l : list Z) :
  Forall (fun y => (y < x)%Z) l -> insert_sorted x l = l ++ [x].
Proof.
  induction 1 as [|y l Hy _ IH]; simpl; [reflexivity|].
  replace (x <=? y)%Z with false by (symmetry; apply Z.leb_gt; lia).
  now rewrite IH.
Qed.

Lemma insert_loop (l acc : list Z) :
  StronglySorted Z.lt (acc ++ l) ->
  fold_left (fun acc x => insert_sorted x acc) l acc = acc ++ l.
Proof.
  revert acc. induction l as [|x l IH]; intros acc Hs; simpl.
  - now rewrite app_nil_r.
  - assert (Forall (fun y => (y < x)%Z) acc) as Hacc.
    { clear IH. induction acc as [|a acc IHa]; [constructor|].
      simpl in Hs. inversion Hs as [|? ? Hs' Ha]; subst.
      constructor; [|now apply IHa].
      apply (proj1 (Forall_forall _ _) Ha). apply in_or_app. right. now left. }
    rewrite (insert_sorted_last x acc Hacc), IH; rewrite <- app_assoc; [reflexivity|].
    exact Hs.
Qed.

Lemma sorted_rev (l : list Z) : StronglySorted Z.lt l -> sorted (rev l) = l.
Proof.
  intros Hl. unfold sorted.
  rewrite (fold_left_rev_right insert_sorted l []).
  now apply (insert_loop l []).
Qed.

Lemma located_of_set (ml : list Z) :
  StronglySorted Z.lt ml ->
  match rev ml ++ [] with
  | _ :: _ => Located (len (rev ml ++ [])) (sorted (rev ml ++ []))
  | [] => Absent
  end = located ml.
Proof.
  intros Hml. rewrite app_nil_r.
  destruct ml as [|x ml]; [reflexivity|].
  destruct (rev (x :: ml)) as [|y l] eqn:Hrev.
  - apply (f_equal (@List.length Z)) in Hrev. rewrite length_rev in Hrev. discriminate.
  - rewrite <- Hrev, (sorted_rev _ Hml). unfold located, len.
    now rewrite length_rev.
Qed.

(** What [scan] stores for the pattern [p] on the lines [lines]. *)
Lemma pattern_step {E : Detector.ReEngine} (p : Patterns.DataPattern)
    (re : Detector.regex E) (lines : list pystr) (file_results : dict result) :
  Detector.re_compile E (Patterns.pattern p) = Some re ->
  (line_numbers <-
     for_loop
       (fun line_numbers '(line_number, line) =>
          found <- re_search E (Patterns.pattern p) line ;;
          Return (if found then set_add line_number line_numbers else line_numbers))
       (enumerate lines 1) [] ;;
   Return
     (match line_numbers with
      | _ :: _ =>
          dict_set (Patterns.name p)
                   (Located (len line_numbers) (sorted line_numbers)) file_results
      | [] => dict_set (Patterns.name p) Absent file_results
      end))
  = Return (dict_set (Patterns.name p) (located (matching_lines re lines 1))
                     file_results).
Proof.
  intros Hre. rewrite (line_loop _ re lines 1 [] Hre) by constructor. cbn [bind].
  pose proof (located_of_set _ (matching_lines_sorted re lines 1)) as Hl.
  destruct (rev (matching_lines re lines 1) ++ []) as [|y l]; rewrite <- Hl; reflexivity.
Qed.

Lemma dict_loop_lookup {V : Type} (val : Patterns.PIIPattern -> V)
    (ps : list Patterns.PIIPattern) (d0 : dict V) (n : string) :
  dict_get n (fold_left (fun d p => dict_set (Patterns.name p) (val p) d) ps d0)
  = match last_named n ps with
    | Some p => Some (val p)
    | None => dict_get n d0
    end.
Proof.
  revert d0. induction ps as [|q ps IH]; intros d0; simpl; [reflexivity|].
  rewrite IH. destruct (last_named n ps) as [p|]; [reflexivity|].
  destruct (String.eqb (Patterns.name q) n) eqn:Hn.
  - apply String.eqb_eq in Hn. subst n. now rewrite dict_get_set_eq.
  - apply String.eqb_neq in Hn. now rewrite dict_get_set_neq.
Qed.


End LambdaFacts.

(** X19: when [get_s3_info] raises, it is either the [ValueError] for an
    invalid event, raised after logging the [KeyError] or [IndexError] of
    a missing key or record, or a [TypeError] from a value on the path
    that cannot be subscripted, which its handler does not catch and
    which is not logged. The text parser does not turn either into an
    answer: on such an event [can_handle] raises the same exception
    instead of returning [False], and [extract_text] and [scan] raise an
    [UnboundLocalError] from the handler that was to return [None]. *)
Theorem invalid_event_raises
    (E : Detector.ReEngine) (self : Lambda.TextParser) (s3 : Lambda.S3)
    (event : Lambda.S3Event) (e : exn) :
  fst (Lambda.get_s3_info event) = Raise e ->
  ((e = Lambda.invalid_event
    /\ exists cause,
         snd (Lambda.get_s3_info event) = [(Fs.ERROR, cause)]
         /\ (cause = PyValue.IndexError \/ cause = PyValue.KeyError_0
             \/ exists k, cause = KeyError k))
   \/ (e = PyValue.TypeError /\ snd (Lambda.get_s3_info event) = []))
  /\ fst (Lambda.can_handle self event) = Raise e
  /\ fst (Lambda.extract_text self s3 event) = Raise (Lambda.UnboundLocalError "bucket")
  /\ fst (Lambda.scan E self s3 event) = Raise (Lambda.UnboundLocalError "bucket").
Proof.
  intros Hraise.
  destruct (get_s3_info_Raise event e Hraise)
    as [(cause & Hinfo & -> & Hcause)|[Hinfo ->]].
  - split; [left; split; [reflexivity|]; exists cause; now rewrite Hinfo|].
    unfold Lambda.scan, Lambda.can_handle, Lambda.extract_text. rewrite Hinfo.
    repeat split.
  - split; [right; now rewrite Hinfo|].
    unfold Lambda.scan, Lambda.can_handle, Lambda.extract_text. rewrite Hinfo.
    repeat split.
Qed.

Lemma invalid_event_raises_witness :
  ((PyValue.TypeError = Lambda.invalid_event
    /\ exists cause,
         snd (Lambda.get_s3_info Sample2.records_none) = [(Fs.ERROR, cause)]
         /\ (cause = PyValue.IndexError \/ cause = PyValue.KeyError_0
             \/ exists k, cause = KeyError k))
   \/ (PyValue.TypeError = PyValue.TypeError
       /\ snd (Lambda.get_s3_info Sample2.records_none) = []))
  /\ fst (Lambda.can_handle Sample2.parser Sample2.records_none)
     = Raise PyValue.TypeError
  /\ fst (Lambda.extract_text Sample2.parser Sample2.store Sample2.records_none)
     = Raise (Lambda.UnboundLocalError "bucket")
  /\ fst (Lambda.scan LiteralRe.engine Sample2.parser Sample2.store
                      Sample2.records_none)
     = Raise (Lambda.UnboundLocalError "bucket").
Proof.
  apply (invalid_event_raises LiteralRe.engine Sample2.parser Sample2.store
           Sample2.records_none PyValue.TypeError).
  reflexivity.
Defined.

(** An event without records gives the [ValueError], with the
    [IndexError] in the log; an event whose records are [None] gives a
    [TypeError] and no log. *)
Example get_s3_info_of_invalid_events :
  Lambda.get_s3_info Sample2.no_records
  = (Raise Lambda.invalid_event, [(Fs.ERROR, PyValue.IndexError)])
  /\ Lambda.get_s3_info Sample2.records_none = (Raise PyValue.TypeError, [])
  /\ Lambda.get_s3_info Sample2.event
     = (Return (PyValue.PyStr "mail", PyValue.PyStr "inbox/notes.TXT"), []).
Proof. repeat split. Qed.

(** X20: on an event that names a bucket and a key, [extract_text] never
    raises. It returns the decoded text when the object can be fetched and
    decoded, and otherwise [None] with one error record, after which
    [scan] returns the empty dictionary. For a body that is not valid in
    the encoding, the error that is recorded is the [UnboundLocalError] of
    the inner handler, not the decoding error. *)
Theorem extract_text_of_valid_event
    (E : Detector.ReEngine) (self : Lambda.TextParser) (s3 : Lambda.S3)
    (event : Lambda.S3Event) (bucket key : PyValue.pyvalue) :
  fst (Lambda.get_s3_info event) = Return (bucket, key) ->
  (exists answer log, Lambda.extract_text self s3 event = (Return answer, log))
  /\ (forall text,
         Lambda.get_object (s3 bucket key) = Return tt ->
         Lambda.decode (s3 bucket key) = Return text ->
         Lambda.extract_text self s3 event = (Return (Some text), []))
  /\ (forall e,
         Lambda.get_object (s3 bucket key) = Raise e ->
         Lambda.extract_text self s3 event = (Return None, [(Fs.ERROR, e)]))
  /\ (forall e,
         Lambda.get_object (s3 bucket key) = Return tt ->
         Lambda.decode (s3 bucket key) = Raise e ->
         Lambda.extract_text self s3 event
         = (Return None,
            [(Fs.ERROR, match e with
                        | UnicodeDecodeError => Lambda.UnboundLocalError "e"
                        | _ => e
                        end)]))
  /\ (fst (Lambda.extract_text self s3 event) = Return None ->
      fst (Lambda.scan E self s3 event) = Return []).
Proof.
  intros Hinfo. apply get_s3_info_Return in Hinfo.
  split; [|split; [|split; [|split]]].
  - unfold Lambda.extract_text. rewrite Hinfo.
    destruct (Lambda.get_object (s3 bucket key)) as [u|e]; simpl; [|eauto].
    destruct (Lambda.decode (s3 bucket key)) as [text|e]; [eauto|].
    destruct e; eauto.
  - intros text Hget Hdecode. unfold Lambda.extract_text.
    now rewrite Hinfo, Hget, Hdecode.
  - intros e Hget. unfold Lambda.extract_text. now rewrite Hinfo, Hget.
  - intros e Hget Hdecode. unfold Lambda.extract_text.
    rewrite Hinfo, Hget, Hdecode. destruct e; reflexivity.
  - intros Hnone. unfold Lambda.scan.
    destruct (Lambda.extract_text self s3 event) as [[[text|]|e] log];
      simpl in Hnone; try discriminate. reflexivity.
Qed.

Lemma extract_text_of_valid_event_witness :
  (exists answer log,
      Lambda.extract_text Sample2.parser Sample2.undecodable_store Sample2.event
      = (Return answer, log))
  /\ (forall text,
         Lambda.get_object (Sample2.undecodable_store (PyValue.PyStr "mail")
                                               (PyValue.PyStr "inbox/notes.TXT"))
         = Return tt ->
         Lambda.decode (Sample2.undecodable_store (PyValue.PyStr "mail")
                                               (PyValue.PyStr "inbox/notes.TXT"))
         = Return text ->
         Lambda.extract_text Sample2.parser Sample2.undecodable_store Sample2.event
         = (Return (Some text), []))
  /\ (forall e,
         Lambda.get_object (Sample2.undecodable_store (PyValue.PyStr "mail")
                                               (PyValue.PyStr "inbox/notes.TXT"))
         = Raise e ->
         Lambda.extract_text Sample2.parser Sample2.undecodable_store Sample2.event
         = (Return None, [(Fs.ERROR, e)]))
  /\ (forall e,
         Lambda.get_object (Sample2.undecodable_store (PyValue.PyStr "mail")
                                               (PyValue.PyStr "inbox/notes.TXT"))
         = Return tt ->
         Lambda.decode (Sample2.undecodable_store (PyValue.PyStr "mail")
                                               (PyValue.PyStr "inbox/notes.TXT")) = Raise e ->
         Lambda.extract_text Sample2.parser Sample2.undecodable_store Sample2.event
         = (Return None,
            [(Fs.ERROR, match e with
                        | UnicodeDecodeError => Lambda.UnboundLocalError "e"
                        | _ => e
                        end)]))
  /\ (fst (Lambda.extract_text Sample2.parser Sample2.undecodable_store Sample2.event)
      = Return None ->
      fst (Lambda.scan LiteralRe.engine Sample2.parser Sample2.undecodable_store
                       Sample2.event)
      = Return []).
Proof.
  apply (extract_text_of_valid_event LiteralRe.engine Sample2.parser
           Sample2.undecodable_store Sample2.event
           (PyValue.PyStr "mail") (PyValue.PyStr "inbox/notes.TXT")).
  reflexivity.
Defined.

Section ScanLoop.
Import Fs Lambda Props.
Context (E : Detector.ReEngine).

Lemma scan_unfold (self : TextParser) (s3 : S3) (event : S3Event) (text : pystr) :
  fst (extract_text self s3 event) = Return (Some text) ->
  fst (scan E self s3 event)
  = for_loop (pattern_body E (splitlines text)) (patterns self) [("Type", Label "Text")].
Proof.
  intros Htext. unfold scan.
  destruct (extract_text self s3 event) as [[[text'|]|e] log]; simpl in Htext;
    try discriminate.
  injection Htext as ->. reflexivity.
Qed.

Lemma pattern_loop_compiled (lines : list pystr) (ps : list Patterns.DataPattern)
    (file_results : dict result) :
  Forall (fun p => Detector.re_compile E (Patterns.pattern p) <> None) ps ->
  for_loop (pattern_body E lines) ps file_results
  = Return (fold_left (fun d p => dict_set (Patterns.name p) (stored E lines p) d)
                      ps file_results).
Proof.
  intros Hps. apply for_loop_fold_in. intros acc p Hp.
  pose proof (proj1 (Forall_forall _ _) Hps p Hp) as Hre.
  unfold stored, pattern_body.
  destruct (Detector.re_compile E (Patterns.pattern p)) as [re|] eqn:Hc; [|congruence].
  now apply pattern_step.
Qed.



End ScanLoop.

(** X21: when the text of the object is extracted and every expression
    compiles, [scan] returns a dictionary that holds, under the name of
    every pattern, the result for the last pattern of that name: [None]
    when no line has a match, and otherwise the numbers (from 1, in
    ascending order, each once) of the lines that have a match, with their
    count as [pii-total]; a line with several matches counts once. Every
    other key is absent, except [Type], which holds [Text]. *)
Theorem scan_locates_matching_lines
    (E : Detector.ReEngine) (self : Lambda.TextParser) (s3 : Lambda.S3)
    (event : Lambda.S3Event) (text : pystr) :
  fst (Lambda.extract_text self s3 event) = Return (Some text) ->
  Forall (fun p => Detector.re_compile E (Patterns.pattern p) <> None)
         (Lambda.patterns self) ->
  exists d,
    fst (Lambda.scan E self s3 event) = Return d
    /\ (forall p, In p (Lambda.patterns self) ->
          exists q re,
            Props.last_named (Patterns.name p) (Lambda.patterns self) = Some q
            /\ Detector.re_compile E (Patterns.pattern q) = Some re
            /\ dict_get (Patterns.name p) d
               = Some (Props.located (Props.matching_lines re (splitlines text) 1)))
    /\ (forall n, Props.last_named n (Lambda.patterns self) = None ->
                  dict_get n d = if String.eqb n "Type"
                                 then Some (Lambda.Label "Text") else None)
    /\ (forall re : Detector.regex E,
          StronglySorted Z.lt (Props.matching_lines re (splitlines text) 1)
                   /\ forall n, In n (Props.matching_lines re (splitlines text) 1) ->
                                (1 <= n <= len (splitlines text))%Z).
Proof.
  intros Htext Hps. rewrite (scan_unfold E self s3 event text Htext).
  rewrite (pattern_loop_compiled E _ _ _ Hps).
  eexists. split; [reflexivity|]. split; [|split].
  - intros p Hp. rewrite dict_loop_lookup.
    destruct (last_named_some (Lambda.patterns self) p Hp) as (q & Hq).
    rewrite Hq. destruct (last_named_In _ _ _ Hq) as [Hqin _].
    pose proof (proj1 (Forall_forall _ _) Hps q Hqin) as Hre.
    unfold Props.stored.
    destruct (Detector.re_compile E (Patterns.pattern q)) as [re|] eqn:Hc;
      [|congruence].
    exists q, re. auto.
  - intros n Hn. rewrite dict_loop_lookup, Hn. reflexivity.
  - intros re. split; [apply matching_lines_sorted|].
    intros n Hn. apply matching_lines_range in Hn. lia.
Qed.

Lemma scan_locates_matching_lines_witness :
  exists d,
    fst (Lambda.scan LiteralRe.engine Sample2.parser Sample2.store Sample2.event)
    = Return d
    /\ (forall p, In p (Lambda.patterns Sample2.parser) ->
          exists q re,
            Props.last_named (Patterns.name p) (Lambda.patterns Sample2.parser) = Some q
            /\ Detector.re_compile LiteralRe.engine (Patterns.pattern q) = Some re
            /\ dict_get (Patterns.name p) d
               = Some (Props.located
                         (Props.matching_lines re (splitlines Sample.two_lines) 1)))
    /\ (forall n, Props.last_named n (Lambda.patterns Sample2.parser) = None ->
                  dict_get n d = if String.eqb n "Type"
                                 then Some (Lambda.Label "Text") else None)
    /\ (forall re : Detector.regex LiteralRe.engine,
          StronglySorted Z.lt (Props.matching_lines re (splitlines Sample.two_lines) 1)
          /\ forall n, In n (Props.matching_lines re (splitlines Sample.two_lines) 1) ->
                       (1 <= n <= len (splitlines Sample.two_lines))%Z).
Proof.
  apply (scan_locates_matching_lines LiteralRe.engine Sample2.parser Sample2.store
           Sample2.event Sample.two_lines).
  - reflexivity.
  - repeat constructor; discriminate.
Defined.



(** * Detection line by line *)

Section LineLocal.
Import Detector Props.
Context {E : ReEngine}.

Lemma findings_in_line_shift (d : PIIDetector E) (c n : Z) (line : pystr) :
  Spec.findings_in_line d c ((n + 1)%Z, line)
  = map (shift_line 1) (Spec.findings_in_line d c (n, line)).
Proof.
  unfold Spec.findings_in_line.
  induction (patterns d) as [|p ps IH]; simpl; [reflexivity|].
  rewrite map_app, IH. f_equal. unfold Spec.findings. simpl.
  destruct (dict_get (Patterns.name p) (compiled_patterns d)); [|reflexivity].
  rewrite map_map. reflexivity.
Qed.

Lemma findings_enumerate_shift (d : PIIDetector E) (c : Z) (lines : list pystr)
    (start : Z) :
  flat_map (Spec.findings_in_line d c) (enumerate lines (start + 1))
  = map (shift_line 1) (flat_map (Spec.findings_in_line d c) (enumerate lines start)).
Proof.
  revert start. induction lines as [|line lines IH]; intros start; simpl; [reflexivity|].
  now rewrite map_app, IH, findings_in_line_shift.
Qed.

Lemma findings_in_text_first_line (d : PIIDetector E) (c : Z) (seg rest : pystr) :
  Spec.no_linebreak seg ->
  Spec.findings_in_text d (seg ++ [LF] ++ rest) c
  = Spec.findings_in_line d c (1%Z, seg)
    ++ map (shift_line 1) (Spec.findings_in_text d rest c).
Proof.
  intros Hseg. unfold Spec.findings_in_text.
  rewrite (splitlines_segment_LF seg rest Hseg). simpl. f_equal.
  apply (findings_enumerate_shift d c (splitlines rest) 1).
Qed.

Lemma findings_in_text_one_line (d : PIIDetector E) (c : Z) (seg : pystr) :
  Spec.no_linebreak seg -> seg <> [] ->
  Spec.findings_in_text d seg c = Spec.findings_in_line d c (1%Z, seg).
Proof.
  intros Hseg Hne. unfold Spec.findings_in_text.
  destruct seg as [|x seg]; [contradiction|].
  rewrite (splitlines_segment x seg Hseg). simpl. apply app_nil_r.
Qed.

End LineLocal.

(** X23: detection works line by line. For a first line without a line
    boundary, followed by a line feed and the rest of the text, [detect]
    returns the findings of that line, then the findings of the rest with
    their line numbers moved by one and nothing else changed; what lies
    on one line has no influence on the findings of another. *)
Theorem detect_is_line_by_line
    (E : Detector.ReEngine) (src : Patterns.pattern_file) (d : Detector.PIIDetector E)
    (seg rest : pystr) (context_chars : Z) :
  Detector.__init__ E src = Return d ->
  Spec.no_linebreak seg ->
  exists tail,
    Detector.detect d rest context_chars = Return tail
    /\ Detector.detect d (seg ++ [LF] ++ rest) context_chars
       = Return (Spec.findings_in_line d context_chars (1%Z, seg)
                 ++ map (Props.shift_line 1) tail)
    /\ (seg <> [] ->
        Detector.detect d seg context_chars
        = Return (Spec.findings_in_line d context_chars (1%Z, seg))).
Proof.
  intros Hinit Hseg. pose proof (init_all_compiled E src d Hinit) as Hd.
  exists (Spec.findings_in_text d rest context_chars).
  rewrite !(detect_all_compiled E d _ _ Hd). split; [reflexivity|]. split.
  - now rewrite findings_in_text_first_line.
  - intros Hne. now rewrite findings_in_text_one_line.
Qed.

Lemma detect_is_line_by_line_witness :
  exists tail,
    Detector.detect Sample.detector (str_of "b 950101-1234567") 2 = Return tail
    /\ Detector.detect Sample.detector
         (str_of "abba" ++ [LF] ++ str_of "b 950101-1234567") 2
       = Return (Spec.findings_in_line Sample.detector 2 (1%Z, str_of "abba")
                 ++ map (Props.shift_line 1) tail)
    /\ (str_of "abba" <> [] ->
        Detector.detect Sample.detector (str_of "abba") 2
        = Return (Spec.findings_in_line Sample.detector 2 (1%Z, str_of "abba"))).
Proof.
  apply (detect_is_line_by_line LiteralRe.engine (Patterns.Json Sample.two_groups)).
  - reflexivity.
  - repeat constructor.
Defined.
